(** * ddsm-back-end: posts, comments, likes and pagination

    A shallow embedding of the storage layer ([src/db/posts.js],
    [src/db/users.js]) and of the request handlers built on it
    ([src/controllers/posts.js], [src/controllers/profile.js]).

    [src/db/posts.js] holds two revisions of the module, one after the
    other.  The embedding follows the first, the one with [fetchPosts]; the
    second adds doc comments, and its [deleteAllPosts] deletes without
    lowering any counter.

    The four Mongoose collections are lists of records kept in insertion
    order.  Every function of the source that awaits a query is a computation
    in a state-and-exception monad over the [World]: the collections, the
    source of fresh ObjectIds, the clock read by [Date.now], and the log of the
    storage accesses made so far. *)

From Stdlib Require Import List ZArith Lia String Ascii Bool Arith.
From Stdlib Require Import Permutation Sorted QArith Qround Strings.Byte.
Import ListNotations.

Close Scope Q_scope.
Open Scope Z_scope.
Open Scope list_scope.

(** ** Schemas *)

(** A valid ObjectId.  Request parameters that are not valid ObjectIds are
    turned away by the middlewares before any function modelled here runs. *)
Definition ObjectId := nat.
Bind Scope nat_scope with ObjectId.

(** Milliseconds since the epoch, the numeric value of a [Date]. *)
Definition Date := Z.

(** The bytes of a Node.js [Buffer]. *)
Definition Buffer := list byte.

Module User.
(** [userSchema], without the credential material and the profile fields
    (country, date of birth, biography, creation date) no modelled function
    reads or writes. *)
Record t := mk {
  _id : ObjectId;
  username : string;
  email : string;
  first_name : string;
  last_name : string;
  profile_picture : option Buffer;
  profile_is_archived : bool
}.

Definition set_profile_is_archived (b : bool) (u : t) : t :=
  mk (_id u) (username u) (email u) (first_name u) (last_name u)
     (profile_picture u) b.
End User.

Module Post.
(** [postSchema], as stored.  The two counters are doubles that hold whole
    numbers, far below [2^53]. *)
Record t := mk {
  _id : ObjectId;
  post_owner_id : ObjectId;
  post_content : string;
  post_timestamp : Date;
  post_is_archived : bool;
  post_like_count : Z;
  post_comment_count : Z
}.

Definition set_post_is_archived (b : bool) (p : t) : t :=
  mk (_id p) (post_owner_id p) (post_content p) (post_timestamp p) b
     (post_like_count p) (post_comment_count p).

Definition set_post_like_count (n : Z) (p : t) : t :=
  mk (_id p) (post_owner_id p) (post_content p) (post_timestamp p)
     (post_is_archived p) n (post_comment_count p).

Definition set_post_comment_count (n : Z) (p : t) : t :=
  mk (_id p) (post_owner_id p) (post_content p) (post_timestamp p)
     (post_is_archived p) (post_like_count p) n.
End Post.

Module PostDoc.
(** A post document as a query hands it to the application.  The schema
    declares [post_is_archived] with [select: false], so a document that was
    read has no such field ([None]) until the application assigns it. *)
Record t := mk {
  _id : ObjectId;
  post_owner_id : ObjectId;
  post_content : string;
  post_timestamp : Date;
  post_is_archived : option bool;
  post_like_count : Z;
  post_comment_count : Z
}.

Definition of_post (p : Post.t) : t :=
  mk (Post._id p) (Post.post_owner_id p) (Post.post_content p)
     (Post.post_timestamp p) None (Post.post_like_count p)
     (Post.post_comment_count p).

Definition set_post_is_archived (b : bool) (d : t) : t :=
  mk (_id d) (post_owner_id d) (post_content d) (post_timestamp d) (Some b)
     (post_like_count d) (post_comment_count d).

Definition set_post_like_count (n : Z) (d : t) : t :=
  mk (_id d) (post_owner_id d) (post_content d) (post_timestamp d)
     (post_is_archived d) n (post_comment_count d).

Definition set_post_comment_count (n : Z) (d : t) : t :=
  mk (_id d) (post_owner_id d) (post_content d) (post_timestamp d)
     (post_is_archived d) (post_like_count d) n.
End PostDoc.

Module Comment.
(** [commentSchema]. *)
Record t := mk {
  _id : ObjectId;
  post_id : ObjectId;
  comment_owner_id : ObjectId;
  comment_content : string;
  comment_timestamp : Date
}.
End Comment.

Module Like.
(** [likeSchema]. *)
Record t := mk {
  _id : ObjectId;
  post_id : ObjectId;
  like_owner_id : ObjectId;
  like_timestamp : Date
}.
End Like.

(** ** The world *)

Inductive Collection := Users | Posts | Comments | Likes.

(** The Mongoose calls the source makes. *)
Inductive Verb :=
| Find | FindOne | FindById | Save | Create | FindByIdAndUpdate
| DeleteMany | DeleteOne | FindOneAndDelete | FindByIdAndDelete.

Definition Access := (Collection * Verb)%type.

Record World := mkWorld {
  users : list User.t;
  posts : list Post.t;
  comments : list Comment.t;
  likes : list Like.t;
  next_id : ObjectId;
  clock : Date;
  log : list Access
}.

Definition set_users (l : list User.t) (w : World) : World :=
  mkWorld l (posts w) (comments w) (likes w) (next_id w) (clock w) (log w).

Definition set_posts (l : list Post.t) (w : World) : World :=
  mkWorld (users w) l (comments w) (likes w) (next_id w) (clock w) (log w).

Definition set_comments (l : list Comment.t) (w : World) : World :=
  mkWorld (users w) (posts w) l (likes w) (next_id w) (clock w) (log w).

Definition set_likes (l : list Like.t) (w : World) : World :=
  mkWorld (users w) (posts w) (comments w) l (next_id w) (clock w) (log w).

Definition set_next_id (n : ObjectId) (w : World) : World :=
  mkWorld (users w) (posts w) (comments w) (likes w) n (clock w) (log w).

Definition set_log (l : list Access) (w : World) : World :=
  mkWorld (users w) (posts w) (comments w) (likes w) (next_id w) (clock w) l.

(** ** Computations: state, and exceptions that keep the state *)

Inductive Error :=
| TypeError             (* a property read on [null] or [undefined] *)
| ValidationError       (* a [required] path is missing or empty on save *)
| DocumentNotFoundError (* [save] of a document that is no longer stored *)
| MongoServerError.     (* the server refuses the query *)

Inductive Outcome (A : Type) :=
| Ok (a : A)
| Throw (e : Error).
Arguments Ok {A} a.
Arguments Throw {A} e.

Definition M (A : Type) := World -> Outcome A * World.

Definition ret {A} (a : A) : M A := fun w => (Ok a, w).

Definition throw {A} (e : Error) : M A := fun w => (Throw e, w).

Definition bind {A B} (m : M A) (k : A -> M B) : M B :=
  fun w =>
    match m w with
    | (Ok a, w') => k a w'
    | (Throw e, w') => (Throw e, w')
    end.

Definition try_catch {A} (m : M A) (handler : Error -> M A) : M A :=
  fun w =>
    match m w with
    | (Ok a, w') => (Ok a, w')
    | (Throw e, w') => handler e w'
    end.

Declare Scope db_scope.
Delimit Scope db_scope with db.
Notation "x <- m ;; k" := (bind m (fun x => k))
  (at level 61, m at next level, right associativity) : db_scope.
Notation "m ;; k" := (bind m (fun _ => k))
  (at level 61, right associativity) : db_scope.
Open Scope db_scope.

Definition gets {A} (f : World -> A) : M A := fun w => (Ok (f w), w).

Definition modify (f : World -> World) : M unit := fun w => (Ok tt, f w).

Definition lift {A} (o : Outcome A) : M A := fun w => (o, w).

(** Every query is recorded when it reaches the storage. *)
Definition access (c : Collection) (v : Verb) : M unit :=
  modify (fun w => set_log (log w ++ [(c, v)]) w).

(** A fresh ObjectId for a document being created. *)
Definition newObjectId : M ObjectId :=
  fun w => (Ok (next_id w), set_next_id (S (next_id w)) w).

(** [Date.now], the default of the timestamp paths. *)
Definition Date_now : M Date := gets clock.

(** ** What the queries do to a collection *)

Section Collections.
Context {A : Type}.

(** The first document the filter matches, removed. *)
Fixpoint remove_first (f : A -> bool) (l : list A) : list A :=
  match l with
  | [] => []
  | x :: l' => if f x then l' else x :: remove_first f l'
  end.

(** The first document the filter matches, updated. *)
Fixpoint update_first (f : A -> bool) (g : A -> A) (l : list A) : list A :=
  match l with
  | [] => []
  | x :: l' => if f x then g x :: l' else x :: update_first f g l'
  end.

(** Every document the filter matches, removed. *)
Definition delete_many (f : A -> bool) (l : list A) : list A :=
  filter (fun x => negb (f x)) l.

(** [.skip(n).limit(m)] on the documents a query matched; the server
    refuses a negative skip. *)
Definition skip_limit (n m : Z) (l : list A) : Outcome (list A) :=
  if n <? 0 then Throw MongoServerError
  else Ok (firstn (Z.to_nat m) (skipn (Z.to_nat n) l)).
End Collections.

(** [array.forEach(callback)]: the callback runs on the elements in order. *)
Fixpoint forEach {A} (l : list A) (f : A -> M unit) : M unit :=
  match l with
  | [] => ret tt
  | x :: l' => f x ;; forEach l' f
  end.

(** An async callback nobody awaits: what it throws rejects a promise
    that has no handler, and never reaches the caller. *)
Definition unawaited (m : M unit) : M unit :=
  fun w => (Ok tt, snd (m w)).

(** A [required] string path rejects the empty string. *)
Definition required (s : string) : bool :=
  negb (String.eqb s EmptyString).

(** ** src/db/posts.js *)

Definition itemsToFetch : Z := 5.

(** A page number is a double in the source.  Up to this page, [2^53 / 5],
    the doubles are the integers and [(page - 1) * itemsToFetch] is computed
    exactly, as it is here on [Z]. *)
Definition max_exact_page : Z := 1801439850948198.

Definition has_id (id : ObjectId) (p : Post.t) : bool :=
  (Post._id p =? id)%nat.

(** The filter [{ post_id: id }] on comments, and on likes. *)
Definition of_post_id (id : ObjectId) (c : Comment.t) : bool :=
  (Comment.post_id c =? id)%nat.

Definition likes_post_id (id : ObjectId) (l : Like.t) : bool :=
  (Like.post_id l =? id)%nat.

(** The filter [{ _id: id }] on comments. *)
Definition comment_has_id (id : ObjectId) (c : Comment.t) : bool :=
  (Comment._id c =? id)%nat.

(** [doc.save()] on a post that was read and then assigned to.  When an
    assignment changed a path, the assigned paths, and only those, are written
    to the stored document of the same [_id]; when every assignment put back
    the value the document had, nothing is written and the storage is only
    asked whether the document is still there. *)
Definition PostsModel_save (id : ObjectId) (modified : bool)
  (assigned : Post.t -> Post.t) : M unit :=
  access Posts (if modified then Save else FindOne) ;;
  ps <- gets posts ;;
  if existsb (has_id id) ps
  then
    if modified
    then modify (fun w => set_posts (update_first (has_id id) assigned (posts w)) w)
    else ret tt
  else throw DocumentNotFoundError.

(** [PostsModel.findByIdAndUpdate(id, update)], which returns the document as
    it was and leaves the collection alone when nothing has this id. *)
Definition PostsModel_findByIdAndUpdate (id : ObjectId)
  (update : Post.t -> Post.t) : M (option PostDoc.t) :=
  access Posts FindByIdAndUpdate ;;
  ps <- gets posts ;;
  modify (fun w => set_posts (update_first (has_id id) update (posts w)) w) ;;
  ret (option_map PostDoc.of_post (find (has_id id) ps)).

Definition inc_post_comment_count (d : Z) (p : Post.t) : Post.t :=
  Post.set_post_comment_count (Post.post_comment_count p + d) p.

Definition PostsModel_findById (id : ObjectId) : M (option PostDoc.t) :=
  access Posts FindById ;;
  ps <- gets posts ;;
  ret (option_map PostDoc.of_post (find (has_id id) ps)).

Definition getPostById (id : ObjectId) : M (option PostDoc.t) :=
  PostsModel_findById id.

Definition getPostsByUserId (user_id : ObjectId) (page : Z)
  : M (list PostDoc.t) :=
  access Posts Find ;;
  ps <- gets posts ;;
  found <- lift (skip_limit ((page - 1) * itemsToFetch) itemsToFetch
                   (filter (fun p => (Post.post_owner_id p =? user_id)%nat) ps)) ;;
  ret (map PostDoc.of_post found).

Module PostValues.
Record t := mk { post_owner_id : ObjectId; post_content : string }.
End PostValues.

Definition createNewPost (values : PostValues.t) : M PostDoc.t :=
  id <- newObjectId ;;
  now <- Date_now ;;
  if required (PostValues.post_content values) then
    let p := Post.mk id (PostValues.post_owner_id values)
               (PostValues.post_content values) now false 0 0 in
    access Posts Save ;;
    modify (fun w => set_posts (posts w ++ [p]) w) ;;
    ret (PostDoc.set_post_is_archived false (PostDoc.of_post p))
  else throw ValidationError.

(** Whether the assignment [post.post_is_archived = b] changes the document
    in memory. *)
Definition assigns_post_is_archived (b : bool) (post : PostDoc.t) : bool :=
  match PostDoc.post_is_archived post with
  | Some b' => negb (Bool.eqb b' b)
  | None => true
  end.

Definition archivePost (post : PostDoc.t) : M PostDoc.t :=
  let modified := assigns_post_is_archived true post in
  let post := PostDoc.set_post_is_archived true post in
  PostsModel_save (PostDoc._id post) modified (Post.set_post_is_archived true) ;;
  ret post.

Definition unarchivePost (post : PostDoc.t) : M PostDoc.t :=
  let modified := assigns_post_is_archived false post in
  let post := PostDoc.set_post_is_archived false post in
  PostsModel_save (PostDoc._id post) modified (Post.set_post_is_archived false) ;;
  ret post.

(** [postUpdate(id, { post_content })]. *)
Definition set_post_content (content : string) (p : Post.t) : Post.t :=
  Post.mk (Post._id p) (Post.post_owner_id p) content (Post.post_timestamp p)
    (Post.post_is_archived p) (Post.post_like_count p)
    (Post.post_comment_count p).

Definition postUpdate (id : ObjectId) (post_content : string)
  : M (option PostDoc.t) :=
  PostsModel_findByIdAndUpdate id (set_post_content post_content).

Definition delPost (id : ObjectId) : M (option PostDoc.t) :=
  access Comments DeleteMany ;;
  modify (fun w => set_comments
    (delete_many (of_post_id id) (comments w)) w) ;;
  access Likes DeleteMany ;;
  modify (fun w => set_likes
    (delete_many (likes_post_id id) (likes w)) w) ;;
  access Posts FindByIdAndDelete ;;
  ps <- gets posts ;;
  modify (fun w => set_posts (remove_first (has_id id) (posts w)) w) ;;
  ret (option_map PostDoc.of_post (find (has_id id) ps)).

Module CommentValues.
Record t := mk {
  post_id : ObjectId;
  comment_owner_id : ObjectId;
  comment_content : string
}.
End CommentValues.

Definition createNewComment (values : CommentValues.t) : M Comment.t :=
  try_catch
    (id <- newObjectId ;;
     now <- Date_now ;;
     newComment <-
       (if required (CommentValues.comment_content values) then
          let c := Comment.mk id (CommentValues.post_id values)
                     (CommentValues.comment_owner_id values)
                     (CommentValues.comment_content values) now in
          access Comments Save ;;
          modify (fun w => set_comments (comments w ++ [c]) w) ;;
          ret c
        else throw ValidationError) ;;
     PostsModel_findByIdAndUpdate (CommentValues.post_id values)
       (inc_post_comment_count 1) ;;
     ret newComment)
    (fun error => throw error).

Definition delComment (id : ObjectId) : M (option Comment.t) :=
  try_catch
    (access Comments FindOneAndDelete ;;
     cs <- gets comments ;;
     let deletedComment := find (comment_has_id id) cs in
     modify (fun w => set_comments
       (remove_first (comment_has_id id) (comments w)) w) ;;
     match deletedComment with
     | Some c =>
         PostsModel_findByIdAndUpdate (Comment.post_id c)
           (inc_post_comment_count (-1)) ;;
         ret tt
     | None => ret tt
     end ;;
     ret deletedComment)
    (fun error => throw error).

Definition getCommentById (id : ObjectId) : M (option Comment.t) :=
  access Comments FindById ;;
  cs <- gets comments ;;
  ret (find (comment_has_id id) cs).

Definition getCommentsForPost (postId : ObjectId) (page : Z)
  : M (list Comment.t) :=
  access Comments Find ;;
  cs <- gets comments ;;
  lift (skip_limit ((page - 1) * itemsToFetch) itemsToFetch
          (filter (of_post_id postId) cs)).

Module LikeValues.
Record t := mk { post_id : ObjectId; like_owner_id : ObjectId }.
End LikeValues.

Definition same_like (values : LikeValues.t) (l : Like.t) : bool :=
  (Like.post_id l =? LikeValues.post_id values)%nat
  && (Like.like_owner_id l =? LikeValues.like_owner_id values)%nat.

Definition LikeModel_findOne (values : LikeValues.t) : M (option Like.t) :=
  access Likes FindOne ;;
  ls <- gets likes ;;
  ret (find (same_like values) ls).

Definition createNewLike (values : LikeValues.t) : M Z :=
  existingLike <- LikeModel_findOne values ;;
  match existingLike with
  | Some _ => ret 200
  | None =>
      post <- PostsModel_findById (LikeValues.post_id values) ;;
      match post with
      | None => throw TypeError
      | Some post =>
          let post :=
            PostDoc.set_post_like_count (PostDoc.post_like_count post + 1) post in
          PostsModel_save (PostDoc._id post) true
            (Post.set_post_like_count (PostDoc.post_like_count post)) ;;
          id <- newObjectId ;;
          now <- Date_now ;;
          access Likes Create ;;
          modify (fun w => set_likes
            (likes w ++ [Like.mk id (LikeValues.post_id values)
                           (LikeValues.like_owner_id values) now]) w) ;;
          ret 201
      end
  end.

(** The body of the callback [deleteAllPosts] runs on every comment of the
    user: the post of the comment is read, its counter lowered in memory and
    the document saved. *)
Definition lower_comment_count (comment : Comment.t) : M unit :=
  access Posts Find ;;
  ps <- gets posts ;;
  let targetPost :=
    map PostDoc.of_post (filter (has_id (Comment.post_id comment)) ps) in
  match targetPost with
  | [] => throw TypeError
  | post :: _ =>
      let post :=
        PostDoc.set_post_comment_count (PostDoc.post_comment_count post - 1) post in
      PostsModel_save (PostDoc._id post) true
        (Post.set_post_comment_count (PostDoc.post_comment_count post))
  end.

(** The same for every like of the user. *)
Definition lower_like_count (like : Like.t) : M unit :=
  access Posts Find ;;
  ps <- gets posts ;;
  let targetPost :=
    map PostDoc.of_post (filter (has_id (Like.post_id like)) ps) in
  match targetPost with
  | [] => throw TypeError
  | post :: _ =>
      let post :=
        PostDoc.set_post_like_count (PostDoc.post_like_count post - 1) post in
      PostsModel_save (PostDoc._id post) true
        (Post.set_post_like_count (PostDoc.post_like_count post))
  end.

(** [deleteAllPosts] hands async callbacks to [forEach], which awaits none of
    them.  Here every callback runs to its end at the point where it is
    started; in the source its queries may also reach the storage after the
    queries that follow.  The callbacks only save counters of posts that are
    still stored, so which posts, comments and likes remain is the same either
    way. *)
Definition deleteAllPosts (id : ObjectId) : M unit :=
  try_catch
    (access Comments Find ;;
     cs <- gets comments ;;
     let commentList :=
       filter (fun c => (Comment.comment_owner_id c =? id)%nat) cs in
     forEach commentList (fun comment => unawaited (lower_comment_count comment)) ;;
     access Likes Find ;;
     ls <- gets likes ;;
     let likeList := filter (fun l => (Like.like_owner_id l =? id)%nat) ls in
     forEach likeList (fun like => unawaited (lower_like_count like)) ;;
     access Posts DeleteMany ;;
     modify (fun w => set_posts
       (delete_many (fun p => (Post.post_owner_id p =? id)%nat) (posts w)) w) ;;
     access Comments DeleteMany ;;
     modify (fun w => set_comments
       (delete_many (fun c => (Comment.comment_owner_id c =? id)%nat)
          (comments w)) w) ;;
     access Likes DeleteMany ;;
     modify (fun w => set_likes
       (delete_many (fun l => (Like.like_owner_id l =? id)%nat) (likes w)) w))
    (fun error => throw error).

Definition getPostLikes (postId : ObjectId) (page : Z) : M (list Like.t) :=
  access Likes Find ;;
  ls <- gets likes ;;
  lift (skip_limit ((page - 1) * itemsToFetch) itemsToFetch
          (filter (likes_post_id postId) ls)).

Definition getLikeById (id : ObjectId) : M (option Like.t) :=
  access Likes FindById ;;
  ls <- gets likes ;;
  ret (find (fun l => (Like._id l =? id)%nat) ls).

Definition delLike (values : LikeValues.t) : M Z :=
  existingLike <- LikeModel_findOne values ;;
  match existingLike with
  | None => ret 404
  | Some existingLike =>
      post <- PostsModel_findById (LikeValues.post_id values) ;;
      match post with
      | None => throw TypeError
      | Some post =>
          let post :=
            PostDoc.set_post_like_count (PostDoc.post_like_count post - 1) post in
          PostsModel_save (PostDoc._id post) true
            (Post.set_post_like_count (PostDoc.post_like_count post)) ;;
          access Likes DeleteOne ;;
          modify (fun w => set_likes
            (remove_first (fun l => (Like._id l =? Like._id existingLike)%nat)
               (likes w)) w) ;;
          ret 200
      end
  end.

(** [.sort({ post_timestamp: -1 })]: most recent first.  Posts of the same
    timestamp keep the order of the collection. *)
Fixpoint insert_by_timestamp (p : Post.t) (l : list Post.t) : list Post.t :=
  match l with
  | [] => [p]
  | q :: l' =>
      if Post.post_timestamp q <=? Post.post_timestamp p
      then p :: q :: l'
      else q :: insert_by_timestamp p l'
  end.

Definition sort_timestamp_desc (l : list Post.t) : list Post.t :=
  fold_right insert_by_timestamp [] l.

Module Populated.
(** What [populate] puts in place of [post_owner_id]: the paths selected,
    ['username user_info.profile_picture'], of the user of that id. *)
Record owner := mkOwner {
  _id : ObjectId;
  username : string;
  profile_picture : option Buffer
}.

(** A post whose [post_owner_id] was populated; [null] when no user has
    the id. *)
Record t := mk { post : PostDoc.t; post_owner_id : option owner }.

Definition owner_of (u : User.t) : owner :=
  mkOwner (User._id u) (User.username u) (User.profile_picture u).
End Populated.

Definition populate_post_owner_id (us : list User.t) (p : PostDoc.t)
  : Populated.t :=
  Populated.mk p
    (option_map Populated.owner_of
       (find (fun u => (User._id u =? PostDoc.post_owner_id p)%nat) us)).

(** The query sorts, then skips, then limits, whatever the order in which
    the three were chained; the owners are fetched for the page found. *)
Definition fetchPosts (page : Z) : M (list Populated.t) :=
  try_catch
    (access Posts Find ;;
     ps <- gets posts ;;
     found <- lift (skip_limit ((page - 1) * itemsToFetch) itemsToFetch
                      (sort_timestamp_desc ps)) ;;
     match found with
     | [] => ret []
     | _ :: _ =>
         access Users Find ;;
         us <- gets users ;;
         ret (map (fun p => populate_post_owner_id us (PostDoc.of_post p)) found)
     end)
    (fun error => throw error).

(** ** src/db/users.js *)

Definition UserModel_findById (id : ObjectId) : M (option User.t) :=
  access Users FindById ;;
  us <- gets users ;;
  ret (find (fun u => (User._id u =? id)%nat) us).

(** [getUserById(id, false)]. *)
Definition getUserById (id : ObjectId) : M (option User.t) :=
  UserModel_findById id.

Definition getUserByUsername (username : string) : M (option User.t) :=
  access Users FindOne ;;
  us <- gets users ;;
  ret (find (fun u => String.eqb (User.username u) username) us).

(** [user.save()] after an assignment to [profile_is_archived], which
    writes the path when the assignment changed it. *)
Definition UserModel_save (id : ObjectId) (modified : bool)
  (assigned : User.t -> User.t) : M unit :=
  access Users (if modified then Save else FindOne) ;;
  us <- gets users ;;
  if existsb (fun u => (User._id u =? id)%nat) us
  then
    if modified
    then modify (fun w => set_users
           (update_first (fun u => (User._id u =? id)%nat) assigned (users w)) w)
    else ret tt
  else throw DocumentNotFoundError.

Definition archiveProfile (id : ObjectId) : M User.t :=
  user <- getUserById id ;;
  match user with
  | None => throw TypeError
  | Some user =>
      let modified := negb (Bool.eqb (User.profile_is_archived user) true) in
      let user := User.set_profile_is_archived true user in
      UserModel_save (User._id user) modified (User.set_profile_is_archived true) ;;
      ret user
  end.

Definition unarchiveProfile (id : ObjectId) : M User.t :=
  user <- getUserById id ;;
  match user with
  | None => throw TypeError
  | Some user =>
      let modified := negb (Bool.eqb (User.profile_is_archived user) false) in
      let user := User.set_profile_is_archived false user in
      UserModel_save (User._id user) modified (User.set_profile_is_archived false) ;;
      ret user
  end.

Module Deletion.
(** The object [deleteProfile] resolves to. *)
Record t := mk { status : Z; message : option string }.
End Deletion.

Definition deleteProfile (id : ObjectId) : M Deletion.t :=
  user <- UserModel_findById id ;;
  match user with
  | None => throw TypeError
  | Some user =>
      if negb (User.profile_is_archived user) then
        ret (Deletion.mk 400
               (Some "Cannot delete a profile that is not archived"%string))
      else
        try_catch
          (deleteAllPosts id ;;
           access Users DeleteOne ;;
           modify (fun w => set_users
             (remove_first (fun u => (User._id u =? id)%nat) (users w)) w) ;;
           ret (Deletion.mk 200 None))
          (fun error =>
             ret (Deletion.mk 500 (Some "Error deleting profile"%string)))
  end.

Module Reaction.
(** An element of the array [getReactionAndUserData] resolves to; the last
    two paths are there for comments only. *)
Record t := mk {
  username : string;
  profile_pic : option Buffer;
  first_name : string;
  last_name : string;
  content : option string;
  timestamp : option Date
}.

Definition of_user (info : User.t) : t :=
  mk (User.username info) (User.profile_picture info) (User.first_name info)
     (User.last_name info) None None.

Definition with_comment (c : Comment.t) (r : t) : t :=
  mk (username r) (profile_pic r) (first_name r) (last_name r)
     (Some (Comment.comment_content c)) (Some (Comment.comment_timestamp c)).
End Reaction.

Inductive Reactions :=
| comments_of (content : list Comment.t)   (* type: 'comments' *)
| likes_of (content : list Like.t).        (* type: 'likes' *)

(** The loop [for (const user of users)] of [getReactionAndUserData]. *)
Fixpoint user_data (owners : list ObjectId) : M (list Reaction.t) :=
  match owners with
  | [] => ret []
  | user :: owners' =>
      info <- UserModel_findById user ;;
      match info with
      | None => throw TypeError
      | Some info =>
          rest <- user_data owners' ;;
          ret (Reaction.of_user info :: rest)
      end
  end.

Definition getReactionAndUserData (reactions : Reactions)
  : M (list Reaction.t) :=
  match reactions with
  | comments_of content =>
      reactionAndUserData <- user_data (map Comment.comment_owner_id content) ;;
      ret (map (fun cr => Reaction.with_comment (fst cr) (snd cr))
             (combine content reactionAndUserData))
  | likes_of content => user_data (map Like.like_owner_id content)
  end.

(** ** Values of the request handlers *)

(** A JavaScript number, as [Number(req.params.page)] yields one: every
    double is a rational, an infinity or [NaN]. *)
Inductive Number :=
| Finite (q : Q)
| Infinity
| NegInfinity
| NaN.

Definition Number_isInteger (n : Number) : bool :=
  match n with
  | Finite q => Qeq_bool (inject_Z (Qfloor q)) q
  | _ => false
  end.

(** [n <= 0]. *)
Definition Number_le_0 (n : Number) : bool :=
  match n with
  | Finite q => Qle_bool q 0
  | NegInfinity => true
  | Infinity | NaN => false
  end.

(** The integer held by a number [Number.isInteger] accepted. *)
Definition Number_toZ (n : Number) : Z :=
  match n with
  | Finite q => Qfloor q
  | _ => 0
  end.

(** [buffer.toString('base64')]. *)
Definition base64_alphabet : string :=
  "ABCDEFGHIJKLMNOPQRSTUVWXYZabcdefghijklmnopqrstuvwxyz0123456789+/".

Definition base64_digit (n : N) : ascii :=
  match String.get (N.to_nat n) base64_alphabet with
  | Some c => c
  | None => "="%char
  end.

Fixpoint base64 (b : Buffer) : string :=
  match b with
  | [] => EmptyString
  | [x] =>
      let n := Byte.to_N x in
      String (base64_digit (n / 4))
        (String (base64_digit (n mod 4 * 16)) "==")
  | [x; y] =>
      let n := (Byte.to_N x * 256 + Byte.to_N y)%N in
      String (base64_digit (n / 1024))
        (String (base64_digit (n / 16 mod 64))
           (String (base64_digit (n mod 16 * 4)) "="))
  | x :: y :: z :: rest =>
      let n := (Byte.to_N x * 65536 + Byte.to_N y * 256 + Byte.to_N z)%N in
      String (base64_digit (n / 262144))
        (String (base64_digit (n / 4096 mod 64))
           (String (base64_digit (n / 64 mod 64))
              (String (base64_digit (n mod 64)) (base64 rest))))
  end.

Module FeedItem.
(** An element of [formattedPosts]. *)
Record t := mk {
  username : string;
  profilePic : option string;
  timestamp : Date;
  likeCount : Z;
  commentCount : Z;
  content : string;
  id : ObjectId
}.
End FeedItem.

Inductive Json :=
| json_error (error : string)
| json_message (message : string)
| json_empty                      (* [{}]: every property was [undefined] *)
| json_id (id : ObjectId)
| json_posts (docs : list PostDoc.t)
| json_reactions (data : list Reaction.t)
| json_feed (formattedPosts : list FeedItem.t).

Inductive Body :=
| json (j : Json)
| send (text : string)
| status_text.          (* [res.sendStatus]: the name of the status *)

Module Response.
Record t := mk { status : Z; body : Body }.
End Response.

Module Request.
(** The parts of [req] the handlers read: the route parameters, the body,
    and what the middlewares merged into the request ([None] when the
    middleware is not on the route). *)
Record t := mk {
  params_id : ObjectId;
  params_page : Number;
  body_post_content : string;
  body_comment_content : string;
  identity : option User.t;
  post_identity : option PostDoc.t;
  comment_identity : option Comment.t;
  requested_user_identity : option User.t
}.
End Request.

(** Reading a property of what [get(req, path)] returned. *)
Definition of_merged {A} (o : option A) : M A :=
  match o with
  | Some a => ret a
  | None => throw TypeError
  end.

Definition invalid_page : Response.t :=
  Response.mk 400
    (json (json_error "Page number must be integer greater than or equal to 1.")).

Definition internal_server_error : Response.t :=
  Response.mk 500 (json (json_error "Internal server error")).

(** ** src/controllers/posts.js *)
Module Controllers.

Definition deletePost (req : Request.t) : M Response.t :=
  try_catch
    (let post_id := Request.params_id req in
     delPost post_id ;;
     ret (Response.mk 200 (json (json_message "Post deleted successfully"))))
    (fun error => ret internal_server_error).

Definition getPostByUsername (req : Request.t) : M Response.t :=
  try_catch
    (let requested_user := Request.requested_user_identity req in
     let page := Request.params_page req in
     if negb (Number_isInteger page) || Number_le_0 page then ret invalid_page
     else
       requested_user <- of_merged requested_user ;;
       posts <- getPostsByUserId (User._id requested_user) (Number_toZ page) ;;
       ret (Response.mk 200 (json (json_posts posts))))
    (fun error => ret internal_server_error).

Definition getLikesForPost (req : Request.t) : M Response.t :=
  try_catch
    (let post_id := Request.params_id req in
     let page := Request.params_page req in
     if negb (Number_isInteger page) || Number_le_0 page then ret invalid_page
     else
       likes <- getPostLikes post_id (Number_toZ page) ;;
       userIds <- getReactionAndUserData (likes_of likes) ;;
       ret (Response.mk 200 (json (json_reactions userIds))))
    (fun error => ret internal_server_error).

Definition getCommsForPost (req : Request.t) : M Response.t :=
  try_catch
    (let post_id := Request.params_id req in
     let page := Request.params_page req in
     if negb (Number_isInteger page) || Number_le_0 page then ret invalid_page
     else
       comments <- getCommentsForPost post_id (Number_toZ page) ;;
       userIds <- getReactionAndUserData (comments_of comments) ;;
       ret (Response.mk 200 (json (json_reactions userIds))))
    (fun error => ret internal_server_error).

Definition createLike (req : Request.t) : M Response.t :=
  let post_id := Request.params_id req in
  let user := Request.identity req in
  try_catch
    (user <- of_merged user ;;
     statusCode <- createNewLike (LikeValues.mk post_id (User._id user)) ;;
     if statusCode =? 201
     then ret (Response.mk 201 (json (json_message "New like created successfully")))
     else ret (Response.mk 200 (json (json_message "You have already liked this post."))))
    (fun error => ret (Response.mk 400 (json (json_error "Invalid request...")))).

Definition deleteLike (req : Request.t) : M Response.t :=
  let post_id := Request.params_id req in
  let user := Request.identity req in
  try_catch
    (user <- of_merged user ;;
     statusCode <- delLike (LikeValues.mk post_id (User._id user)) ;;
     if statusCode =? 200
     then ret (Response.mk 200 (json (json_message "Like deleted successfully")))
     else ret (Response.mk 404 (json (json_message "Like not found."))))
    (fun error => ret (Response.mk 400 (json (json_error "Invalid request...")))).

Definition format_post (post : Populated.t) : M FeedItem.t :=
  owner <- of_merged (Populated.post_owner_id post) ;;
  ret (FeedItem.mk
         (Populated.username owner)
         (option_map base64 (Populated.profile_picture owner))
         (PostDoc.post_timestamp (Populated.post post))
         (PostDoc.post_like_count (Populated.post post))
         (PostDoc.post_comment_count (Populated.post post))
         (PostDoc.post_content (Populated.post post))
         (PostDoc._id (Populated.post post))).

(** [posts.map(format)], the callback throwing on a post without owner. *)
Fixpoint format_posts (posts : list Populated.t) : M (list FeedItem.t) :=
  match posts with
  | [] => ret []
  | post :: posts' =>
      item <- format_post post ;;
      items <- format_posts posts' ;;
      ret (item :: items)
  end.

Definition getFeed (req : Request.t) : M Response.t :=
  try_catch
    (let page := Request.params_page req in
     if negb (Number_isInteger page) || Number_le_0 page then ret invalid_page
     else
       posts <- fetchPosts (Number_toZ page) ;;
       formattedPosts <- format_posts posts ;;
       ret (Response.mk 200 (json (json_feed formattedPosts))))
    (fun error => ret (Response.mk 500 (send "Server Error"))).

Definition createPost (req : Request.t) : M Response.t :=
  let post_content := Request.body_post_content req in
  if negb (required post_content)
  then ret (Response.mk 400 (json (json_error "post_content required.")))
  else
    let user := Request.identity req in
    try_catch
      (user <- of_merged user ;;
       newPost <- createNewPost (PostValues.mk (User._id user) post_content) ;;
       ret (Response.mk 201 (json (json_id (PostDoc._id newPost)))))
      (fun error => ret (Response.mk 400 (json (json_error "Invalid request...")))).

Definition archivePost (req : Request.t) : M Response.t :=
  try_catch
    (let post := Request.post_identity req in
     post <- of_merged post ;;
     archivePost post ;;
     ret (Response.mk 200 status_text))
    (fun error => ret (Response.mk 500 status_text)).

Definition unarchivePost (req : Request.t) : M Response.t :=
  try_catch
    (let post := Request.post_identity req in
     post <- of_merged post ;;
     unarchivePost post ;;
     ret (Response.mk 200 status_text))
    (fun error => ret (Response.mk 500 status_text)).

(** The post is read off [post_identity] before the [try]: without it the
    handler throws. *)
Definition createComment (req : Request.t) : M Response.t :=
  let comment_content := Request.body_comment_content req in
  post_identity <- of_merged (Request.post_identity req) ;;
  let post_id := PostDoc._id post_identity in
  let user := Request.identity req in
  try_catch
    (if negb (required comment_content)
     then ret (Response.mk 400 (json (json_error "Comment content is required")))
     else
       user <- of_merged user ;;
       newComment <-
         createNewComment (CommentValues.mk post_id (User._id user) comment_content) ;;
       ret (Response.mk 201 (json (json_id (Comment._id newComment)))))
    (fun error => ret (Response.mk 400 (json (json_error "Invalid request...")))).

Definition deleteComment (req : Request.t) : M Response.t :=
  try_catch
    (let comment := Request.comment_identity req in
     comment <- of_merged comment ;;
     delComment (Comment._id comment) ;;
     ret (Response.mk 200 status_text))
    (fun error => ret (Response.mk 500 status_text)).

(** [postUpdate] is called and not awaited: the answer does not depend on
    what becomes of the update. *)
Definition updatePost (req : Request.t) : M Response.t :=
  try_catch
    (let post_content := Request.body_post_content req in
     if negb (required post_content)
     then ret (Response.mk 400 (json (json_error "No post content provided")))
     else
       let post := Request.post_identity req in
       post <- of_merged post ;;
       unawaited (postUpdate (PostDoc._id post) post_content ;; ret tt) ;;
       ret (Response.mk 200 (json (json_message "Post updated successfully"))))
    (fun error => ret (Response.mk 500 status_text)).

End Controllers.

(** ** src/controllers/profile.js *)
Module ProfileControllers.

Definition deleteProfile (req : Request.t) : M Response.t :=
  try_catch
    (user <- of_merged (Request.identity req) ;;
     deletion <- deleteProfile (User._id user) ;;
     if Deletion.status deletion =? 400 then
       ret (Response.mk (Deletion.status deletion)
              (json (match Deletion.message deletion with
                     | Some message => json_message message
                     | None => json_empty
                     end)))
     else ret (Response.mk (Deletion.status deletion) status_text))
    (fun error => ret (Response.mk 500 status_text)).

Definition archiveProfile (req : Request.t) : M Response.t :=
  try_catch
    (user <- of_merged (Request.identity req) ;;
     archiveProfile (User._id user) ;;
     ret (Response.mk 200 status_text))
    (fun error => ret (Response.mk 500 status_text)).

Definition unarchiveProfile (req : Request.t) : M Response.t :=
  try_catch
    (user <- of_merged (Request.identity req) ;;
     unarchiveProfile (User._id user) ;;
     ret (Response.mk 200 status_text))
    (fun error => ret (Response.mk 500 status_text)).

End ProfileControllers.

(** ** src/middlewares/posts.js, src/middlewares/profile.js *)

(** A route parameter that names a document, [:id] or [:commentId]: a string
    [ObjectId.isValid] accepts, read as the ObjectId it writes, or another
    string. *)
Inductive IdParam :=
| valid_id (id : ObjectId)
| invalid_id.

(** What a middleware does: it answers, or it calls [next()] on the request
    with what it merged into it. *)
Inductive Step :=
| respond (res : Response.t)
| next (req : Request.t).

Definition set_params_id (id : ObjectId) (req : Request.t) : Request.t :=
  Request.mk id (Request.params_page req) (Request.body_post_content req)
    (Request.body_comment_content req) (Request.identity req)
    (Request.post_identity req) (Request.comment_identity req)
    (Request.requested_user_identity req).

Definition merge_post_identity (post : PostDoc.t) (req : Request.t)
  : Request.t :=
  Request.mk (Request.params_id req) (Request.params_page req)
    (Request.body_post_content req) (Request.body_comment_content req)
    (Request.identity req) (Some post) (Request.comment_identity req)
    (Request.requested_user_identity req).

Definition merge_comment_identity (comment : Comment.t) (req : Request.t)
  : Request.t :=
  Request.mk (Request.params_id req) (Request.params_page req)
    (Request.body_post_content req) (Request.body_comment_content req)
    (Request.identity req) (Request.post_identity req) (Some comment)
    (Request.requested_user_identity req).

Definition merge_requested_user_identity (user : User.t) (req : Request.t)
  : Request.t :=
  Request.mk (Request.params_id req) (Request.params_page req)
    (Request.body_post_content req) (Request.body_comment_content req)
    (Request.identity req) (Request.post_identity req)
    (Request.comment_identity req) (Some user).

Module Middlewares.

(** From here on [req.params.id] is the ObjectId the parameter writes. *)
Definition postExists (post_id : IdParam) (req : Request.t) : M Step :=
  try_catch
    (match post_id with
     | invalid_id =>
         ret (respond (Response.mk 404 (json (json_error "Invalid post id"))))
     | valid_id post_id =>
         post <- getPostById post_id ;;
         match post with
         | None =>
             ret (respond
                    (Response.mk 404 (json (json_error "Post does not exist"))))
         | Some post =>
             ret (next (merge_post_identity post (set_params_id post_id req)))
         end
     end)
    (fun error => ret (respond (Response.mk 500 status_text))).

Definition isPostOwner (req : Request.t) : M Step :=
  try_catch
    (post <- of_merged (Request.post_identity req) ;;
     user <- of_merged (Request.identity req) ;;
     if negb (PostDoc.post_owner_id post =? User._id user)%nat
     then ret (respond
                 (Response.mk 403 (json (json_error "User does not have access"))))
     else ret (next req))
    (fun error => ret (respond (Response.mk 500 status_text))).

Definition commentExists (comment_id : IdParam) (req : Request.t) : M Step :=
  try_catch
    (match comment_id with
     | invalid_id =>
         ret (respond (Response.mk 404 (json (json_error "Invalid comment id"))))
     | valid_id comment_id =>
         comment <- getCommentById comment_id ;;
         match comment with
         | None =>
             ret (respond
                    (Response.mk 404 (json (json_error "Comment does not exist"))))
         | Some comment => ret (next (merge_comment_identity comment req))
         end
     end)
    (fun error => ret (respond (Response.mk 500 status_text))).

Definition isCommentOwner (req : Request.t) : M Step :=
  try_catch
    (comment <- of_merged (Request.comment_identity req) ;;
     user <- of_merged (Request.identity req) ;;
     if negb (Comment.comment_owner_id comment =? User._id user)%nat
     then ret (respond
                 (Response.mk 403 (json (json_error "User does not have access"))))
     else ret (next req))
    (fun error => ret (respond (Response.mk 500 status_text))).

Definition userExistsByUsername (username : string) (req : Request.t)
  : M Step :=
  try_catch
    (requested_user <- getUserByUsername username ;;
     match requested_user with
     | None =>
         ret (respond (Response.mk 404 (json (json_error "User does not exist"))))
     | Some requested_user =>
         ret (next (merge_requested_user_identity requested_user req))
     end)
    (fun error => ret (respond (Response.mk 500 status_text))).

Definition isProfileOwner (req : Request.t) : M Step :=
  try_catch
    (match Request.identity req with
     | None => ret (respond (Response.mk 500 status_text))
     | Some _ => ret (next req)
     end)
    (fun error => ret (respond (Response.mk 500 status_text))).

End Middlewares.

(** ** The routes of the posts router

    Each route runs its middlewares in order, up to the first that answers,
    and then its handler.  [isAuthenticated], the first middleware of every
    route, is not part of this development: the requests here are the ones it
    let through, with the user of the session as [identity]. *)

Fixpoint route (chain : list (Request.t -> M Step))
    (handler : Request.t -> M Response.t) (req : Request.t) : M Response.t :=
  match chain with
  | [] => handler req
  | middleware :: chain' =>
      step <- middleware req ;;
      match step with
      | respond res => ret res
      | next req' => route chain' handler req'
      end
  end.

Module Router.



(** [router.put('/posts/:id/archive', ...)]. *)
Definition put_archive (id : IdParam) : Request.t -> M Response.t :=
  route [Middlewares.postExists id; Middlewares.isPostOwner]
    Controllers.archivePost.

(** [router.put('/posts/:id/unarchive', ...)]. *)
Definition put_unarchive (id : IdParam) : Request.t -> M Response.t :=
  route [Middlewares.postExists id; Middlewares.isPostOwner]
    Controllers.unarchivePost.

(** [router.delete('/posts/:id/comment/:commentId', ...)]. *)
Definition delete_comment (id commentId : IdParam)
  : Request.t -> M Response.t :=
  route [Middlewares.postExists id; Middlewares.commentExists commentId;
         Middlewares.isCommentOwner]
    Controllers.deleteComment.

(** [router.delete('/posts/:id/delete', ...)]. *)
Definition delete_post (id : IdParam) : Request.t -> M Response.t :=
  route [Middlewares.postExists id; Middlewares.isPostOwner]
    Controllers.deletePost.

(** [router.put('/posts/:id', ...)]. *)
Definition put_post (id : IdParam) : Request.t -> M Response.t :=
  route [Middlewares.postExists id; Middlewares.isPostOwner]
    Controllers.updatePost.

(** [router.get('/posts/user/:username/:page', ...)]. *)
Definition get_posts_of_user (username : string) : Request.t -> M Response.t :=
  route [Middlewares.userExistsByUsername username]
    Controllers.getPostByUsername.




(** [router.delete('/posts/:id/delLike', ...)]. *)
Definition delete_like (id : IdParam) : Request.t -> M Response.t :=
  route [Middlewares.postExists id] Controllers.deleteLike.


End Router.

(** * What the properties speak of *)

(** What it is for the stored post [p] to have had its archive flag set to
    [b] between [w] and [w'], and nothing else done. *)
Definition only_archive_flag (b : bool) (p : Post.t) (w w' : World) : Prop :=
  (exists p', find (has_id (Post._id p)) (posts w') = Some p'
              /\ Post.post_is_archived p' = b
              /\ Post._id p' = Post._id p
              /\ Post.post_owner_id p' = Post.post_owner_id p
              /\ Post.post_content p' = Post.post_content p
              /\ Post.post_timestamp p' = Post.post_timestamp p
              /\ Post.post_like_count p' = Post.post_like_count p
              /\ Post.post_comment_count p' = Post.post_comment_count p)
  /\ (forall q, Post._id q <> Post._id p -> In q (posts w') <-> In q (posts w))
  /\ map Post._id (posts w') = map Post._id (posts w)
  /\ comments w' = comments w
  /\ likes w' = likes w
  /\ users w' = users w.

(** A page number the handlers accept: a whole number, at least 1. *)
Definition positive_integer (n : Number) : Prop :=
  exists (z : Z) (q : Q), 0 < z /\ n = Finite q /\ Qeq q (inject_Z z).

(** The items of page [p] among the items a query matches: the first
    [5 * (p - 1)] are skipped and at most 5 are taken. *)
Definition page_items {A} (matching : list A) (p : Z) : list A :=
  firstn 5 (skipn (5 * (Z.to_nat p - 1)) matching).

(** [fetch] retrieves the pages of [matching], each item seen through
    [view]. *)
Definition paginated {A B} (fetch : Z -> Outcome (list B)) (view : A -> B)
    (matching : list A) : Prop :=
  (forall p, 1 <= p <= max_exact_page ->
     fetch p = Ok (map view (page_items matching p))
     /\ (List.length (page_items matching p) <= 5)%nat)
  /\ (forall x1 x2 x3 x4 x5 x6 x7 x8 x9 x10 x11 x12,
        matching = [x1; x2; x3; x4; x5; x6; x7; x8; x9; x10; x11; x12] ->
        fetch 1 = Ok (map view [x1; x2; x3; x4; x5])
        /\ fetch 3 = Ok (map view [x11; x12])
        /\ fetch 4 = Ok []).

(** Most recent first. *)
Definition recent_first (a b : Post.t) : Prop :=
  Post.post_timestamp b <= Post.post_timestamp a.

(** The documents of two worlds are the same: a read happened at most. *)
Definition same_documents (w w' : World) : Prop :=
  users w' = users w /\ posts w' = posts w
  /\ comments w' = comments w /\ likes w' = likes w.

(** The feed item made of a post carries the name and the picture of the user
    who owns the post, next to the post's own fields. *)
Definition carries_owner (us : list User.t) (p : Post.t) (item : FeedItem.t)
  : Prop :=
  exists u,
    find (fun u => (User._id u =? Post.post_owner_id p)%nat) us = Some u
    /\ User._id u = Post.post_owner_id p
    /\ FeedItem.username item = User.username u
    /\ FeedItem.profilePic item = option_map base64 (User.profile_picture u)
    /\ FeedItem.id item = Post._id p
    /\ FeedItem.content item = Post.post_content p
    /\ FeedItem.timestamp item = Post.post_timestamp p
    /\ FeedItem.likeCount item = Post.post_like_count p
    /\ FeedItem.commentCount item = Post.post_comment_count p.

(** The number of stored comments that reference the post of this id. *)
Definition comments_on (id : ObjectId) (cs : list Comment.t) : Z :=
  Z.of_nat (List.length (filter (of_post_id id) cs)).

(** Post ids are unique, as the storage has it for [_id], and every post
    counts the comments that reference it. *)
Definition consistent (w : World) : Prop :=
  NoDup (map Post._id (posts w))
  /\ forall p, In p (posts w) ->
       Post.post_comment_count p = comments_on (Post._id p) (comments w).

(** A request that creates a comment, served when the clock reads [now], or
    one that deletes the comment of an id. *)
Inductive CommentRequest :=
| create_comment (now : Date) (values : CommentValues.t)
| delete_comment (id : ObjectId).

Definition set_clock (now : Date) (w : World) : World :=
  mkWorld (users w) (posts w) (comments w) (likes w) (next_id w) now (log w).

(** The world after a request, whether it succeeded or threw. *)
Definition serve (r : CommentRequest) (w : World) : World :=
  match r with
  | create_comment now values => snd (createNewComment values (set_clock now w))
  | delete_comment id => snd (delComment id w)
  end.

Definition serve_all (rs : list CommentRequest) (w : World) : World :=
  fold_left (fun w r => serve r w) rs w.

(** The callbacks of [deleteAllPosts] write to posts only. *)
Definition posts_only (w w' : World) : Prop :=
  users w' = users w /\ comments w' = comments w /\ likes w' = likes w.

(** The number of stored likes that reference the post of this id. *)
Definition likes_on (id : ObjectId) (ls : list Like.t) : Z :=
  Z.of_nat (List.length (filter (likes_post_id id) ls)).

(** The pair a like is the like of. *)
Definition like_pair (l : Like.t) : ObjectId * ObjectId :=
  (Like.post_id l, Like.like_owner_id l).

(** No stored like is the like of this post by this user. *)
Definition not_liked (values : LikeValues.t) (ls : list Like.t) : Prop :=
  forall l, In l ls -> like_pair l
                       <> (LikeValues.post_id values, LikeValues.like_owner_id values).

(** The store is well formed: the ids of posts and of likes are unique and
    older than the next fresh id, both counters of every post count the
    comments and the likes that reference the post, a user likes a post at
    most once, and every comment and like references a stored post. *)
Record well_formed (w : World) : Prop := {
  wf_post_ids : NoDup (map Post._id (posts w));
  wf_like_ids : NoDup (map Like._id (likes w));
  wf_posts_fresh : forall p, In p (posts w) -> (Post._id p < next_id w)%nat;
  wf_likes_fresh : forall l, In l (likes w) -> (Like._id l < next_id w)%nat;
  wf_comment_count :
    forall p, In p (posts w) ->
      Post.post_comment_count p = comments_on (Post._id p) (comments w);
  wf_like_count :
    forall p, In p (posts w) ->
      Post.post_like_count p = likes_on (Post._id p) (likes w);
  wf_one_like : NoDup (map like_pair (likes w));
  wf_comment_post :
    forall c, In c (comments w) ->
      In (Comment.post_id c) (map Post._id (posts w));
  wf_like_post :
    forall l, In l (likes w) -> In (Like.post_id l) (map Post._id (posts w))
}.

(** A computation that reads: whatever it returns or throws, it leaves the
    world as it was but for the log of accesses. *)
Definition reads_only {A} (m : M A) : Prop :=
  forall w, set_log (log w) (snd (m w)) = w.


(** A request to the posts router. *)
Inductive Call :=
| POST_posts
| POST_comment (id : IdParam)
| PUT_archive (id : IdParam)
| PUT_unarchive (id : IdParam)
| DELETE_comment (id commentId : IdParam)
| DELETE_post (id : IdParam)
| PUT_post (id : IdParam)
| GET_posts_of_user (username : string)
| GET_likes (id : IdParam)
| GET_comments (id : IdParam)
| POST_like (id : IdParam)
| DELETE_like (id : IdParam)
| GET_feed.


Module Arrival.
(** A request as it arrives: when, on which route, and with what in it. *)
Record t := mk { now : Date; call : Call; req : Request.t }.
End Arrival.


(** A call of [createNewLike], made when the clock reads [now], or a call of
    [delLike]. *)
Inductive LikeRequest :=
| create_like (now : Date) (values : LikeValues.t)
| delete_like (values : LikeValues.t).

Definition serve_like (r : LikeRequest) (w : World) : World :=
  match r with
  | create_like now values => snd (createNewLike values (set_clock now w))
  | delete_like values => snd (delLike values w)
  end.

Definition serve_likes (rs : list LikeRequest) (w : World) : World :=
  fold_left (fun w r => serve_like r w) rs w.



(** The filter [{ _id: id }] on users. *)
Definition user_has_id (id : ObjectId) (u : User.t) : bool :=
  (User._id u =? id)%nat.

(** The items of pages 1 to [k] of a paginated read, one page after the
    other; a page that threw counts for nothing. *)
Definition pages_upto {B} (fetch : Z -> Outcome (list B)) (k : nat) : list B :=
  flat_map
    (fun p => match fetch (Z.of_nat p) with Ok l => l | Throw _ => [] end)
    (seq 1 k).

(** The reaction data made of a comment carries the names and the picture of
    the user who wrote it, next to the content and the time of the comment. *)
Definition carries_author (us : list User.t) (c : Comment.t) (r : Reaction.t)
  : Prop :=
  exists u,
    find (user_has_id (Comment.comment_owner_id c)) us = Some u
    /\ Reaction.username r = User.username u
    /\ Reaction.profile_pic r = User.profile_picture u
    /\ Reaction.first_name r = User.first_name u
    /\ Reaction.last_name r = User.last_name u
    /\ Reaction.content r = Some (Comment.comment_content c)
    /\ Reaction.timestamp r = Some (Comment.comment_timestamp c).


(** The routes that only the owner of the post may use. *)
Definition routes_of_the_owner (id : IdParam)
  : list (Request.t -> M Response.t) :=
  [Router.put_archive id; Router.put_unarchive id; Router.delete_post id;
   Router.put_post id].



(** The filter [{ username }] on users. *)
Definition user_has_username (username : string) (u : User.t) : bool :=
  String.eqb (User.username u) username.

(** ** A small network, for the examples *)

(** An archived user, Ann, owns a post on which another user, Bob, left a
    comment and a like. *)
Definition ann : User.t :=
  User.mk 1 "ann" "ann@example.org" "Ann" "Lee" None true.

Definition bob : User.t :=
  User.mk 2 "bob" "bob@example.org" "Bob" "Ray"
    (Some ["M"%byte; "a"%byte; "n"%byte]) false.

Definition post_of_ann : Post.t := Post.mk 10 1 "hello" 1000 false 1 1.

Definition comment_of_bob : Comment.t := Comment.mk 100 10 2 "nice" 1001.

Definition like_of_bob : Like.t := Like.mk 200 10 2 1002.

Definition world_of_ann_and_bob : World :=
  mkWorld [ann; bob] [post_of_ann] [comment_of_bob] [like_of_bob] 201 2000 [].

(** Bob asks; the routes put the post of the id in the request. *)
Definition request_of_bob (id : ObjectId) (page : Number) : Request.t :=
  Request.mk id page "" "" (Some bob)
    (Some (PostDoc.of_post post_of_ann)) None (Some ann).

(** Twelve comments of Bob on the post of Ann, and two on another post. *)
Definition twelve_comments : list Comment.t :=
  map (fun n => Comment.mk (100 + n) 10 2 "again" (1000 + Z.of_nat n))
    (seq 1 12).

Definition world_of_twelve_comments : World :=
  mkWorld [ann; bob]
    [Post.mk 10 1 "hello" 1000 false 0 12; Post.mk 11 2 "bye" 1500 false 0 2]
    (Comment.mk 98 11 1 "first" 900 :: twelve_comments
     ++ [Comment.mk 99 11 1 "last" 1900])
    [] 201 2000 [].

(** Seven posts, stored in an order that is not that of their timestamps. *)
Definition world_of_seven_posts : World :=
  mkWorld [ann; bob]
    [Post.mk 10 1 "a" 1000 false 0 0; Post.mk 11 2 "b" 7000 false 0 0;
     Post.mk 12 1 "c" 3000 true 0 0; Post.mk 13 2 "d" 2000 false 0 0;
     Post.mk 14 2 "e" 6000 false 0 0; Post.mk 15 1 "f" 5000 false 0 0;
     Post.mk 16 2 "g" 4000 false 0 0]
    [] [] 201 8000 [].

(** Ann asks. *)
Definition request_of_ann (id : ObjectId) (page : Number) : Request.t :=
  Request.mk id page "" "" (Some ann)
    (Some (PostDoc.of_post post_of_ann)) None (Some ann).

(** * Properties *)

Example base64_Man : base64 ["M"%byte; "a"%byte; "n"%byte] = "TWFu"%string.
Proof. reflexivity. Qed.

Example base64_Ma : base64 ["M"%byte; "a"%byte] = "TWE="%string.
Proof. reflexivity. Qed.

Example base64_M : base64 ["M"%byte] = "TQ=="%string.
Proof. reflexivity. Qed.

Example max_exact_page_value : max_exact_page = 2 ^ 53 / 5.
Proof. reflexivity. Qed.

(** ** Collections *)

Lemma find_In_some {A} (f : A -> bool) (l : list A) (x : A) :
  In x l -> f x = true -> exists y, find f l = Some y.
Proof.
  intros Hin Hf.
  destruct (find f l) as [y|] eqn:E.
  - now exists y.
  - now rewrite (find_none f l E x Hin) in Hf.
Qed.

Lemma delete_many_In {A} (f : A -> bool) (l : list A) (x : A) :
  In x (delete_many f l) <-> In x l /\ f x = false.
Proof.
  unfold delete_many. rewrite filter_In, negb_true_iff. tauto.
Qed.

Lemma remove_first_none {A} (f : A -> bool) (l : list A) :
  find f l = None -> remove_first f l = l.
Proof.
  induction l as [|x l IH]; simpl; [reflexivity|].
  destruct (f x); [discriminate|].
  intros H. now rewrite IH.
Qed.

Lemma In_remove_first {A} (f : A -> bool) (l : list A) (x : A) :
  In x (remove_first f l) -> In x l.
Proof.
  induction l as [|y l IH]; simpl; [tauto|].
  destruct (f y); simpl; intuition.
Qed.

Lemma find_existsb {A} (f : A -> bool) (l : list A) (x : A) :
  find f l = Some x -> existsb f l = true.
Proof.
  intros H. apply find_some in H. apply existsb_exists. now exists x.
Qed.

(** ** Likes *)

(** C3. When the pair (post, user) already has a like, [createNewLike]
    resolves to 200 and not to 201, the handler answers 200 with the message
    that the post is already liked, no like is inserted and no post, hence no
    [post_like_count], changes: the only effect is the lookup of the like. *)
Theorem createNewLike_already_liked (w : World) (values : LikeValues.t)
    (req : Request.t) (user : User.t) :
  (exists l, In l (likes w)
             /\ Like.post_id l = LikeValues.post_id values
             /\ Like.like_owner_id l = LikeValues.like_owner_id values) ->
  Request.identity req = Some user ->
  LikeValues.mk (Request.params_id req) (User._id user) = values ->
  let w' := snd (createNewLike values w) in
  fst (createNewLike values w) = Ok 200
  /\ 200 <> 201
  /\ likes w' = likes w
  /\ posts w' = posts w
  /\ log w' = log w ++ [(Likes, FindOne)]
  /\ Controllers.createLike req w
     = (Ok (Response.mk 200
              (json (json_message "You have already liked this post."))), w').
Proof.
  intros (l & Hin & Hp & Ho) Hid Hvalues.
  assert (Hsame : same_like values l = true).
  { unfold same_like. rewrite Hp, Ho, !Nat.eqb_refl. reflexivity. }
  destruct (find_In_some _ _ _ Hin Hsame) as [l' Hfind].
  assert (Hrun : createNewLike values w
                 = (Ok 200, set_log (log w ++ [(Likes, FindOne)]) w)).
  { unfold createNewLike, LikeModel_findOne, bind, access, modify, gets, ret.
    cbn. now rewrite Hfind. }
  cbn zeta. rewrite Hrun. cbn.
  repeat split; try reflexivity; try lia.
  unfold Controllers.createLike, try_catch, bind, of_merged.
  rewrite Hid. unfold ret at 1. rewrite Hvalues, Hrun. reflexivity.
Qed.

Lemma update_first_find {A} (f : A -> bool) (g : A -> A) (l : list A) (x : A) :
  find f l = Some x -> f (g x) = true ->
  find f (update_first f g l) = Some (g x).
Proof.
  induction l as [|y l IH]; simpl; [discriminate|].
  destruct (f y) eqn:E; intros H Hg.
  - injection H as ->. simpl. now rewrite Hg.
  - simpl. rewrite E. now apply IH.
Qed.

Lemma update_first_In_other {A} (f : A -> bool) (g : A -> A) (l : list A)
    (x : A) :
  (forall y, f y = true -> f (g y) = true) -> f x = false ->
  In x (update_first f g l) <-> In x l.
Proof.
  intros Hg Hx.
  induction l as [|y l IH]; simpl; [tauto|].
  destruct (f y) eqn:E; simpl.
  - split; intros [H|H]; auto.
    + subst x. rewrite (Hg y E) in Hx. discriminate.
    + subst x. rewrite E in Hx. discriminate.
  - rewrite IH. tauto.
Qed.

Lemma update_first_map {A B} (f : A -> bool) (g : A -> A) (h : A -> B)
    (l : list A) :
  (forall y, h (g y) = h y) -> map h (update_first f g l) = map h l.
Proof.
  intros Hh. induction l as [|y l IH]; simpl; [reflexivity|].
  destruct (f y); simpl; [now rewrite Hh | now rewrite IH].
Qed.

Lemma remove_first_unique (id : ObjectId) (l : list Post.t) (p : Post.t) :
  NoDup (map Post._id l) ->
  In p (remove_first (has_id id) l) <-> In p l /\ Post._id p <> id.
Proof.
  induction l as [|q l IH]; simpl; [tauto|].
  intros Hnd. apply NoDup_cons_iff in Hnd as [Hq Hnd].
  unfold has_id at 1. destruct (Nat.eqb_spec (Post._id q) id) as [E|E].
  - split.
    + intros Hin. split; [now right|].
      intros Hp. apply Hq. rewrite E, <- Hp. now apply in_map.
    + intros [[->|Hin] Hp]; [congruence | assumption].
  - simpl. rewrite (IH Hnd). split.
    + intros [->|[Hin Hp]]; auto.
    + intros [[->|Hin] Hp]; auto.
Qed.

Lemma skip_limit_nil {A} (n m : Z) : 0 <= n -> skip_limit n m (@nil A) = Ok [].
Proof.
  intros Hn. unfold skip_limit.
  destruct (Z.ltb_spec n 0); [lia|].
  now rewrite skipn_nil, firstn_nil.
Qed.

Lemma filter_nil_iff {A} (f : A -> bool) (l : list A) :
  (forall x, In x l -> f x = false) -> filter f l = [].
Proof.
  induction l as [|y l IH]; simpl; [reflexivity|].
  intros H. rewrite (H y (or_introl eq_refl)). apply IH. auto.
Qed.

(** ** Profiles that are not archived *)

(** C4. For a stored user whose [profile_is_archived] is false,
    [deleteProfile] resolves to status 400 with its message, the handler
    answers 400 with that message, and no user, post, comment or like is
    deleted or changed: the only access to the storage is the lookup of the
    user. *)
Theorem deleteProfile_not_archived (w : World) (id : ObjectId) (user : User.t)
    (req : Request.t) :
  find (fun u => (User._id u =? id)%nat) (users w) = Some user ->
  User.profile_is_archived user = false ->
  option_map User._id (Request.identity req) = Some id ->
  let w' := snd (deleteProfile id w) in
  fst (deleteProfile id w)
  = Ok (Deletion.mk 400 (Some "Cannot delete a profile that is not archived"%string))
  /\ users w' = users w
  /\ posts w' = posts w
  /\ comments w' = comments w
  /\ likes w' = likes w
  /\ log w' = log w ++ [(Users, FindById)]
  /\ ProfileControllers.deleteProfile req w
     = (Ok (Response.mk 400
              (json (json_message "Cannot delete a profile that is not archived"))),
        w').
Proof.
  intros Hfind Harch Hid.
  assert (Hrun : deleteProfile id w
    = (Ok (Deletion.mk 400
             (Some "Cannot delete a profile that is not archived"%string)),
       set_log (log w ++ [(Users, FindById)]) w)).
  { unfold deleteProfile, UserModel_findById, bind, access, modify, gets, ret.
    cbn. rewrite Hfind, Harch. reflexivity. }
  cbn zeta. rewrite Hrun. cbn.
  repeat split; try reflexivity.
  unfold ProfileControllers.deleteProfile, try_catch, bind, of_merged.
  destruct (Request.identity req) as [u|]; [|discriminate].
  injection Hid as Hid. unfold ret at 1. rewrite Hid, Hrun. reflexivity.
Qed.

(** ** Deleting a post *)

Lemma delPost_run (w : World) (id : ObjectId) :
  delPost id w
  = (Ok (option_map PostDoc.of_post (find (has_id id) (posts w))),
     mkWorld (users w)
       (remove_first (has_id id) (posts w))
       (delete_many (of_post_id id) (comments w))
       (delete_many (likes_post_id id) (likes w))
       (next_id w) (clock w)
       (log w ++ [(Comments, DeleteMany); (Likes, DeleteMany);
                  (Posts, FindByIdAndDelete)])).
Proof.
  unfold delPost, bind, access, modify, gets, ret. cbn.
  now rewrite <- !app_assoc.
Qed.

Lemma delete_many_post_id (id : ObjectId) (cs : list Comment.t) (c : Comment.t) :
  In c (delete_many (of_post_id id) cs) <-> In c cs /\ Comment.post_id c <> id.
Proof.
  unfold of_post_id. rewrite delete_many_In, Nat.eqb_neq. tauto.
Qed.

Lemma delete_many_likes_post_id (id : ObjectId) (ls : list Like.t) (l : Like.t) :
  In l (delete_many (likes_post_id id) ls) <-> In l ls /\ Like.post_id l <> id.
Proof.
  unfold likes_post_id. rewrite delete_many_In, Nat.eqb_neq. tauto.
Qed.

(** C5. For every id, [delPost] first deletes every comment of the post, then
    every like of the post, then the post itself, in that order and with no
    other access to the storage: no counter is adjusted and the posts that
    remain are as they were.  Afterwards no comment and no like of that post
    is stored, and no page of its comments or likes holds anything. *)
Theorem delPost_cascade (w : World) (id : ObjectId) :
  let w' := snd (delPost id w) in
  fst (delPost id w)
  = Ok (option_map PostDoc.of_post (find (has_id id) (posts w)))
  /\ log w'
     = log w ++ [(Comments, DeleteMany); (Likes, DeleteMany);
                 (Posts, FindByIdAndDelete)]
  /\ (forall c, In c (comments w')
                <-> In c (comments w) /\ Comment.post_id c <> id)
  /\ (forall l, In l (likes w') <-> In l (likes w) /\ Like.post_id l <> id)
  /\ posts w' = remove_first (has_id id) (posts w)
  /\ (forall p, In p (posts w') -> In p (posts w))
  /\ (NoDup (map Post._id (posts w)) ->
      forall p, In p (posts w') <-> In p (posts w) /\ Post._id p <> id)
  /\ users w' = users w
  /\ (forall page, 1 <= page <= max_exact_page ->
      fst (getCommentsForPost id page w') = Ok [])
  /\ (forall page, 1 <= page <= max_exact_page ->
      fst (getPostLikes id page w') = Ok []).
Proof.
  cbn zeta. rewrite delPost_run. cbn [fst snd users posts comments likes log].
  split; [reflexivity|]. split; [reflexivity|].
  split; [intros c; apply delete_many_post_id|].
  split; [intros l; apply delete_many_likes_post_id|].
  split; [reflexivity|].
  split; [intros p; apply In_remove_first|].
  split; [intros Hnd p; now apply remove_first_unique|].
  split; [reflexivity|].
  split; intros page [Hpage _].
  - unfold getCommentsForPost, bind, access, modify, gets, lift. cbn.
    rewrite filter_nil_iff.
    + apply skip_limit_nil. unfold itemsToFetch. lia.
    + intros c Hin. apply delete_many_post_id in Hin.
      apply Nat.eqb_neq. tauto.
  - unfold getPostLikes, bind, access, modify, gets, lift. cbn.
    rewrite filter_nil_iff.
    + apply skip_limit_nil. unfold itemsToFetch. lia.
    + intros l Hin. apply delete_many_likes_post_id in Hin.
      apply Nat.eqb_neq. tauto.
Qed.

(** C10. When no post has the id, [delPost] does not fail: it resolves to
    [null], the comments and likes that name the id are deleted all the same,
    no post is deleted, and the handler answers 200 with the message that the
    post was deleted. *)
Theorem delPost_no_such_post (w : World) (id : ObjectId) (req : Request.t) :
  (forall p, In p (posts w) -> Post._id p <> id) ->
  Request.params_id req = id ->
  let w' := snd (delPost id w) in
  fst (delPost id w) = Ok None
  /\ posts w' = posts w
  /\ users w' = users w
  /\ (forall c, In c (comments w')
                <-> In c (comments w) /\ Comment.post_id c <> id)
  /\ (forall l, In l (likes w') <-> In l (likes w) /\ Like.post_id l <> id)
  /\ Controllers.deletePost req w
     = (Ok (Response.mk 200 (json (json_message "Post deleted successfully"))),
        w').
Proof.
  intros Hnone Hreq.
  assert (Hfind : find (has_id id) (posts w) = None).
  { destruct (find (has_id id) (posts w)) as [p|] eqn:E; [|reflexivity].
    apply find_some in E as [Hin Hid]. apply Nat.eqb_eq in Hid.
    now destruct (Hnone p Hin). }
  cbn zeta.
  unfold Controllers.deletePost, try_catch, bind. rewrite Hreq.
  rewrite delPost_run, Hfind, (remove_first_none _ _ Hfind).
  cbn [fst snd users posts comments likes log option_map].
  split; [reflexivity|]. split; [reflexivity|]. split; [reflexivity|].
  split; [intros c; apply delete_many_post_id|].
  split; [intros l; apply delete_many_likes_post_id|].
  reflexivity.
Qed.

(** ** Archiving a post *)

Lemma PostsModel_save_archived (w : World) (id : ObjectId) (b : bool)
    (p : Post.t) :
  find (has_id id) (posts w) = Some p ->
  PostsModel_save id true (Post.set_post_is_archived b) w
  = (Ok tt,
     mkWorld (users w)
       (update_first (has_id id) (Post.set_post_is_archived b) (posts w))
       (comments w) (likes w) (next_id w) (clock w)
       (log w ++ [(Posts, Save)])).
Proof.
  intros Hfind.
  unfold PostsModel_save, bind, access, modify, gets, ret. cbn.
  now rewrite (find_existsb _ _ _ Hfind).
Qed.

Lemma set_archived_only (w : World) (id : ObjectId) (b : bool) (p : Post.t) :
  find (has_id id) (posts w) = Some p ->
  only_archive_flag b p w
    (mkWorld (users w)
       (update_first (has_id id) (Post.set_post_is_archived b) (posts w))
       (comments w) (likes w) (next_id w) (clock w)
       (log w ++ [(Posts, Save)])).
Proof.
  intros Hfind.
  assert (Hid : Post._id p = id).
  { apply find_some in Hfind as [_ H]. now apply Nat.eqb_eq in H. }
  unfold only_archive_flag. cbn [users posts comments likes]. rewrite Hid.
  split.
  - exists (Post.set_post_is_archived b p). split.
    + apply update_first_find; [assumption|].
      unfold has_id. cbn. now apply Nat.eqb_eq.
    + cbn. rewrite Hid. repeat split.
  - split; [|split; [|repeat split]].
    + intros q Hq. apply update_first_In_other.
      * intros y Hy. exact Hy.
      * unfold has_id. now apply Nat.eqb_neq.
    + apply update_first_map. reflexivity.
Qed.

(** C9. For the stored post [p] and the document [post] a query read from
    it, [archivePost] sets [post_is_archived] to true and [unarchivePost] sets
    it to false; the owner, content, timestamp and both counters of that
    post, every other post, and every comment, like and user stay as they
    were. *)
Theorem archivePost_only_flag (w : World) (post : PostDoc.t) (p : Post.t) :
  find (has_id (PostDoc._id post)) (posts w) = Some p ->
  PostDoc.post_is_archived post = None ->
  (fst (archivePost post w) = Ok (PostDoc.set_post_is_archived true post)
   /\ only_archive_flag true p w (snd (archivePost post w)))
  /\ (fst (unarchivePost post w) = Ok (PostDoc.set_post_is_archived false post)
      /\ only_archive_flag false p w (snd (unarchivePost post w))).
Proof.
  intros Hfind Hread.
  unfold archivePost, unarchivePost, assigns_post_is_archived, bind.
  rewrite Hread. cbn [PostDoc._id PostDoc.set_post_is_archived].
  rewrite !(PostsModel_save_archived w _ _ p Hfind). cbn [fst snd ret].
  split; (split; [reflexivity|]); now apply set_archived_only.
Qed.

(** ** Pages *)

Lemma page_accepted (n : Number) :
  negb (Number_isInteger n) || Number_le_0 n = false -> positive_integer n.
Proof.
  intros H. apply orb_false_iff in H as [Hint Hle].
  apply negb_false_iff in Hint.
  destruct n as [q| | |]; try discriminate.
  cbn in Hint, Hle.
  apply Qeq_bool_iff in Hint.
  exists (Qfloor q), q. split; [|split; [reflexivity | now symmetry]].
  rewrite Zlt_Qlt. change (inject_Z 0) with 0%Q. rewrite Hint.
  apply Qnot_le_lt. intros Hq. apply Qle_bool_iff in Hq.
  rewrite Hq in Hle. discriminate.
Qed.

Lemma page_rejected (n : Number) :
  ~ positive_integer n -> negb (Number_isInteger n) || Number_le_0 n = true.
Proof.
  intros Hn.
  destruct (negb (Number_isInteger n) || Number_le_0 n) eqn:E; [reflexivity|].
  destruct Hn. now apply page_accepted.
Qed.

(** C7. When the page is not a positive integer, each of the four paginated
    handlers answers 400 with the page-number error and leaves the world as
    it was: the log of storage accesses has not grown, so the storage was
    not reached, and nothing changed. *)
Theorem invalid_page_before_storage (req : Request.t) (w : World) :
  ~ positive_integer (Request.params_page req) ->
  Controllers.getFeed req w = (Ok invalid_page, w)
  /\ Controllers.getCommsForPost req w = (Ok invalid_page, w)
  /\ Controllers.getLikesForPost req w = (Ok invalid_page, w)
  /\ Controllers.getPostByUsername req w = (Ok invalid_page, w)
  /\ Response.status invalid_page = 400.
Proof.
  intros Hpage. apply page_rejected in Hpage.
  unfold Controllers.getFeed, Controllers.getCommsForPost,
    Controllers.getLikesForPost, Controllers.getPostByUsername, try_catch.
  rewrite Hpage. repeat split.
Qed.

Lemma one_and_a_half_not_a_page : ~ positive_integer (Finite (3 # 2)).
Proof.
  intros (z & q & Hz & Hq & Heq). injection Hq as <-.
  unfold Qeq in Heq. cbn in Heq. lia.
Qed.

Lemma zero_not_a_page : ~ positive_integer (Finite 0).
Proof.
  intros (z & q & Hz & Hq & Heq). injection Hq as <-.
  unfold Qeq in Heq. cbn in Heq. lia.
Qed.

Lemma skip_limit_page {A} (l : list A) (p : Z) :
  1 <= p ->
  skip_limit ((p - 1) * itemsToFetch) itemsToFetch l = Ok (page_items l p).
Proof.
  intros Hp. unfold skip_limit, page_items, itemsToFetch.
  destruct (Z.ltb_spec ((p - 1) * 5) 0); [lia|].
  replace (Z.to_nat ((p - 1) * 5)) with (5 * (Z.to_nat p - 1))%nat by lia.
  reflexivity.
Qed.

Lemma paginated_intro {A B} (fetch : Z -> Outcome (list B)) (view : A -> B)
    (matching : list A) :
  (forall p, 1 <= p <= max_exact_page ->
     fetch p = Ok (map view (page_items matching p))) ->
  paginated fetch view matching.
Proof.
  intros H. split.
  - intros p Hp. split; [now apply H|].
    unfold page_items. apply firstn_le_length.
  - intros x1 x2 x3 x4 x5 x6 x7 x8 x9 x10 x11 x12 ->.
    rewrite !H by (unfold max_exact_page; lia). repeat split.
Qed.

(** C6. Each paginated read returns, for a page [p] from 1 on, the items of
    the matching collection after the first [5 * (p - 1)], at most 5 of them; on
    12 matching items page 1 is items 1 to 5, page 3 is items 11 and 12, and
    page 4 is the empty sequence, not an error.  The feed pages the posts in
    its own order, most recent first. *)
Theorem pages_of_five (w : World) :
  (forall postId,
     paginated (fun p => fst (getCommentsForPost postId p w)) (fun c => c)
       (filter (of_post_id postId) (comments w)))
  /\ (forall postId,
        paginated (fun p => fst (getPostLikes postId p w)) (fun l => l)
          (filter (likes_post_id postId) (likes w)))
  /\ (forall user_id,
        paginated (fun p => fst (getPostsByUserId user_id p w)) PostDoc.of_post
          (filter (fun p => (Post.post_owner_id p =? user_id)%nat) (posts w)))
  /\ paginated (fun p => fst (fetchPosts p w))
       (fun p => populate_post_owner_id (users w) (PostDoc.of_post p))
       (sort_timestamp_desc (posts w)).
Proof.
  split; [|split; [|split]]; intros; apply paginated_intro; intros p [Hp _].
  - unfold getCommentsForPost, bind, access, modify, gets, lift. cbn.
    rewrite skip_limit_page by assumption. now rewrite map_id.
  - unfold getPostLikes, bind, access, modify, gets, lift. cbn.
    rewrite skip_limit_page by assumption. now rewrite map_id.
  - unfold getPostsByUserId, bind, access, modify, gets, lift. cbn.
    rewrite skip_limit_page by assumption. reflexivity.
  - unfold fetchPosts, try_catch, bind, access, modify, gets, lift.
    cbn -[page_items sort_timestamp_desc].
    rewrite skip_limit_page by assumption.
    destruct (page_items (sort_timestamp_desc (posts w)) p); reflexivity.
Qed.

(** ** The feed *)

Lemma insert_by_timestamp_perm (p : Post.t) (l : list Post.t) :
  Permutation (insert_by_timestamp p l) (p :: l).
Proof.
  induction l as [|q l IH]; simpl; [reflexivity|].
  destruct (Post.post_timestamp q <=? Post.post_timestamp p); [reflexivity|].
  rewrite IH. apply perm_swap.
Qed.

Lemma sort_timestamp_desc_perm (l : list Post.t) :
  Permutation (sort_timestamp_desc l) l.
Proof.
  induction l as [|p l IH]; simpl; [reflexivity|].
  rewrite insert_by_timestamp_perm. now constructor.
Qed.

Lemma insert_by_timestamp_sorted (p : Post.t) (l : list Post.t) :
  StronglySorted recent_first l ->
  StronglySorted recent_first (insert_by_timestamp p l).
Proof.
  induction l as [|q l IH]; simpl; intros Hs.
  - repeat constructor.
  - apply StronglySorted_inv in Hs as [Hl Hq].
    destruct (Z.leb_spec (Post.post_timestamp q) (Post.post_timestamp p)) as [E|E].
    + constructor; [now constructor|].
      constructor; [exact E|].
      eapply Forall_impl; [|exact Hq].
      unfold recent_first. intros a Ha. lia.
    + constructor; [now apply IH|].
      eapply Permutation_Forall.
      * symmetry. apply insert_by_timestamp_perm.
      * constructor; [unfold recent_first; lia | exact Hq].
Qed.

Lemma sort_timestamp_desc_sorted (l : list Post.t) :
  StronglySorted recent_first (sort_timestamp_desc l).
Proof.
  induction l as [|p l IH]; simpl; [constructor|].
  now apply insert_by_timestamp_sorted.
Qed.

Lemma page_items_In {A} (l : list A) (p : Z) (x : A) :
  In x (page_items l p) -> In x l.
Proof.
  unfold page_items. intros Hin.
  rewrite <- (firstn_skipn (5 * (Z.to_nat p - 1)) l). apply in_or_app. right.
  rewrite <- (firstn_skipn 5 (skipn _ l)). apply in_or_app. now left.
Qed.

Lemma fetchPosts_run (w : World) (p : Z) :
  1 <= p ->
  exists w',
    fetchPosts p w
    = (Ok (map (fun post => populate_post_owner_id (users w) (PostDoc.of_post post))
             (page_items (sort_timestamp_desc (posts w)) p)), w')
    /\ same_documents w w'.
Proof.
  intros Hp.
  unfold fetchPosts, try_catch, bind, access, modify, gets, lift.
  cbn -[page_items sort_timestamp_desc].
  rewrite skip_limit_page by assumption.
  destruct (page_items (sort_timestamp_desc (posts w)) p);
    eexists; (split; [reflexivity|]); repeat split.
Qed.

Lemma format_posts_run (us : list User.t) (l : list Post.t) (w : World) :
  (forall post, In post l ->
     exists u, In u us /\ User._id u = Post.post_owner_id post) ->
  exists items,
    Controllers.format_posts
      (map (fun post => populate_post_owner_id us (PostDoc.of_post post)) l) w
    = (Ok items, w)
    /\ Forall2 (carries_owner us) l items.
Proof.
  induction l as [|post l IH]; intros Hown.
  - exists []. split; [reflexivity | constructor].
  - destruct IH as (items & Hrun & Hall).
    { intros q Hq. apply Hown. now right. }
    destruct (Hown post (or_introl eq_refl)) as (u0 & Hin & Hid).
    destruct (find_In_some (fun u => (User._id u =? Post.post_owner_id post)%nat)
                us u0 Hin) as [u Hfind].
    { now apply Nat.eqb_eq. }
    eexists. split.
    + cbn [map Controllers.format_posts]. unfold bind at 1.
      unfold Controllers.format_post, bind, of_merged, populate_post_owner_id
        at 1.
      cbn [Populated.post_owner_id PostDoc.post_owner_id PostDoc.of_post].
      rewrite Hfind. cbn [option_map ret]. unfold bind. rewrite Hrun.
      reflexivity.
    + constructor; [|exact Hall].
      exists u. split; [exact Hfind|]. split.
      * apply find_some in Hfind as [_ H]. now apply Nat.eqb_eq in H.
      * cbn. repeat split.
Qed.

Lemma whole_page (q : Q) (z : Z) :
  1 <= z -> Qeq q (inject_Z z) ->
  negb (Number_isInteger (Finite q)) || Number_le_0 (Finite q) = false
  /\ Number_toZ (Finite q) = z.
Proof.
  intros Hz Hq.
  assert (Hfloor : Qfloor q = z) by (rewrite Hq; apply Qfloor_Z).
  unfold Number_isInteger, Number_le_0, Number_toZ. rewrite Hfloor.
  split; [|reflexivity].
  apply orb_false_iff. split.
  - apply negb_false_iff. apply Qeq_bool_iff. now symmetry.
  - destruct (Qle_bool q 0) eqn:E; [|reflexivity].
    apply Qle_bool_iff in E. rewrite Hq in E.
    change 0%Q with (inject_Z 0) in E. rewrite <- Zle_Qle in E. lia.
Qed.

(** C8. For a page [p] from 1 on, and when the owner of every post is a
    stored user, [getFeed] answers 200 with one item for each post of page [p] of the
    posts ordered by timestamp, most recent first: the posts of rank
    [5 (p - 1) + 1] to [5 p].  Each item carries the username and the profile
    picture, in base64, of the user owning the post.  Nothing stored
    changes. *)
Theorem getFeed_recent_first (w : World) (req : Request.t) (q : Q) (p : Z) :
  1 <= p <= max_exact_page ->
  Request.params_page req = Finite q ->
  Qeq q (inject_Z p) ->
  (forall post, In post (posts w) ->
     exists u, In u (users w) /\ User._id u = Post.post_owner_id post) ->
  exists sorted items,
    Permutation sorted (posts w)
    /\ StronglySorted recent_first sorted
    /\ fst (Controllers.getFeed req w)
       = Ok (Response.mk 200 (json (json_feed items)))
    /\ Forall2 (carries_owner (users w)) (page_items sorted p) items
    /\ same_documents w (snd (Controllers.getFeed req w)).
Proof.
  intros [Hp _] Hpage Hq Hown.
  exists (sort_timestamp_desc (posts w)).
  destruct (whole_page q p Hp Hq) as [Hcheck HtoZ].
  destruct (fetchPosts_run w p Hp) as (w' & Hfetch & Hsame).
  destruct (format_posts_run (users w)
              (page_items (sort_timestamp_desc (posts w)) p) w')
    as (items & Hformat & Hall).
  { intros post Hin. apply Hown.
    apply (Permutation_in _ (sort_timestamp_desc_perm (posts w))).
    now apply page_items_In in Hin. }
  exists items.
  split; [apply sort_timestamp_desc_perm|].
  split; [apply sort_timestamp_desc_sorted|].
  unfold Controllers.getFeed, try_catch, bind.
  rewrite Hpage, Hcheck, HtoZ, Hfetch, Hformat. cbn [fst snd ret].
  split; [reflexivity|]. split; assumption.
Qed.

(** ** The comment counter *)

Lemma createNewComment_run (values : CommentValues.t) (w : World) :
  required (CommentValues.comment_content values) = true ->
  let c := Comment.mk (next_id w) (CommentValues.post_id values)
             (CommentValues.comment_owner_id values)
             (CommentValues.comment_content values) (clock w) in
  createNewComment values w
  = (Ok c,
     mkWorld (users w)
       (update_first (has_id (CommentValues.post_id values))
          (inc_post_comment_count 1) (posts w))
       (comments w ++ [c]) (likes w) (S (next_id w)) (clock w)
       (log w ++ [(Comments, Save); (Posts, FindByIdAndUpdate)])).
Proof.
  intros Hreq.
  unfold createNewComment, PostsModel_findByIdAndUpdate, try_catch, bind,
    newObjectId, Date_now, access, modify, gets, ret.
  rewrite Hreq. cbn. now rewrite <- !app_assoc.
Qed.

Lemma createNewComment_invalid (values : CommentValues.t) (w : World) :
  required (CommentValues.comment_content values) = false ->
  createNewComment values w
  = (Throw ValidationError, set_next_id (S (next_id w)) w).
Proof.
  intros Hreq.
  unfold createNewComment, try_catch, bind, newObjectId, Date_now, gets, throw.
  rewrite Hreq. reflexivity.
Qed.

Lemma delComment_found (id : ObjectId) (w : World) (c : Comment.t) :
  find (comment_has_id id) (comments w) = Some c ->
  delComment id w
  = (Ok (Some c),
     mkWorld (users w)
       (update_first (has_id (Comment.post_id c))
          (inc_post_comment_count (-1)) (posts w))
       (remove_first (comment_has_id id) (comments w))
       (likes w) (next_id w) (clock w)
       (log w ++ [(Comments, FindOneAndDelete); (Posts, FindByIdAndUpdate)])).
Proof.
  intros Hfind.
  unfold delComment, PostsModel_findByIdAndUpdate, try_catch, bind, access,
    modify, gets, ret.
  cbn. rewrite Hfind. cbn.
  now rewrite <- !app_assoc.
Qed.

Lemma delComment_not_found (id : ObjectId) (w : World) :
  find (comment_has_id id) (comments w) = None ->
  delComment id w
  = (Ok None,
     mkWorld (users w) (posts w) (comments w) (likes w) (next_id w) (clock w)
       (log w ++ [(Comments, FindOneAndDelete)])).
Proof.
  intros Hfind.
  unfold delComment, try_catch, bind, access, modify, gets, ret.
  cbn. rewrite Hfind. cbn.
  now rewrite (remove_first_none _ _ Hfind).
Qed.

Lemma comments_on_app (id : ObjectId) (cs : list Comment.t) (c : Comment.t) :
  comments_on id (cs ++ [c])
  = comments_on id cs + (if of_post_id id c then 1 else 0).
Proof.
  unfold comments_on. rewrite filter_app, length_app. cbn.
  destruct (of_post_id id c); cbn; lia.
Qed.

Lemma comments_on_remove_first (id cid : ObjectId) (cs : list Comment.t)
    (c : Comment.t) :
  find (comment_has_id cid) cs = Some c ->
  comments_on id (remove_first (comment_has_id cid) cs)
  = comments_on id cs - (if of_post_id id c then 1 else 0).
Proof.
  unfold comments_on.
  induction cs as [|x cs IH]; simpl; [discriminate|].
  destruct (comment_has_id cid x) eqn:E; intros H.
  - injection H as ->. destruct (of_post_id id c); cbn [List.length]; lia.
  - specialize (IH H). simpl.
    destruct (of_post_id id x); cbn [List.length]; lia.
Qed.

Lemma update_first_unique (id : ObjectId) (g : Post.t -> Post.t)
    (ps : list Post.t) :
  NoDup (map Post._id ps) ->
  update_first (has_id id) g ps
  = map (fun p => if has_id id p then g p else p) ps.
Proof.
  induction ps as [|p ps IH]; simpl; [reflexivity|].
  intros Hnd. apply NoDup_cons_iff in Hnd as [Hp Hnd].
  destruct (has_id id p) eqn:E.
  - f_equal. rewrite <- (map_id ps) at 1. apply map_ext_in.
    intros q Hq. destruct (has_id id q) eqn:Eq; [|reflexivity].
    apply Nat.eqb_eq in E, Eq. destruct Hp. rewrite E, <- Eq.
    now apply in_map.
  - f_equal. now apply IH.
Qed.

(** Adjusting the counter of the post of id [pid] by [d], while the comments
    that reference [pid], and only those, change in number by [d], keeps
    the world consistent. *)
Lemma consistent_adjust (w : World) (pid : ObjectId) (d : Z)
    (cs' : list Comment.t) (us : list User.t) (ls : list Like.t)
    (n : ObjectId) (t : Date) (lg : list Access) :
  consistent w ->
  (forall id, comments_on id cs'
              = comments_on id (comments w) + (if (pid =? id)%nat then d else 0)) ->
  consistent
    (mkWorld us
       (update_first (has_id pid) (inc_post_comment_count d) (posts w))
       cs' ls n t lg).
Proof.
  intros [Hnd Hcount] Hcs'. unfold consistent. cbn [posts comments].
  split.
  - rewrite update_first_map; [assumption | reflexivity].
  - rewrite update_first_unique by assumption.
    intros p' Hin. apply in_map_iff in Hin as (p & <- & Hin).
    specialize (Hcount p Hin). unfold has_id.
    destruct (Nat.eqb_spec (Post._id p) pid) as [E|E].
    + cbn. rewrite Hcs', Hcount, <- E, Nat.eqb_refl. reflexivity.
    + rewrite Hcs', Hcount.
      destruct (Nat.eqb_spec pid (Post._id p)); [congruence | lia].
Qed.

Lemma consistent_same_documents (w w' : World) :
  posts w' = posts w -> comments w' = comments w ->
  consistent w -> consistent w'.
Proof.
  unfold consistent. intros -> ->. tauto.
Qed.

Lemma serve_consistent (r : CommentRequest) (w : World) :
  consistent w -> consistent (serve r w).
Proof.
  intros Hw. destruct r as [now values|id]; cbn [serve].
  - destruct (required (CommentValues.comment_content values)) eqn:Hreq.
    + rewrite createNewComment_run by assumption. cbn [snd].
      apply (consistent_adjust (set_clock now w)).
      * revert Hw. now apply consistent_same_documents.
      * intros id. cbn [comments set_clock]. rewrite comments_on_app.
        unfold of_post_id. cbn [Comment.post_id].
        reflexivity.
    + rewrite createNewComment_invalid by assumption.
      revert Hw. now apply consistent_same_documents.
  - destruct (find (comment_has_id id) (comments w)) as [c|] eqn:Hfind.
    + rewrite (delComment_found _ _ _ Hfind). cbn [snd].
      apply consistent_adjust; [assumption|].
      intros pid. rewrite (comments_on_remove_first _ _ _ _ Hfind).
      unfold of_post_id. destruct (Comment.post_id c =? pid)%nat; lia.
    + rewrite (delComment_not_found _ _ Hfind).
      revert Hw. now apply consistent_same_documents.
Qed.

Lemma serve_all_consistent (rs : list CommentRequest) (w : World) :
  consistent w -> consistent (serve_all rs w).
Proof.
  revert w. induction rs as [|r rs IH]; intros w Hw; [exact Hw|].
  cbn. apply IH. now apply serve_consistent.
Qed.

Lemma comments_on_nonneg (id : ObjectId) (cs : list Comment.t) :
  0 <= comments_on id cs.
Proof. unfold comments_on. lia. Qed.

(** C2. From a consistent world, after any sequence of comment creations and
    deletions every post's [post_comment_count] is the number of stored
    comments that reference the post, and so is never negative.  A creation
    that succeeds stores one comment and raises the counter of its post by
    exactly 1; a deletion that finds the comment removes it and lowers the
    counter of its post by 1; a deletion that finds no comment of the id
    resolves to [null] and changes neither the posts nor the comments. *)
Theorem comment_count_invariant (w : World) (rs : list CommentRequest) :
  consistent w ->
  (forall p, In p (posts (serve_all rs w)) ->
     Post.post_comment_count p
     = comments_on (Post._id p) (comments (serve_all rs w))
     /\ 0 <= Post.post_comment_count p)
  /\ (forall w0 values c w1,
        createNewComment values w0 = (Ok c, w1) ->
        comments w1 = comments w0 ++ [c]
        /\ Comment.post_id c = CommentValues.post_id values
        /\ forall p,
             find (has_id (CommentValues.post_id values)) (posts w0) = Some p ->
             find (has_id (CommentValues.post_id values)) (posts w1)
             = Some (Post.set_post_comment_count
                       (Post.post_comment_count p + 1) p))
  /\ (forall w0 id c,
        find (comment_has_id id) (comments w0) = Some c ->
        fst (delComment id w0) = Ok (Some c)
        /\ comments (snd (delComment id w0))
           = remove_first (comment_has_id id) (comments w0)
        /\ forall p,
             find (has_id (Comment.post_id c)) (posts w0) = Some p ->
             find (has_id (Comment.post_id c)) (posts (snd (delComment id w0)))
             = Some (Post.set_post_comment_count
                       (Post.post_comment_count p - 1) p))
  /\ (forall w0 id,
        find (comment_has_id id) (comments w0) = None ->
        fst (delComment id w0) = Ok None
        /\ posts (snd (delComment id w0)) = posts w0
        /\ comments (snd (delComment id w0)) = comments w0).
Proof.
  intros Hw. split; [|split; [|split]].
  - intros p Hin.
    destruct (serve_all_consistent rs w Hw) as [_ Hcount].
    rewrite (Hcount p Hin). split; [reflexivity | apply comments_on_nonneg].
  - intros w0 values c w1 Hrun.
    destruct (required (CommentValues.comment_content values)) eqn:Hreq.
    + rewrite createNewComment_run in Hrun by assumption.
      injection Hrun as <- <-. cbn [comments posts Comment.post_id].
      split; [reflexivity|]. split; [reflexivity|].
      intros p Hfind.
      rewrite (update_first_find _ (inc_post_comment_count 1) _ p Hfind);
        [reflexivity|].
      apply find_some in Hfind as [_ H]. exact H.
    + rewrite createNewComment_invalid in Hrun by assumption. discriminate.
  - intros w0 id c Hfind. rewrite (delComment_found _ _ _ Hfind).
    cbn [fst snd comments posts].
    split; [reflexivity|]. split; [reflexivity|].
    intros p Hp.
    rewrite (update_first_find _ (inc_post_comment_count (-1)) _ p Hp);
      [reflexivity|].
    apply find_some in Hp as [_ H]. exact H.
  - intros w0 id Hfind. rewrite (delComment_not_found _ _ Hfind).
    cbn [fst snd comments posts]. repeat split.
Qed.

(** ** Deleting a profile *)

(** C1, at a failing input.  Ann's profile is archived and [deleteProfile]
    succeeds with status 200: her post is deleted, and Bob's comment and Bob's
    like on that post are both still stored, referencing a post that is no
    longer there. *)
Theorem deleteProfile_keeps_reactions_of_others :
  let w' := snd (deleteProfile 1 world_of_ann_and_bob) in
  fst (deleteProfile 1 world_of_ann_and_bob) = Ok (Deletion.mk 200 None)
  /\ users w' = [bob]
  /\ posts w' = []
  /\ comments w' = [comment_of_bob]
  /\ likes w' = [like_of_bob]
  /\ Comment.post_id comment_of_bob = Post._id post_of_ann
  /\ Like.post_id like_of_bob = Post._id post_of_ann.
Proof.
  cbn zeta. repeat split.
Qed.

Lemma posts_only_refl (w : World) : posts_only w w.
Proof. repeat split. Qed.

Lemma posts_only_trans (w1 w2 w3 : World) :
  posts_only w1 w2 -> posts_only w2 w3 -> posts_only w1 w3.
Proof.
  unfold posts_only. intros (-> & -> & ->) (-> & -> & ->). repeat split.
Qed.

Lemma PostsModel_save_posts_only (id : ObjectId) (g : Post.t -> Post.t)
    (w : World) :
  posts_only w (snd (PostsModel_save id true g w)).
Proof.
  unfold PostsModel_save, bind, access, modify, gets, throw. cbn.
  destruct (existsb (has_id id) (posts w)); repeat split.
Qed.

Lemma lower_comment_count_posts_only (c : Comment.t) (w : World) :
  posts_only w (snd (lower_comment_count c w)).
Proof.
  unfold lower_comment_count, bind, access, modify, gets. cbn.
  destruct (filter (has_id (Comment.post_id c)) (posts w)) as [|p l];
    cbn [map]; [repeat split|].
  eapply posts_only_trans; [|apply PostsModel_save_posts_only]. repeat split.
Qed.

Lemma lower_like_count_posts_only (l : Like.t) (w : World) :
  posts_only w (snd (lower_like_count l w)).
Proof.
  unfold lower_like_count, bind, access, modify, gets. cbn.
  destruct (filter (has_id (Like.post_id l)) (posts w)) as [|p ps];
    cbn [map]; [repeat split|].
  eapply posts_only_trans; [|apply PostsModel_save_posts_only]. repeat split.
Qed.

Lemma forEach_unawaited {A} (f : A -> M unit) (l : list A) (w : World) :
  (forall x w0, posts_only w0 (snd (f x w0))) ->
  fst (forEach l (fun x => unawaited (f x)) w) = Ok tt
  /\ posts_only w (snd (forEach l (fun x => unawaited (f x)) w)).
Proof.
  intros Hf. revert w.
  induction l as [|x l IH]; intros w; cbn [forEach].
  - split; [reflexivity | apply posts_only_refl].
  - unfold bind, unawaited at 1. destruct (IH (snd (f x w))) as [Hr Hp].
    split; [exact Hr|].
    eapply posts_only_trans; [apply Hf | exact Hp].
Qed.

Lemma deleteAllPosts_run (id : ObjectId) (w : World) :
  exists w4,
    posts_only w w4
    /\ deleteAllPosts id w
       = (Ok tt,
          mkWorld (users w4)
            (delete_many (fun p => (Post.post_owner_id p =? id)%nat) (posts w4))
            (delete_many (fun c => (Comment.comment_owner_id c =? id)%nat)
               (comments w4))
            (delete_many (fun l => (Like.like_owner_id l =? id)%nat) (likes w4))
            (next_id w4) (clock w4)
            (log w4 ++ [(Posts, DeleteMany); (Comments, DeleteMany);
                        (Likes, DeleteMany)])).
Proof.
  unfold deleteAllPosts, try_catch.
  unfold bind at 1. unfold access at 1, modify at 1.
  unfold bind at 1. unfold gets at 1. cbn [comments set_log].
  unfold bind at 1.
  set (w1 := set_log (log w ++ [(Comments, Find)]) w).
  destruct (forEach_unawaited lower_comment_count
              (filter (fun c => (Comment.comment_owner_id c =? id)%nat)
                 (comments w)) w1 lower_comment_count_posts_only)
    as [Hr1 H1].
  destruct (forEach _ _ w1) as [r1 w2]. cbn [fst snd] in Hr1, H1. subst r1.
  unfold bind at 1. unfold access at 1, modify at 1.
  unfold bind at 1. unfold gets at 1. cbn [likes set_log].
  unfold bind at 1.
  set (w3 := set_log (log w2 ++ [(Likes, Find)]) w2).
  destruct (forEach_unawaited lower_like_count
              (filter (fun l => (Like.like_owner_id l =? id)%nat) (likes w2))
              w3 lower_like_count_posts_only)
    as [Hr2 H2].
  destruct (forEach _ _ w3) as [r2 w4]. cbn [fst snd] in Hr2, H2. subst r2.
  exists w4. split.
  - apply (posts_only_trans w w2); [exact H1|].
    apply (posts_only_trans w2 w3); [repeat split | exact H2].
  - unfold bind, access, modify. cbn. now rewrite <- !app_assoc.
Qed.

(** Whatever the callbacks do to the counters, [deleteAllPosts] succeeds and
    deletes the posts the user owns, the comments the user wrote and the likes
    the user gave, and no other comment or like: one placed by somebody else
    on a post of the user stays. *)
Lemma deleteAllPosts_documents (id : ObjectId) (w : World) :
  let w' := snd (deleteAllPosts id w) in
  fst (deleteAllPosts id w) = Ok tt
  /\ users w' = users w
  /\ comments w'
     = delete_many (fun c => (Comment.comment_owner_id c =? id)%nat) (comments w)
  /\ likes w'
     = delete_many (fun l => (Like.like_owner_id l =? id)%nat) (likes w)
  /\ forall p, In p (posts w') -> Post.post_owner_id p <> id.
Proof.
  cbn zeta. destruct (deleteAllPosts_run id w) as (w4 & (Hu & Hc & Hl) & ->).
  cbn [fst snd users posts comments likes]. rewrite Hu, Hc, Hl.
  repeat split.
  intros p Hin. apply delete_many_In in Hin as [_ Hp].
  now apply Nat.eqb_neq.
Qed.

(** ** The scenario of a post, a comment on it, and the post deleted *)

Example post_comment_delete :
  let w0 := mkWorld [ann; bob] [] [] [] 10 1000 [] in
  let w1 := snd (createNewPost (PostValues.mk 1 "hello") w0) in
  let w2 := snd (createNewComment (CommentValues.mk 10 2 "nice") w1) in
  let w3 := snd (delPost 10 w2) in
  map Post._id (posts w1) = [10%nat]
  /\ map Post.post_comment_count (posts w2) = [1]
  /\ fst (getCommentsForPost 10 1 w2) = Ok [Comment.mk 11 10 2 "nice" 1000]
  /\ posts w3 = []
  /\ comments w3 = []
  /\ fst (getCommentsForPost 10 1 w3) = Ok []
  /\ fst (getCommentById 11 w3) = Ok None.
Proof. cbn zeta. repeat split. Qed.

(** ** The properties on the small network *)

Lemma createNewLike_already_liked_witness :
  (exists l, In l (likes world_of_ann_and_bob)
             /\ Like.post_id l = 10%nat /\ Like.like_owner_id l = 2%nat)
  /\ fst (createNewLike (LikeValues.mk 10 2) world_of_ann_and_bob) = Ok 200
  /\ likes (snd (createNewLike (LikeValues.mk 10 2) world_of_ann_and_bob))
     = [like_of_bob]
  /\ posts (snd (createNewLike (LikeValues.mk 10 2) world_of_ann_and_bob))
     = [post_of_ann]
  /\ fst (Controllers.createLike (request_of_bob 10 NaN) world_of_ann_and_bob)
     = Ok (Response.mk 200
             (json (json_message "You have already liked this post."))).
Proof.
  assert (H : exists l, In l (likes world_of_ann_and_bob)
                        /\ Like.post_id l = 10%nat /\ Like.like_owner_id l = 2%nat).
  { exists like_of_bob. simpl. auto. }
  split; [exact H|].
  destruct (createNewLike_already_liked world_of_ann_and_bob
              (LikeValues.mk 10 2) (request_of_bob 10 NaN) bob H
              eq_refl eq_refl)
    as (Hr & _ & Hl & Hp & _ & Hc).
  split; [exact Hr|]. split; [exact Hl|]. split; [exact Hp|].
  now rewrite Hc.
Defined.

Lemma deleteProfile_not_archived_witness :
  find (fun u => (User._id u =? 2)%nat) (users world_of_ann_and_bob) = Some bob
  /\ User.profile_is_archived bob = false
  /\ fst (deleteProfile 2 world_of_ann_and_bob)
     = Ok (Deletion.mk 400
             (Some "Cannot delete a profile that is not archived"%string))
  /\ users (snd (deleteProfile 2 world_of_ann_and_bob)) = [ann; bob]
  /\ posts (snd (deleteProfile 2 world_of_ann_and_bob)) = [post_of_ann]
  /\ comments (snd (deleteProfile 2 world_of_ann_and_bob)) = [comment_of_bob]
  /\ likes (snd (deleteProfile 2 world_of_ann_and_bob)) = [like_of_bob].
Proof.
  split; [reflexivity|]. split; [reflexivity|].
  destruct (deleteProfile_not_archived world_of_ann_and_bob 2 bob
              (request_of_bob 10 NaN) eq_refl eq_refl eq_refl)
    as (Hr & Hu & Hp & Hc & Hl & _).
  repeat split; assumption.
Defined.

Lemma delPost_cascade_witness :
  NoDup (map Post._id (posts world_of_twelve_comments))
  /\ (1 <= 1 <= max_exact_page)
  /\ List.length (comments (snd (delPost 10 world_of_twelve_comments))) = 2%nat
  /\ map Post._id (posts (snd (delPost 10 world_of_twelve_comments))) = [11%nat]
  /\ fst (getCommentsForPost 10 1 (snd (delPost 10 world_of_twelve_comments)))
     = Ok [].
Proof.
  assert (Hnd : NoDup (map Post._id (posts world_of_twelve_comments))).
  { simpl. repeat constructor; simpl; intuition discriminate. }
  split; [exact Hnd|]. split; [unfold max_exact_page; lia|].
  destruct (delPost_cascade world_of_twelve_comments 10)
    as (_ & _ & _ & _ & Hp & _ & _ & _ & Hc & _).
  split; [reflexivity|]. split; [now rewrite Hp|].
  apply Hc. unfold max_exact_page. lia.
Defined.

Lemma delPost_no_such_post_witness :
  (forall p, In p (posts world_of_ann_and_bob) -> Post._id p <> 77%nat)
  /\ fst (delPost 77 world_of_ann_and_bob) = Ok None
  /\ posts (snd (delPost 77 world_of_ann_and_bob)) = [post_of_ann]
  /\ fst (Controllers.deletePost (request_of_bob 77 NaN) world_of_ann_and_bob)
     = Ok (Response.mk 200 (json (json_message "Post deleted successfully"))).
Proof.
  assert (H : forall p, In p (posts world_of_ann_and_bob) -> Post._id p <> 77%nat).
  { intros p [<-|[]]. discriminate. }
  split; [exact H|].
  destruct (delPost_no_such_post world_of_ann_and_bob 77
              (request_of_bob 77 NaN) H eq_refl)
    as (Hr & Hp & _ & _ & _ & Hc).
  split; [exact Hr|]. split; [exact Hp|]. now rewrite Hc.
Defined.

Lemma archivePost_only_flag_witness :
  find (has_id 10) (posts world_of_ann_and_bob) = Some post_of_ann
  /\ posts (snd (archivePost (PostDoc.of_post post_of_ann) world_of_ann_and_bob))
     = [Post.mk 10 1 "hello" 1000 true 1 1]
  /\ only_archive_flag true post_of_ann world_of_ann_and_bob
       (snd (archivePost (PostDoc.of_post post_of_ann) world_of_ann_and_bob))
  /\ only_archive_flag false post_of_ann world_of_ann_and_bob
       (snd (unarchivePost (PostDoc.of_post post_of_ann) world_of_ann_and_bob)).
Proof.
  split; [reflexivity|]. split; [reflexivity|].
  destruct (archivePost_only_flag world_of_ann_and_bob
              (PostDoc.of_post post_of_ann) post_of_ann eq_refl eq_refl)
    as ((_ & Ha) & (_ & Hu)).
  split; assumption.
Defined.

Lemma invalid_page_before_storage_witness :
  ~ positive_integer (Finite (3 # 2))
  /\ Controllers.getFeed (request_of_bob 10 (Finite (3 # 2))) world_of_ann_and_bob
     = (Ok invalid_page, world_of_ann_and_bob)
  /\ Controllers.getCommsForPost (request_of_bob 10 (Finite 0))
       world_of_ann_and_bob
     = (Ok invalid_page, world_of_ann_and_bob).
Proof.
  split; [exact one_and_a_half_not_a_page|].
  split.
  - apply (invalid_page_before_storage
             (request_of_bob 10 (Finite (3 # 2))) world_of_ann_and_bob).
    exact one_and_a_half_not_a_page.
  - apply (invalid_page_before_storage
             (request_of_bob 10 (Finite 0)) world_of_ann_and_bob).
    exact zero_not_a_page.
Defined.

Lemma pages_of_five_witness :
  fst (getCommentsForPost 10 1 world_of_twelve_comments)
  = Ok (firstn 5 twelve_comments)
  /\ fst (getCommentsForPost 10 3 world_of_twelve_comments)
     = Ok (skipn 10 twelve_comments)
  /\ fst (getCommentsForPost 10 4 world_of_twelve_comments) = Ok [].
Proof.
  destruct (pages_of_five world_of_twelve_comments) as (H & _).
  destruct (H 10%nat) as [_ H12].
  exact (H12 _ _ _ _ _ _ _ _ _ _ _ _ eq_refl).
Defined.

Lemma getFeed_recent_first_witness :
  fst (Controllers.getFeed (request_of_bob 10 (Finite (4 # 2)))
         world_of_seven_posts)
  = Ok (Response.mk 200 (json (json_feed
      [FeedItem.mk "bob" (Some "TWFu"%string) 2000 0 0 "d" 13;
       FeedItem.mk "ann" None 1000 0 0 "a" 10])))
  /\ exists sorted items,
       Permutation sorted (posts world_of_seven_posts)
       /\ StronglySorted recent_first sorted
       /\ fst (Controllers.getFeed (request_of_bob 10 (Finite (4 # 2)))
                 world_of_seven_posts)
          = Ok (Response.mk 200 (json (json_feed items)))
       /\ Forall2 (carries_owner (users world_of_seven_posts))
            (page_items sorted 2) items.
Proof.
  split; [reflexivity|].
  destruct (getFeed_recent_first world_of_seven_posts
              (request_of_bob 10 (Finite (4 # 2))) (4 # 2) 2)
    as (sorted & items & Hperm & Hsorted & Hrun & Hall & _).
  - unfold max_exact_page. lia.
  - reflexivity.
  - reflexivity.
  - intros post Hin. simpl in Hin.
    repeat (destruct Hin as [<-|Hin];
            [first [exists ann; simpl; now auto | exists bob; simpl; now auto]|]).
    destruct Hin.
  - exists sorted, items. auto.
Defined.

Lemma comment_count_invariant_witness :
  consistent world_of_ann_and_bob
  /\ map Post.post_comment_count
       (posts (serve_all
                 [create_comment 2001 (CommentValues.mk 10 1 "thanks");
                  delete_comment 999;
                  create_comment 2002 (CommentValues.mk 10 2 "");
                  delete_comment 100;
                  create_comment 2003 (CommentValues.mk 10 2 "bye")]
                 world_of_ann_and_bob))
     = [2]
  /\ forall p,
       In p (posts (serve_all
                      [create_comment 2001 (CommentValues.mk 10 1 "thanks");
                       delete_comment 999;
                       create_comment 2002 (CommentValues.mk 10 2 "");
                       delete_comment 100;
                       create_comment 2003 (CommentValues.mk 10 2 "bye")]
                      world_of_ann_and_bob)) ->
       Post.post_comment_count p
       = comments_on (Post._id p)
           (comments (serve_all
                        [create_comment 2001 (CommentValues.mk 10 1 "thanks");
                         delete_comment 999;
                         create_comment 2002 (CommentValues.mk 10 2 "");
                         delete_comment 100;
                         create_comment 2003 (CommentValues.mk 10 2 "bye")]
                        world_of_ann_and_bob))
       /\ 0 <= Post.post_comment_count p.
Proof.
  assert (H : consistent world_of_ann_and_bob).
  { split.
    - simpl. repeat constructor. simpl. tauto.
    - intros p [<-|[]]. reflexivity. }
  split; [exact H|]. split; [reflexivity|].
  apply (comment_count_invariant world_of_ann_and_bob _ H).
Defined.

(** * More of the code *)

(** ** Likes *)

Lemma same_like_pair (values : LikeValues.t) (l : Like.t) :
  same_like values l = true
  <-> like_pair l = (LikeValues.post_id values, LikeValues.like_owner_id values).
Proof.
  unfold same_like, like_pair. rewrite andb_true_iff, !Nat.eqb_eq.
  split; [intros [-> ->]; reflexivity | intros H; now injection H].
Qed.

Lemma not_liked_find (values : LikeValues.t) (ls : list Like.t) :
  not_liked values ls <-> find (same_like values) ls = None.
Proof.
  split.
  - intros H. destruct (find (same_like values) ls) as [l|] eqn:E; [|reflexivity].
    apply find_some in E as [Hin Hl]. apply same_like_pair in Hl.
    now destruct (H l Hin).
  - intros H l Hin Hl. apply same_like_pair in Hl.
    now rewrite (find_none _ _ H l Hin) in Hl.
Qed.

Lemma find_has_id (id : ObjectId) (ps : list Post.t) (p : Post.t) :
  find (has_id id) ps = Some p -> Post._id p = id.
Proof.
  intros H. apply find_some in H as [_ H]. now apply Nat.eqb_eq in H.
Qed.

Lemma createNewLike_liked (values : LikeValues.t) (w : World) (l : Like.t) :
  find (same_like values) (likes w) = Some l ->
  createNewLike values w = (Ok 200, set_log (log w ++ [(Likes, FindOne)]) w).
Proof.
  intros Hl.
  unfold createNewLike, LikeModel_findOne, bind, access, modify, gets, ret.
  cbn. now rewrite Hl.
Qed.

Lemma createNewLike_no_post_run (values : LikeValues.t) (w : World) :
  find (same_like values) (likes w) = None ->
  find (has_id (LikeValues.post_id values)) (posts w) = None ->
  createNewLike values w
  = (Throw TypeError,
     set_log (log w ++ [(Likes, FindOne); (Posts, FindById)]) w).
Proof.
  intros Hl Hp.
  unfold createNewLike, LikeModel_findOne, PostsModel_findById, bind, access,
    modify, gets, ret, throw.
  cbn. rewrite Hl. cbn. rewrite Hp. cbn. now rewrite <- !app_assoc.
Qed.

Lemma createNewLike_created (values : LikeValues.t) (w : World) (p : Post.t) :
  find (same_like values) (likes w) = None ->
  find (has_id (LikeValues.post_id values)) (posts w) = Some p ->
  createNewLike values w
  = (Ok 201,
     mkWorld (users w)
       (update_first (has_id (LikeValues.post_id values))
          (Post.set_post_like_count (Post.post_like_count p + 1)) (posts w))
       (comments w)
       (likes w ++ [Like.mk (next_id w) (LikeValues.post_id values)
                      (LikeValues.like_owner_id values) (clock w)])
       (S (next_id w)) (clock w)
       (log w ++ [(Likes, FindOne); (Posts, FindById); (Posts, Save);
                  (Likes, Create)])).
Proof.
  intros Hl Hp.
  unfold createNewLike, LikeModel_findOne, PostsModel_findById, PostsModel_save,
    newObjectId, Date_now, bind, access, modify, gets, ret, throw.
  cbn. rewrite Hl. cbn. rewrite Hp. cbn.
  rewrite (find_has_id _ _ _ Hp), (find_existsb _ _ _ Hp). cbn.
  now rewrite <- !app_assoc.
Qed.

Lemma delLike_not_found_run (values : LikeValues.t) (w : World) :
  find (same_like values) (likes w) = None ->
  delLike values w = (Ok 404, set_log (log w ++ [(Likes, FindOne)]) w).
Proof.
  intros Hl.
  unfold delLike, LikeModel_findOne, bind, access, modify, gets, ret.
  cbn. now rewrite Hl.
Qed.

Lemma delLike_no_post_run (values : LikeValues.t) (w : World) (l : Like.t) :
  find (same_like values) (likes w) = Some l ->
  find (has_id (LikeValues.post_id values)) (posts w) = None ->
  delLike values w
  = (Throw TypeError,
     set_log (log w ++ [(Likes, FindOne); (Posts, FindById)]) w).
Proof.
  intros Hl Hp.
  unfold delLike, LikeModel_findOne, PostsModel_findById, bind, access,
    modify, gets, ret, throw.
  cbn. rewrite Hl. cbn. rewrite Hp. cbn. now rewrite <- !app_assoc.
Qed.

Lemma delLike_deleted (values : LikeValues.t) (w : World) (l : Like.t)
    (p : Post.t) :
  find (same_like values) (likes w) = Some l ->
  find (has_id (LikeValues.post_id values)) (posts w) = Some p ->
  delLike values w
  = (Ok 200,
     mkWorld (users w)
       (update_first (has_id (LikeValues.post_id values))
          (Post.set_post_like_count (Post.post_like_count p - 1)) (posts w))
       (comments w)
       (remove_first (fun x => (Like._id x =? Like._id l)%nat) (likes w))
       (next_id w) (clock w)
       (log w ++ [(Likes, FindOne); (Posts, FindById); (Posts, Save);
                  (Likes, DeleteOne)])).
Proof.
  intros Hl Hp.
  unfold delLike, LikeModel_findOne, PostsModel_findById, PostsModel_save,
    bind, access, modify, gets, ret, throw.
  cbn. rewrite Hl. cbn. rewrite Hp. cbn.
  rewrite (find_has_id _ _ _ Hp), (find_existsb _ _ _ Hp). cbn.
  now rewrite <- !app_assoc.
Qed.

Lemma createLike_run (req : Request.t) (user : User.t) (w : World) :
  Request.identity req = Some user ->
  Controllers.createLike req w
  = match createNewLike (LikeValues.mk (Request.params_id req) (User._id user)) w
    with
    | (Ok statusCode, w') =>
        (Ok (if statusCode =? 201
             then Response.mk 201
                    (json (json_message "New like created successfully"))
             else Response.mk 200
                    (json (json_message "You have already liked this post."))),
         w')
    | (Throw _, w') =>
        (Ok (Response.mk 400 (json (json_error "Invalid request..."))), w')
    end.
Proof.
  intros Hid. unfold Controllers.createLike, try_catch, bind, of_merged.
  rewrite Hid. unfold ret at 1.
  destruct (createNewLike _ w) as [[statusCode|e] w']; [|reflexivity].
  destruct (statusCode =? 201); reflexivity.
Qed.

Lemma deleteLike_run (req : Request.t) (user : User.t) (w : World) :
  Request.identity req = Some user ->
  Controllers.deleteLike req w
  = match delLike (LikeValues.mk (Request.params_id req) (User._id user)) w
    with
    | (Ok statusCode, w') =>
        (Ok (if statusCode =? 200
             then Response.mk 200
                    (json (json_message "Like deleted successfully"))
             else Response.mk 404 (json (json_message "Like not found."))),
         w')
    | (Throw _, w') =>
        (Ok (Response.mk 400 (json (json_error "Invalid request..."))), w')
    end.
Proof.
  intros Hid. unfold Controllers.deleteLike, try_catch, bind, of_merged.
  rewrite Hid. unfold ret at 1.
  destruct (delLike _ w) as [[statusCode|e] w']; [|reflexivity].
  destruct (statusCode =? 200); reflexivity.
Qed.


(** X2. When the user has no like on the post and no post has the id,
    [createNewLike] throws on reading the counter of [null]: no like is
    stored, nothing else changes, and the handler answers 400. *)
Theorem createNewLike_no_post (w : World) (req : Request.t) (user : User.t) :
  Request.identity req = Some user ->
  let values := LikeValues.mk (Request.params_id req) (User._id user) in
  not_liked values (likes w) ->
  (forall p, In p (posts w) -> Post._id p <> Request.params_id req) ->
  fst (createNewLike values w) = Throw TypeError
  /\ same_documents w (snd (createNewLike values w))
  /\ fst (Controllers.createLike req w)
     = Ok (Response.mk 400 (json (json_error "Invalid request...")))
  /\ same_documents w (snd (Controllers.createLike req w)).
Proof.
  intros Hid values Hnot Hnone. apply not_liked_find in Hnot.
  assert (Hp : find (has_id (LikeValues.post_id values)) (posts w) = None).
  { destruct (find _ (posts w)) as [p|] eqn:E; [|reflexivity].
    destruct (Hnone p); [now apply find_some in E | now apply find_has_id in E]. }
  rewrite (createLike_run req user w Hid). fold values.
  rewrite (createNewLike_no_post_run values w Hnot Hp).
  repeat split.
Qed.

(** X3. When the user has no like on the post, [delLike] resolves to 404
    after looking the like up: no counter is lowered, nothing stored changes,
    and the handler answers 404. *)
Theorem delLike_not_found (w : World) (req : Request.t) (user : User.t) :
  Request.identity req = Some user ->
  let values := LikeValues.mk (Request.params_id req) (User._id user) in
  not_liked values (likes w) ->
  fst (delLike values w) = Ok 404
  /\ same_documents w (snd (delLike values w))
  /\ log (snd (delLike values w)) = log w ++ [(Likes, FindOne)]
  /\ Controllers.deleteLike req w
     = (Ok (Response.mk 404 (json (json_message "Like not found."))),
        snd (delLike values w)).
Proof.
  intros Hid values Hnot. apply not_liked_find in Hnot.
  rewrite (deleteLike_run req user w Hid). fold values.
  rewrite (delLike_not_found_run values w Hnot).
  repeat split.
Qed.

(** ** Well-formed stores *)

Lemma unique_by_id (ps : list Post.t) (p q : Post.t) :
  NoDup (map Post._id ps) -> In p ps -> In q ps -> Post._id p = Post._id q ->
  p = q.
Proof.
  induction ps as [|x ps IH]; simpl; [tauto|].
  intros Hnd Hp Hq Hid. apply NoDup_cons_iff in Hnd as [Hx Hnd].
  destruct Hp as [->|Hp], Hq as [->|Hq]; auto.
  - destruct Hx. rewrite Hid. now apply in_map.
  - destruct Hx. rewrite <- Hid. now apply in_map.
Qed.


Lemma In_post_ids (ps : list Post.t) (id : ObjectId) :
  In id (map Post._id ps) <-> exists p, find (has_id id) ps = Some p.
Proof.
  split.
  - intros H. apply in_map_iff in H as (p & Hid & Hin).
    apply (find_In_some (has_id id) ps p Hin). now apply Nat.eqb_eq.
  - intros [p H]. apply in_map_iff. exists p.
    split; [now apply find_has_id in H | now apply find_some in H].
Qed.


(** Only the fresh id, the clock, the log or the users moved. *)
Lemma wf_same_store (w w' : World) :
  posts w' = posts w -> comments w' = comments w -> likes w' = likes w ->
  (next_id w <= next_id w')%nat ->
  well_formed w -> well_formed w'.
Proof.
  intros Hp Hc Hl Hn [].
  constructor; rewrite ?Hp, ?Hc, ?Hl; auto.
  - intros p H. specialize (wf_posts_fresh0 p H). lia.
  - intros l H. specialize (wf_likes_fresh0 l H). lia.
Qed.

(** The counters of the post of id [pid] are set to what the new comments
    and likes make them, and those of the other posts stay right. *)
Lemma wf_update_counters (w : World) (pid : ObjectId) (g : Post.t -> Post.t)
    (p : Post.t) (cs' : list Comment.t) (ls' : list Like.t)
    (us : list User.t) (n : ObjectId) (t : Date) (lg : list Access) :
  well_formed w ->
  find (has_id pid) (posts w) = Some p ->
  (forall y, Post._id (g y) = Post._id y) ->
  Post.post_comment_count (g p) = comments_on pid cs' ->
  Post.post_like_count (g p) = likes_on pid ls' ->
  (forall id, id <> pid -> comments_on id cs' = comments_on id (comments w)) ->
  (forall id, id <> pid -> likes_on id ls' = likes_on id (likes w)) ->
  (next_id w <= n)%nat ->
  NoDup (map Like._id ls') ->
  (forall l, In l ls' -> (Like._id l < n)%nat) ->
  NoDup (map like_pair ls') ->
  (forall c, In c cs' -> In (Comment.post_id c) (map Post._id (posts w))) ->
  (forall l, In l ls' -> In (Like.post_id l) (map Post._id (posts w))) ->
  well_formed
    (mkWorld us (update_first (has_id pid) g (posts w)) cs' ls' n t lg).
Proof.
  intros [] Hp Hid Hcc Hlc Hcs Hls Hn Hlids Hlfresh Hpairs Hcp Hlp.
  assert (Hids : map Post._id (update_first (has_id pid) g (posts w))
                 = map Post._id (posts w)) by now apply update_first_map.
  assert (Hpid : Post._id p = pid) by now apply find_has_id in Hp.
  assert (Hpin : In p (posts w)) by now apply find_some in Hp.
  assert (Hin : forall q', In q' (update_first (has_id pid) g (posts w)) ->
                  q' = g p \/ (In q' (posts w) /\ Post._id q' <> pid)).
  { intros q' H. rewrite update_first_unique in H by assumption.
    apply in_map_iff in H as (q & <- & Hq).
    unfold has_id. destruct (Nat.eqb_spec (Post._id q) pid) as [E|E].
    - left. f_equal. apply (unique_by_id (posts w)); auto. congruence.
    - right. auto. }
  constructor; cbn [posts comments likes next_id]; try rewrite Hids; auto.
  - intros q' H. destruct (Hin q' H) as [->|[Hq _]].
    + rewrite Hid. specialize (wf_posts_fresh0 p Hpin). lia.
    + specialize (wf_posts_fresh0 q' Hq). lia.
  - intros q' H. destruct (Hin q' H) as [->|[Hq Hne]].
    + rewrite Hid, Hpid. exact Hcc.
    + rewrite Hcs by assumption. auto.
  - intros q' H. destruct (Hin q' H) as [->|[Hq Hne]].
    + rewrite Hid, Hpid. exact Hlc.
    + rewrite Hls by assumption. auto.
Qed.

Lemma NoDup_map_snoc {A B} (f : A -> B) (l : list A) (x : A) :
  NoDup (map f l) -> ~ In (f x) (map f l) -> NoDup (map f (l ++ [x])).
Proof.
  intros Hnd Hx. rewrite map_app. cbn.
  apply (Permutation_NoDup (l := f x :: map f l)).
  - apply Permutation_cons_append.
  - now constructor.
Qed.

Lemma NoDup_map_remove_first {A B} (f : A -> B) (g : A -> bool) (l : list A) :
  NoDup (map f l) -> NoDup (map f (remove_first g l)).
Proof.
  induction l as [|x l IH]; simpl; [auto|].
  intros Hnd. apply NoDup_cons_iff in Hnd as [Hx Hnd].
  destruct (g x); [assumption|]. simpl. constructor; [|auto].
  intros H. apply Hx. apply in_map_iff in H as (y & Hy & Hin).
  apply in_map_iff. exists y. split; [assumption|].
  now apply In_remove_first in Hin.
Qed.


Lemma find_like_by_id (ls : list Like.t) (l : Like.t) :
  NoDup (map Like._id ls) -> In l ls ->
  find (fun x => (Like._id x =? Like._id l)%nat) ls = Some l.
Proof.
  induction ls as [|x ls IH]; simpl; [tauto|].
  intros Hnd Hin. apply NoDup_cons_iff in Hnd as [Hx Hnd].
  destruct (Nat.eqb_spec (Like._id x) (Like._id l)) as [E|E].
  - destruct Hin as [->|Hin]; [reflexivity|].
    destruct Hx. rewrite E. now apply in_map.
  - destruct Hin as [->|Hin]; [congruence | auto].
Qed.

Lemma likes_on_app (id : ObjectId) (ls : list Like.t) (l : Like.t) :
  likes_on id (ls ++ [l]) = likes_on id ls + (if likes_post_id id l then 1 else 0).
Proof.
  unfold likes_on. rewrite filter_app, length_app. cbn.
  destruct (likes_post_id id l); cbn; lia.
Qed.

Lemma likes_on_remove_first (id : ObjectId) (f : Like.t -> bool)
    (ls : list Like.t) (l : Like.t) :
  find f ls = Some l ->
  likes_on id (remove_first f ls)
  = likes_on id ls - (if likes_post_id id l then 1 else 0).
Proof.
  unfold likes_on.
  induction ls as [|x ls IH]; simpl; [discriminate|].
  destruct (f x) eqn:E; intros H.
  - injection H as ->. destruct (likes_post_id id l); cbn [List.length]; lia.
  - specialize (IH H). simpl.
    destruct (likes_post_id id x); cbn [List.length]; lia.
Qed.

Lemma wf_set_clock (now : Date) (w : World) :
  well_formed w -> well_formed (set_clock now w).
Proof. apply wf_same_store; cbn; auto. Qed.



Lemma wf_createNewLike (values : LikeValues.t) (w : World) :
  well_formed w -> well_formed (snd (createNewLike values w)).
Proof.
  intros Hw.
  destruct (find (same_like values) (likes w)) as [l|] eqn:Hl.
  { rewrite (createNewLike_liked _ _ _ Hl).
    revert Hw. apply wf_same_store; cbn; auto. }
  destruct (find (has_id (LikeValues.post_id values)) (posts w)) as [p|] eqn:Hp.
  2:{ rewrite (createNewLike_no_post_run _ _ Hl Hp).
      revert Hw. apply wf_same_store; cbn; auto. }
  rewrite (createNewLike_created _ _ _ Hl Hp). cbn [snd].
  pose proof Hw as [].
  assert (Hpin : In p (posts w)) by now apply find_some in Hp.
  pose proof (wf_comment_count0 p Hpin) as Hcc.
  pose proof (wf_like_count0 p Hpin) as Hlc.
  rewrite (find_has_id _ _ _ Hp) in Hcc, Hlc.
  apply (wf_update_counters w _ _ p); auto.
  - cbn. rewrite likes_on_app, Hlc. unfold likes_post_id. cbn [Like.post_id].
    now rewrite Nat.eqb_refl.
  - intros id Hid. rewrite likes_on_app. unfold likes_post_id.
    cbn [Like.post_id].
    destruct (Nat.eqb_spec (LikeValues.post_id values) id); [congruence | lia].
  - apply NoDup_map_snoc; [assumption|]. cbn. intros H.
    apply in_map_iff in H as (l & Hid & Hin).
    specialize (wf_likes_fresh0 l Hin). lia.
  - intros l Hin. apply in_app_or in Hin as [Hin|[<-|[]]].
    + specialize (wf_likes_fresh0 l Hin). lia.
    + cbn. lia.
  - apply NoDup_map_snoc; [assumption|]. intros H.
    apply in_map_iff in H as (l & Hpair & Hin).
    apply not_liked_find in Hl. now apply (Hl l Hin).
  - intros l Hin. apply in_app_or in Hin as [Hin|[<-|[]]]; [auto|].
    cbn. apply In_post_ids. now exists p.
Qed.

Lemma wf_delLike (values : LikeValues.t) (w : World) :
  well_formed w -> well_formed (snd (delLike values w)).
Proof.
  intros Hw.
  destruct (find (same_like values) (likes w)) as [l|] eqn:Hl.
  2:{ rewrite (delLike_not_found_run _ _ Hl).
      revert Hw. apply wf_same_store; cbn; auto. }
  destruct (find (has_id (LikeValues.post_id values)) (posts w)) as [p|] eqn:Hp.
  2:{ rewrite (delLike_no_post_run _ _ _ Hl Hp).
      revert Hw. apply wf_same_store; cbn; auto. }
  rewrite (delLike_deleted _ _ _ _ Hl Hp). cbn [snd].
  pose proof Hw as [].
  assert (Hpin : In p (posts w)) by now apply find_some in Hp.
  assert (Hlin : In l (likes w)) by now apply find_some in Hl.
  assert (Hlpost : Like.post_id l = LikeValues.post_id values).
  { apply find_some in Hl as [_ H]. apply same_like_pair in H.
    now injection H. }
  pose proof (find_like_by_id _ _ wf_like_ids0 Hlin) as Hbyid.
  pose proof (wf_comment_count0 p Hpin) as Hcc.
  pose proof (wf_like_count0 p Hpin) as Hlc.
  rewrite (find_has_id _ _ _ Hp) in Hcc, Hlc.
  apply (wf_update_counters w _ _ p); auto.
  - cbn. rewrite (likes_on_remove_first _ _ _ _ Hbyid), Hlc.
    unfold likes_post_id. rewrite Hlpost, Nat.eqb_refl. lia.
  - intros id Hid. rewrite (likes_on_remove_first _ _ _ _ Hbyid).
    unfold likes_post_id. rewrite Hlpost.
    destruct (Nat.eqb_spec (LikeValues.post_id values) id); [congruence | lia].
  - now apply NoDup_map_remove_first.
  - intros l' Hin. apply In_remove_first in Hin.
    now apply wf_likes_fresh0.
  - now apply NoDup_map_remove_first.
  - intros l' Hin. apply In_remove_first in Hin. now apply wf_like_post0.
Qed.

(** ** Computations that only read *)

Lemma reads_ret {A} (a : A) : reads_only (ret a).
Proof. intros w. now destruct w. Qed.

Lemma reads_throw {A} (e : Error) : reads_only (@throw A e).
Proof. intros w. now destruct w. Qed.

Lemma reads_gets {A} (f : World -> A) : reads_only (gets f).
Proof. intros w. now destruct w. Qed.

Lemma reads_lift {A} (o : Outcome A) : reads_only (lift o).
Proof. intros w. now destruct w. Qed.

Lemma reads_access (c : Collection) (v : Verb) : reads_only (access c v).
Proof. intros w. now destruct w. Qed.

Lemma reads_of_merged {A} (o : option A) : reads_only (of_merged o).
Proof. destruct o; [apply reads_ret | apply reads_throw]. Qed.

Lemma reads_bind {A B} (m : M A) (k : A -> M B) :
  reads_only m -> (forall a, reads_only (k a)) -> reads_only (bind m k).
Proof.
  intros Hm Hk w. unfold bind. specialize (Hm w).
  destruct (m w) as [[a|e] w1]; cbn [snd] in *; [|exact Hm].
  specialize (Hk a w1). rewrite <- Hm at 2. rewrite <- Hk at 2. reflexivity.
Qed.

Lemma reads_try_catch {A} (m : M A) (h : Error -> M A) :
  reads_only m -> (forall e, reads_only (h e)) -> reads_only (try_catch m h).
Proof.
  intros Hm Hh w. unfold try_catch. specialize (Hm w).
  destruct (m w) as [[a|e] w1]; cbn [snd] in *; [exact Hm|].
  specialize (Hh e w1). rewrite <- Hm at 2. rewrite <- Hh at 2. reflexivity.
Qed.


(** Breaks a computation down to the queries it is made of. *)
Ltac reads :=
  repeat first
    [ apply reads_ret | apply reads_throw | apply reads_gets | apply reads_lift
    | apply reads_access | apply reads_of_merged
    | apply reads_bind | apply reads_try_catch
    | assumption
    | match goal with
      | |- forall _, _ => intro
      | |- reads_only (match ?x with _ => _ end) => destruct x
      | |- reads_only (if ?x then _ else _) => destruct x
      end ].



Lemma reads_getLikeById (id : ObjectId) : reads_only (getLikeById id).
Proof. unfold getLikeById. reads. Qed.



















(** ** Computations that keep the store well formed *)






Lemma createNewPost_run (values : PostValues.t) (w : World) :
  required (PostValues.post_content values) = true ->
  let p := Post.mk (next_id w) (PostValues.post_owner_id values)
             (PostValues.post_content values) (clock w) false 0 0 in
  createNewPost values w
  = (Ok (PostDoc.set_post_is_archived false (PostDoc.of_post p)),
     mkWorld (users w) (posts w ++ [p]) (comments w) (likes w)
       (S (next_id w)) (clock w) (log w ++ [(Posts, Save)])).
Proof.
  intros Hreq.
  unfold createNewPost, newObjectId, Date_now, bind, access, modify, gets, ret.
  rewrite Hreq. reflexivity.
Qed.

























(** ** The routes *)



Lemma postExists_found (id : ObjectId) (req : Request.t) (w : World)
    (p : Post.t) :
  find (has_id id) (posts w) = Some p ->
  Middlewares.postExists (valid_id id) req w
  = (Ok (next (merge_post_identity (PostDoc.of_post p) (set_params_id id req))),
     set_log (log w ++ [(Posts, FindById)]) w).
Proof.
  intros H.
  unfold Middlewares.postExists, getPostById, PostsModel_findById, try_catch,
    bind, access, modify, gets, ret.
  cbn. now rewrite H.
Qed.





(** ** Likes, again: the counter and the round trip *)

Lemma wf_serve_likes (rs : list LikeRequest) (w : World) :
  well_formed w -> well_formed (serve_likes rs w).
Proof.
  revert w. induction rs as [|r rs IH]; intros w Hw; [exact Hw|].
  cbn. apply IH. destruct r as [now values|values]; cbn [serve_like].
  - apply wf_createNewLike. now apply wf_set_clock.
  - now apply wf_delLike.
Qed.

Lemma likes_on_nonneg (id : ObjectId) (ls : list Like.t) : 0 <= likes_on id ls.
Proof. unfold likes_on. lia. Qed.

Lemma wf_world_of_ann_and_bob : well_formed world_of_ann_and_bob.
Proof.
  constructor; cbn.
  - repeat constructor. cbn. tauto.
  - repeat constructor. cbn. tauto.
  - intros p [<-|[]]. cbn. lia.
  - intros l [<-|[]]. cbn. lia.
  - intros p [<-|[]]. reflexivity.
  - intros p [<-|[]]. reflexivity.
  - repeat constructor. cbn. tauto.
  - intros c [<-|[]]. cbn. auto.
  - intros l [<-|[]]. cbn. auto.
Qed.

(** X4. From a well-formed store, after any sequence of calls of
    [createNewLike] and [delLike] every post's [post_like_count] is the
    number of stored likes that reference the post, never negative, and no
    user has two likes on one post; the store stays well formed. *)
Theorem like_count_invariant (w : World) (rs : list LikeRequest) :
  well_formed w ->
  let w' := serve_likes rs w in
  (forall p, In p (posts w') ->
     Post.post_like_count p = likes_on (Post._id p) (likes w')
     /\ 0 <= Post.post_like_count p)
  /\ NoDup (map like_pair (likes w'))
  /\ well_formed w'.
Proof.
  intros Hw. cbn zeta. pose proof (wf_serve_likes rs w Hw) as Hw'.
  split; [|split; [apply Hw' | exact Hw']].
  intros p Hp. rewrite (wf_like_count _ Hw' p Hp).
  split; [reflexivity | apply likes_on_nonneg].
Qed.

Lemma update_first_twice {A} (f : A -> bool) (g1 g2 : A -> A) (l : list A) :
  (forall x, f x = true -> f (g1 x) = true) ->
  update_first f g2 (update_first f g1 l)
  = update_first f (fun x => g2 (g1 x)) l.
Proof.
  intros Hf. induction l as [|x l IH]; simpl; [reflexivity|].
  destruct (f x) eqn:E; simpl.
  - now rewrite (Hf x E).
  - rewrite E. now f_equal.
Qed.

Lemma update_first_same {A} (f : A -> bool) (g : A -> A) (l : list A) (x : A) :
  find f l = Some x -> g x = x -> update_first f g l = l.
Proof.
  induction l as [|y l IH]; simpl; [discriminate|].
  destruct (f y) eqn:E; intros H Hg.
  - injection H as ->. now rewrite Hg.
  - f_equal. now apply IH.
Qed.

Lemma remove_first_snoc {A} (f : A -> bool) (l : list A) (x : A) :
  (forall y, In y l -> f y = false) -> f x = true ->
  remove_first f (l ++ [x]) = l.
Proof.
  intros Hl Hx. induction l as [|y l IH]; simpl.
  - now rewrite Hx.
  - rewrite (Hl y (or_introl eq_refl)). f_equal. apply IH.
    intros z Hz. apply Hl. now right.
Qed.

Lemma find_snoc {A} (f : A -> bool) (l : list A) (x : A) :
  find f l = None -> f x = true -> find f (l ++ [x]) = Some x.
Proof.
  intros Hl Hx. induction l as [|y l IH]; simpl in *.
  - now rewrite Hx.
  - destruct (f y); [discriminate | auto].
Qed.


(** ** Comments and posts: round trips and refusals *)

(** X6. Creating a comment with some content and deleting the comment that
    was returned is a round trip: [delComment] resolves to that comment, and
    the comments and the posts with their counters are exactly what they
    were, whether the post exists or not. *)
Theorem comment_then_delete (w : World) (values : CommentValues.t) :
  required (CommentValues.comment_content values) = true ->
  (forall c, In c (comments w) -> (Comment._id c < next_id w)%nat) ->
  exists c,
    fst (createNewComment values w) = Ok c
    /\ Comment._id c = next_id w
    /\ let w1 := snd (createNewComment values w) in
       let w2 := snd (delComment (Comment._id c) w1) in
       fst (delComment (Comment._id c) w1) = Ok (Some c)
       /\ comments w2 = comments w
       /\ posts w2 = posts w
       /\ likes w2 = likes w
       /\ users w2 = users w.
Proof.
  intros Hreq Hfresh.
  rewrite (createNewComment_run values w Hreq). cbn zeta.
  set (c := Comment.mk (next_id w) (CommentValues.post_id values)
              (CommentValues.comment_owner_id values)
              (CommentValues.comment_content values) (clock w)).
  exists c. cbn [fst snd]. split; [reflexivity|]. split; [reflexivity|].
  assert (Hnone : find (comment_has_id (next_id w)) (comments w) = None).
  { destruct (find _ (comments w)) as [c'|] eqn:E; [|reflexivity].
    apply find_some in E as [Hin Hid]. apply Nat.eqb_eq in Hid.
    specialize (Hfresh c' Hin). lia. }
  assert (Hfind : find (comment_has_id (Comment._id c)) (comments w ++ [c])
                  = Some c).
  { apply find_snoc; [exact Hnone|]. apply Nat.eqb_refl. }
  rewrite (delComment_found (Comment._id c) (mkWorld _ _ _ _ _ _ _) c Hfind).
  cbn [fst snd posts comments likes users Comment.post_id c].
  split; [reflexivity|]. split; [|split; [|split; reflexivity]].
  - apply remove_first_snoc; [|apply Nat.eqb_refl].
    intros c' Hc'. apply Nat.eqb_neq. specialize (Hfresh c' Hc'). cbn. lia.
  - rewrite update_first_twice by (intros x Hx; exact Hx).
    destruct (find (has_id (CommentValues.post_id values)) (posts w))
      as [p|] eqn:Hp.
    + apply (update_first_same _ _ _ p Hp).
      unfold inc_post_comment_count, Post.set_post_comment_count.
      destruct p. cbn. f_equal. lia.
    + clear - Hp. induction (posts w) as [|y l IH]; [reflexivity|].
      simpl in *. destruct (has_id _ y); [discriminate|]. f_equal. auto.
Qed.

Lemma comment_then_delete_witness :
  required "thanks" = true
  /\ (forall c, In c (comments world_of_ann_and_bob) ->
                (Comment._id c < next_id world_of_ann_and_bob)%nat)
  /\ exists c,
       fst (createNewComment (CommentValues.mk 10 1 "thanks")
              world_of_ann_and_bob) = Ok c
       /\ posts (snd (delComment (Comment._id c)
                        (snd (createNewComment (CommentValues.mk 10 1 "thanks")
                                world_of_ann_and_bob))))
          = [post_of_ann].
Proof.
  assert (H : forall c, In c (comments world_of_ann_and_bob) ->
                        (Comment._id c < next_id world_of_ann_and_bob)%nat).
  { intros c [<-|[]]. cbn. lia. }
  split; [reflexivity|]. split; [exact H|].
  destruct (comment_then_delete world_of_ann_and_bob
              (CommentValues.mk 10 1 "thanks") eq_refl H)
    as (c & Hc & _ & _ & _ & Hp & _).
  exists c. split; [exact Hc | exact Hp].
Defined.

(** X7. With some content and a user in the request, [createPost] answers
    201 with a fresh id: the post is stored after the others with that id,
    the user as owner, both counters at 0 and not archived; nothing else
    changes; and when the ids of the stored posts are older than the fresh
    id, [getPostById] finds the new post. *)
Theorem createPost_stores (w : World) (req : Request.t) (user : User.t) :
  required (Request.body_post_content req) = true ->
  Request.identity req = Some user ->
  let p := Post.mk (next_id w) (User._id user) (Request.body_post_content req)
             (clock w) false 0 0 in
  let w' := snd (Controllers.createPost req w) in
  fst (Controllers.createPost req w)
  = Ok (Response.mk 201 (json (json_id (next_id w))))
  /\ posts w' = posts w ++ [p]
  /\ comments w' = comments w
  /\ likes w' = likes w
  /\ users w' = users w
  /\ next_id w' = S (next_id w)
  /\ ((forall q, In q (posts w) -> (Post._id q < next_id w)%nat) ->
      fst (getPostById (next_id w) w') = Ok (Some (PostDoc.of_post p))).
Proof.
  intros Hreq Hid. cbn zeta.
  assert (Hrun : Controllers.createPost req w
    = (Ok (Response.mk 201 (json (json_id (next_id w)))),
       mkWorld (users w)
         (posts w ++ [Post.mk (next_id w) (User._id user)
                        (Request.body_post_content req) (clock w) false 0 0])
         (comments w) (likes w) (S (next_id w)) (clock w)
         (log w ++ [(Posts, Save)]))).
  { unfold Controllers.createPost. rewrite Hreq. cbn [negb].
    unfold try_catch, bind. rewrite Hid. cbn [of_merged]. unfold ret at 1.
    rewrite createNewPost_run by exact Hreq. reflexivity. }
  rewrite Hrun. cbn [fst snd posts comments likes users next_id].
  do 6 (split; [reflexivity|]).
  intros Hfresh.
  assert (Hnone : find (has_id (next_id w)) (posts w) = None).
  { destruct (find _ (posts w)) as [q|] eqn:E; [|reflexivity].
    apply find_some in E as [Hin Hq]. apply Nat.eqb_eq in Hq.
    specialize (Hfresh q Hin). lia. }
  unfold getPostById, PostsModel_findById, bind, access, modify, gets, ret.
  cbn [fst snd posts set_log].
  rewrite (find_snoc _ _ _ Hnone); [reflexivity | apply Nat.eqb_refl].
Qed.

Lemma createPost_stores_witness :
  required (Request.body_post_content
              (Request.mk 0 NaN "news" "" (Some bob) None None None)) = true
  /\ fst (Controllers.createPost
            (Request.mk 0 NaN "news" "" (Some bob) None None None)
            world_of_ann_and_bob)
     = Ok (Response.mk 201 (json (json_id 201)))
  /\ posts (snd (Controllers.createPost
                   (Request.mk 0 NaN "news" "" (Some bob) None None None)
                   world_of_ann_and_bob))
     = [post_of_ann; Post.mk 201 2 "news" 2000 false 0 0].
Proof.
  split; [reflexivity|].
  destruct (createPost_stores world_of_ann_and_bob
              (Request.mk 0 NaN "news" "" (Some bob) None None None) bob
              eq_refl eq_refl)
    as (Hr & Hp & _).
  split; [exact Hr | exact Hp].
Defined.

(** X8. Without content, [createPost], [createComment] (on a request that
    carries its post) and [updatePost] answer 400 with their message and the
    world is what it was, the log of accesses included: the storage is not
    reached, no id is drawn. *)
Theorem empty_content_refused (w : World) (req : Request.t) (post : PostDoc.t) :
  (Request.body_post_content req = EmptyString ->
   Controllers.createPost req w
   = (Ok (Response.mk 400 (json (json_error "post_content required."))), w)
   /\ Controllers.updatePost req w
      = (Ok (Response.mk 400 (json (json_error "No post content provided"))), w))
  /\ (Request.body_comment_content req = EmptyString ->
      Request.post_identity req = Some post ->
      Controllers.createComment req w
      = (Ok (Response.mk 400 (json (json_error "Comment content is required"))),
         w)).
Proof.
  split.
  - intros H. unfold Controllers.createPost, Controllers.updatePost, try_catch.
    rewrite H. split; reflexivity.
  - intros H Hpost. unfold Controllers.createComment, try_catch, bind.
    rewrite H, Hpost. reflexivity.
Qed.

Lemma empty_content_refused_witness :
  Controllers.createPost (request_of_bob 10 NaN) world_of_ann_and_bob
  = (Ok (Response.mk 400 (json (json_error "post_content required."))),
     world_of_ann_and_bob)
  /\ Controllers.createComment (request_of_bob 10 NaN) world_of_ann_and_bob
     = (Ok (Response.mk 400 (json (json_error "Comment content is required"))),
        world_of_ann_and_bob).
Proof.
  destruct (empty_content_refused world_of_ann_and_bob (request_of_bob 10 NaN)
              (PostDoc.of_post post_of_ann)) as [H1 H2].
  split; [apply H1; reflexivity | apply H2; reflexivity].
Defined.

(** ** Archived posts *)

Lemma set_archived_twice (p : Post.t) (b : bool) :
  Post.post_is_archived p = b ->
  Post.set_post_is_archived b (Post.set_post_is_archived (negb b) p) = p.
Proof. intros <-. now destruct p. Qed.

(** X9. Archiving a stored post that is not archived and unarchiving it, each
    time with the document as a query reads it, is a round trip: both calls
    succeed and the posts, comments, likes and users are what they were. *)
Theorem archive_then_unarchive (w : World) (post : PostDoc.t) (p : Post.t) :
  find (has_id (PostDoc._id post)) (posts w) = Some p ->
  PostDoc.post_is_archived post = None ->
  Post.post_is_archived p = false ->
  let w1 := snd (archivePost post w) in
  let w2 := snd (unarchivePost post w1) in
  fst (archivePost post w) = Ok (PostDoc.set_post_is_archived true post)
  /\ fst (unarchivePost post w1) = Ok (PostDoc.set_post_is_archived false post)
  /\ posts w2 = posts w
  /\ comments w2 = comments w
  /\ likes w2 = likes w
  /\ users w2 = users w.
Proof.
  intros Hfind Hread Hflag. cbn zeta.
  assert (Hid : Post._id p = PostDoc._id post) by now apply find_has_id in Hfind.
  assert (Hrun1 : archivePost post w
    = (Ok (PostDoc.set_post_is_archived true post),
       mkWorld (users w)
         (update_first (has_id (PostDoc._id post))
            (Post.set_post_is_archived true) (posts w))
         (comments w) (likes w) (next_id w) (clock w)
         (log w ++ [(Posts, Save)]))).
  { unfold archivePost, assigns_post_is_archived, bind. rewrite Hread.
    cbn [PostDoc._id PostDoc.set_post_is_archived].
    now rewrite (PostsModel_save_archived w _ _ p Hfind). }
  rewrite Hrun1. cbn [fst snd].
  set (w1 := mkWorld _ _ _ _ _ _ _).
  assert (Hfind1 : find (has_id (PostDoc._id post)) (posts w1)
                   = Some (Post.set_post_is_archived true p)).
  { apply update_first_find; [exact Hfind|].
    unfold has_id. cbn. now apply Nat.eqb_eq. }
  assert (Hrun2 : unarchivePost post w1
    = (Ok (PostDoc.set_post_is_archived false post),
       mkWorld (users w1)
         (update_first (has_id (PostDoc._id post))
            (Post.set_post_is_archived false) (posts w1))
         (comments w1) (likes w1) (next_id w1) (clock w1)
         (log w1 ++ [(Posts, Save)]))).
  { unfold unarchivePost, assigns_post_is_archived, bind. rewrite Hread.
    cbn [PostDoc._id PostDoc.set_post_is_archived].
    now rewrite (PostsModel_save_archived w1 _ _ _ Hfind1). }
  rewrite Hrun2. cbn [fst snd posts comments likes users w1].
  split; [reflexivity|]. split; [reflexivity|].
  split; [|repeat split].
  rewrite update_first_twice by (intros x Hx; exact Hx).
  apply (update_first_same _ _ _ p Hfind).
  now apply (set_archived_twice p false).
Qed.

Lemma archive_then_unarchive_witness :
  find (has_id 10) (posts world_of_ann_and_bob) = Some post_of_ann
  /\ Post.post_is_archived post_of_ann = false
  /\ posts (snd (unarchivePost (PostDoc.of_post post_of_ann)
                   (snd (archivePost (PostDoc.of_post post_of_ann)
                           world_of_ann_and_bob))))
     = posts world_of_ann_and_bob.
Proof.
  split; [reflexivity|]. split; [reflexivity|].
  now destruct (archive_then_unarchive world_of_ann_and_bob
                  (PostDoc.of_post post_of_ann) post_of_ann
                  eq_refl eq_refl eq_refl)
    as (_ & _ & Hp & _).
Defined.

Section SeenThrough.
(** A change of stored posts that no document shows. *)
Variable h : Post.t -> Post.t.
Hypothesis h_of_post : forall q, PostDoc.of_post (h q) = PostDoc.of_post q.

Lemma h_id (q : Post.t) : Post._id (h q) = Post._id q.
Proof. exact (f_equal PostDoc._id (h_of_post q)). Qed.

Lemma h_owner (q : Post.t) : Post.post_owner_id (h q) = Post.post_owner_id q.
Proof. exact (f_equal PostDoc.post_owner_id (h_of_post q)). Qed.

Lemma h_timestamp (q : Post.t) :
  Post.post_timestamp (h q) = Post.post_timestamp q.
Proof. exact (f_equal PostDoc.post_timestamp (h_of_post q)). Qed.

Lemma insert_by_timestamp_map (p : Post.t) (l : list Post.t) :
  insert_by_timestamp (h p) (map h l) = map h (insert_by_timestamp p l).
Proof.
  induction l as [|q l IH]; simpl; [reflexivity|].
  rewrite !h_timestamp.
  destruct (Post.post_timestamp q <=? Post.post_timestamp p); simpl;
    [reflexivity | now rewrite IH].
Qed.

Lemma sort_timestamp_desc_map (l : list Post.t) :
  sort_timestamp_desc (map h l) = map h (sort_timestamp_desc l).
Proof.
  unfold sort_timestamp_desc.
  induction l as [|p l IH]; simpl; [reflexivity|].
  now rewrite IH, insert_by_timestamp_map.
Qed.

Lemma skip_limit_of_post (n m : Z) (l : list Post.t) :
  match skip_limit n m (map h l) with
  | Ok found => Ok (map PostDoc.of_post found)
  | Throw e => Throw e
  end
  = match skip_limit n m l with
    | Ok found => Ok (map PostDoc.of_post found)
    | Throw e => Throw e
    end.
Proof.
  unfold skip_limit. destruct (n <? 0); [reflexivity|].
  rewrite skipn_map, firstn_map, map_map. f_equal. apply map_ext. exact h_of_post.
Qed.

Lemma find_has_id_map (id : ObjectId) (l : list Post.t) :
  option_map PostDoc.of_post (find (has_id id) (map h l))
  = option_map PostDoc.of_post (find (has_id id) l).
Proof.
  induction l as [|q l IH]; simpl; [reflexivity|].
  unfold has_id at 1 3. rewrite h_id.
  destruct (Post._id q =? id)%nat; simpl; [now rewrite h_of_post | exact IH].
Qed.

Lemma filter_owner_map (user_id : ObjectId) (l : list Post.t) :
  filter (fun p => (Post.post_owner_id p =? user_id)%nat) (map h l)
  = map h (filter (fun p => (Post.post_owner_id p =? user_id)%nat) l).
Proof.
  induction l as [|q l IH]; simpl; [reflexivity|].
  rewrite h_owner.
  destruct (Post.post_owner_id q =? user_id)%nat; simpl; now rewrite IH.
Qed.

(** Every read of posts returns the same in two worlds of the same users
    whose posts differ by [h]. *)
Lemma reads_see_through (w w' : World) :
  posts w' = map h (posts w) -> users w' = users w ->
  (forall id, fst (getPostById id w') = fst (getPostById id w))
  /\ (forall user_id page,
        fst (getPostsByUserId user_id page w')
        = fst (getPostsByUserId user_id page w))
  /\ (forall page, fst (fetchPosts page w') = fst (fetchPosts page w)).
Proof.
  intros Hposts Husers. split; [|split].
  - intros id.
    unfold getPostById, PostsModel_findById, bind, access, modify, gets, ret.
    cbn. now rewrite Hposts, find_has_id_map.
  - intros user_id page.
    unfold getPostsByUserId, bind, access, modify, gets, ret, lift.
    cbn. rewrite Hposts, filter_owner_map.
    pose proof (skip_limit_of_post ((page - 1) * itemsToFetch) itemsToFetch
                  (filter (fun p => (Post.post_owner_id p =? user_id)%nat)
                     (posts w))) as H.
    destruct (skip_limit _ _ (map h _)) as [l1|e1],
             (skip_limit _ _ (filter _ (posts w))) as [l2|e2];
      cbn in *; congruence.
  - intros page.
    unfold fetchPosts, try_catch, bind, access, modify, gets, ret, lift.
    cbn -[sort_timestamp_desc]. rewrite Hposts, sort_timestamp_desc_map.
    unfold skip_limit. destruct ((page - 1) * itemsToFetch <? 0); [reflexivity|].
    rewrite skipn_map, firstn_map.
    destruct (firstn _ (skipn _ (sort_timestamp_desc (posts w)))) as [|q l];
      [reflexivity|].
    cbn. rewrite Husers, h_of_post, map_map.
    rewrite (map_ext (fun x => populate_post_owner_id (users w)
                                 (PostDoc.of_post (h x)))
               (fun x => populate_post_owner_id (users w) (PostDoc.of_post x)));
      [reflexivity|].
    intros a. now rewrite h_of_post.
Qed.
End SeenThrough.

Lemma format_posts_pure (l : list Populated.t) :
  exists o, forall w, Controllers.format_posts l w = (o, w).
Proof.
  induction l as [|post l [o IH]]; cbn [Controllers.format_posts].
  - now exists (Ok []).
  - unfold Controllers.format_post, bind at 1, bind at 1, of_merged.
    destruct (Populated.post_owner_id post) as [owner|].
    + unfold ret at 1, ret at 1, bind. destruct o as [items|e].
      * eexists. intros w. rewrite IH. reflexivity.
      * eexists. intros w. rewrite IH. reflexivity.
    + eexists. intros w. reflexivity.
Qed.

Lemma getFeed_unfold (req : Request.t) (w : World) :
  Controllers.getFeed req w
  = if negb (Number_isInteger (Request.params_page req))
       || Number_le_0 (Request.params_page req)
    then (Ok invalid_page, w)
    else
      match fetchPosts (Number_toZ (Request.params_page req)) w with
      | (Ok posts, w1) =>
          match Controllers.format_posts posts w1 with
          | (Ok items, w2) => (Ok (Response.mk 200 (json (json_feed items))), w2)
          | (Throw _, w2) => (Ok (Response.mk 500 (send "Server Error")), w2)
          end
      | (Throw _, w1) => (Ok (Response.mk 500 (send "Server Error")), w1)
      end.
Proof.
  unfold Controllers.getFeed, try_catch.
  destruct (negb _ || _); [reflexivity|].
  unfold bind.
  destruct (fetchPosts _ w) as [[posts|e] w1]; [|reflexivity].
  destruct (Controllers.format_posts posts w1) as [[items|e] w2]; reflexivity.
Qed.

Lemma getFeed_of_fetchPosts (req : Request.t) (w w' : World) :
  (forall page, fst (fetchPosts page w') = fst (fetchPosts page w)) ->
  fst (Controllers.getFeed req w') = fst (Controllers.getFeed req w).
Proof.
  intros H. rewrite !getFeed_unfold.
  destruct (negb _ || _); [reflexivity|].
  specialize (H (Number_toZ (Request.params_page req))).
  destruct (fetchPosts _ w') as [o1 w1'], (fetchPosts _ w) as [o2 w1].
  cbn [fst] in H. subst o2. destruct o1 as [posts|e]; [|reflexivity].
  destruct (format_posts_pure posts) as [o Ho].
  rewrite !Ho. destruct o; reflexivity.
Qed.

(** X10. Archiving hides nothing: after [archivePost] or [unarchivePost] on a
    stored post, with ids of posts unique, [getPostById], every page of
    [getPostsByUserId] and of [fetchPosts], and the answer of [getFeed] are
    what they were before. *)
Theorem archived_posts_stay_visible (w : World) (post : PostDoc.t) (p : Post.t)
    (b : bool) :
  NoDup (map Post._id (posts w)) ->
  find (has_id (PostDoc._id post)) (posts w) = Some p ->
  PostDoc.post_is_archived post = None ->
  let w' := snd ((if b then archivePost else unarchivePost) post w) in
  (forall id, fst (getPostById id w') = fst (getPostById id w))
  /\ (forall user_id page,
        fst (getPostsByUserId user_id page w')
        = fst (getPostsByUserId user_id page w))
  /\ (forall page, fst (fetchPosts page w') = fst (fetchPosts page w))
  /\ (forall req, fst (Controllers.getFeed req w')
                  = fst (Controllers.getFeed req w)).
Proof.
  intros Hnd Hfind Hread. cbn zeta.
  set (h := fun q => if has_id (PostDoc._id post) q
                     then Post.set_post_is_archived b q else q).
  assert (Hh : forall q, PostDoc.of_post (h q) = PostDoc.of_post q).
  { intros q. unfold h. now destruct (has_id _ q). }
  assert (Hw' : posts (snd ((if b then archivePost else unarchivePost) post w))
                = map h (posts w)
                /\ users (snd ((if b then archivePost else unarchivePost) post w))
                   = users w).
  { destruct b;
      unfold archivePost, unarchivePost, assigns_post_is_archived, bind;
      rewrite Hread; cbn [PostDoc._id PostDoc.set_post_is_archived];
      rewrite (PostsModel_save_archived w _ _ p Hfind); cbn [snd ret posts users];
      (split; [now apply update_first_unique | reflexivity]). }
  destruct Hw' as [Hposts Husers].
  destruct (reads_see_through h Hh w _ Hposts Husers) as (H1 & H2 & H3).
  split; [exact H1|]. split; [exact H2|]. split; [exact H3|].
  intros req. now apply getFeed_of_fetchPosts.
Qed.

Lemma archived_posts_stay_visible_witness :
  NoDup (map Post._id (posts world_of_seven_posts))
  /\ fst (Controllers.getFeed (request_of_bob 10 (Finite 1))
            (snd (archivePost
                    (PostDoc.of_post (Post.mk 11 2 "b" 7000 false 0 0))
                    world_of_seven_posts)))
     = fst (Controllers.getFeed (request_of_bob 10 (Finite 1))
              world_of_seven_posts).
Proof.
  assert (Hnd : NoDup (map Post._id (posts world_of_seven_posts))).
  { cbn. repeat constructor; cbn; intuition discriminate. }
  split; [exact Hnd|].
  destruct (archived_posts_stay_visible world_of_seven_posts
              (PostDoc.of_post (Post.mk 11 2 "b" 7000 false 0 0))
              (Post.mk 11 2 "b" 7000 false 0 0) true Hnd eq_refl eq_refl)
    as (_ & _ & _ & H).
  apply H.
Defined.

(** ** Profiles *)













(** X12. When no user has the id, [deleteProfile] throws on reading the
    archive flag of [null], outside its own [try]: nothing stored changes and
    the handler answers 500. *)
Theorem deleteProfile_no_user (w : World) (id : ObjectId) (req : Request.t) :
  (forall u, In u (users w) -> User._id u <> id) ->
  option_map User._id (Request.identity req) = Some id ->
  fst (deleteProfile id w) = Throw TypeError
  /\ same_documents w (snd (deleteProfile id w))
  /\ log (snd (deleteProfile id w)) = log w ++ [(Users, FindById)]
  /\ fst (ProfileControllers.deleteProfile req w)
     = Ok (Response.mk 500 status_text)
  /\ same_documents w (snd (ProfileControllers.deleteProfile req w)).
Proof.
  intros Hnone Hid.
  assert (Hfind : find (user_has_id id) (users w) = None).
  { destruct (find _ (users w)) as [u|] eqn:E; [|reflexivity].
    apply find_some in E as [Hin Hu]. apply Nat.eqb_eq in Hu.
    now destruct (Hnone u Hin). }
  assert (Hrun : deleteProfile id w
    = (Throw TypeError, set_log (log w ++ [(Users, FindById)]) w)).
  { unfold deleteProfile, UserModel_findById, bind, access, modify, gets, ret,
      throw.
    cbn [users set_log fst snd]. fold (user_has_id id). now rewrite Hfind. }
  rewrite Hrun. cbn [fst snd log set_log].
  split; [reflexivity|]. split; [repeat split|]. split; [reflexivity|].
  assert (Hh : ProfileControllers.deleteProfile req w
    = (Ok (Response.mk 500 status_text),
       set_log (log w ++ [(Users, FindById)]) w)).
  { unfold ProfileControllers.deleteProfile, try_catch, bind, of_merged.
    destruct (Request.identity req) as [u|]; [|discriminate].
    injection Hid as Hid. unfold ret at 1. now rewrite Hid, Hrun. }
  rewrite Hh. split; [reflexivity | repeat split].
Qed.

Lemma deleteProfile_no_user_witness :
  (forall u, In u (users (set_users [bob] world_of_ann_and_bob)) ->
             User._id u <> 1%nat)
  /\ fst (deleteProfile 1 (set_users [bob] world_of_ann_and_bob))
     = Throw TypeError
  /\ fst (ProfileControllers.deleteProfile (request_of_ann 10 NaN)
            (set_users [bob] world_of_ann_and_bob))
     = Ok (Response.mk 500 status_text).
Proof.
  assert (H : forall u, In u (users (set_users [bob] world_of_ann_and_bob)) ->
                        User._id u <> 1%nat).
  { intros u [<-|[]]. discriminate. }
  split; [exact H|].
  destruct (deleteProfile_no_user (set_users [bob] world_of_ann_and_bob) 1
              (request_of_ann 10 NaN) H eq_refl)
    as (Hr & _ & _ & Hh & _).
  split; [exact Hr | exact Hh].
Defined.

Lemma set_profile_is_archived_same (u : User.t) (b : bool) :
  User.profile_is_archived u = b -> User.set_profile_is_archived b u = u.
Proof. intros <-. now destruct u. Qed.

Lemma archiveProfile_run (w : World) (id : ObjectId) (u : User.t) (b : bool) :
  find (user_has_id id) (users w) = Some u ->
  exists lg,
    (if b then archiveProfile else unarchiveProfile) id w
    = (Ok (User.set_profile_is_archived b u),
       mkWorld
         (update_first (user_has_id id) (User.set_profile_is_archived b)
            (users w))
         (posts w) (comments w) (likes w) (next_id w) (clock w) lg).
Proof.
  intros Hfind.
  assert (Hid : User._id u = id).
  { apply find_some in Hfind as [_ H]. now apply Nat.eqb_eq in H. }
  assert (Hex : existsb (user_has_id id) (users w) = true)
    by now apply (find_existsb _ _ u).
  destruct (Bool.eqb (User.profile_is_archived u) b) eqn:Hflag.
  - apply Bool.eqb_prop in Hflag.
    rewrite (update_first_same _ _ _ u Hfind)
      by now apply set_profile_is_archived_same.
    eexists.
    destruct b; unfold archiveProfile, unarchiveProfile, getUserById,
      UserModel_findById, UserModel_save, bind, access, modify, gets, ret;
      cbn [users set_log fst snd]; fold (user_has_id id); rewrite Hfind;
      cbn [User._id User.set_profile_is_archived]; rewrite Hid;
      fold (user_has_id id); rewrite Hflag; cbn [Bool.eqb negb];
      cbn [users set_log fst snd]; rewrite Hex; reflexivity.
  - eexists.
    destruct b; destruct (User.profile_is_archived u) eqn:Hf; try discriminate;
      unfold archiveProfile, unarchiveProfile, getUserById,
      UserModel_findById, UserModel_save, bind, access, modify, gets, ret;
      cbn [users set_log fst snd]; fold (user_has_id id); rewrite Hfind;
      cbn [User._id User.set_profile_is_archived]; rewrite Hid;
      fold (user_has_id id); rewrite Hf; cbn [Bool.eqb negb];
      cbn [users set_log fst snd]; rewrite Hex; reflexivity.
Qed.

Lemma archiveProfile_found (w : World) (id : ObjectId) (u : User.t) (b : bool) :
  find (user_has_id id) (users w) = Some u ->
  find (user_has_id id)
    (users (snd ((if b then archiveProfile else unarchiveProfile) id w)))
  = Some (User.set_profile_is_archived b u).
Proof.
  intros Hfind. destruct (archiveProfile_run w id u b Hfind) as [lg ->].
  cbn [snd users]. apply update_first_find; [exact Hfind|].
  apply find_some in Hfind as [_ H]. exact H.
Qed.




(** X14. For a stored user, [archiveProfile] sets [profile_is_archived] to
    true and [unarchiveProfile] sets it to false, on that user only: the
    other fields of the user, the other users, and every post, comment and
    like are what they were, and the handlers answer 200. *)
Theorem archiveProfile_only_flag (w : World) (id : ObjectId) (u : User.t)
    (b : bool) (req : Request.t) :
  find (user_has_id id) (users w) = Some u ->
  option_map User._id (Request.identity req) = Some id ->
  let run := if b then archiveProfile else unarchiveProfile in
  let handler :=
    if b then ProfileControllers.archiveProfile
    else ProfileControllers.unarchiveProfile in
  let w' := snd (run id w) in
  fst (run id w) = Ok (User.set_profile_is_archived b u)
  /\ find (user_has_id id) (users w') = Some (User.set_profile_is_archived b u)
  /\ map User._id (users w') = map User._id (users w)
  /\ (forall v, User._id v <> id -> In v (users w') <-> In v (users w))
  /\ posts w' = posts w
  /\ comments w' = comments w
  /\ likes w' = likes w
  /\ handler req w = (Ok (Response.mk 200 status_text), w').
Proof.
  intros Hfind Hid. cbn zeta.
  pose proof (archiveProfile_found w id u b Hfind) as Hfound.
  destruct (archiveProfile_run w id u b Hfind) as [lg Hrun].
  assert (Hh : (if b then ProfileControllers.archiveProfile
                else ProfileControllers.unarchiveProfile) req w
               = (Ok (Response.mk 200 status_text),
                  snd ((if b then archiveProfile else unarchiveProfile) id w))).
  { destruct (Request.identity req) as [v|] eqn:Ev; [|discriminate].
    injection Hid as Hid.
    destruct b; unfold ProfileControllers.archiveProfile,
      ProfileControllers.unarchiveProfile, try_catch, bind, of_merged;
      rewrite Ev; unfold ret at 1; rewrite Hid, Hrun; reflexivity. }
  rewrite Hh. rewrite Hrun in *. cbn [fst snd users posts comments likes] in *.
  split; [reflexivity|]. split; [exact Hfound|].
  split; [now apply update_first_map|].
  split; [|repeat split].
  intros v Hv. apply update_first_In_other.
  - intros y Hy. exact Hy.
  - unfold user_has_id. now apply Nat.eqb_neq.
Qed.

Lemma archiveProfile_only_flag_witness :
  find (user_has_id 2) (users world_of_ann_and_bob) = Some bob
  /\ users (snd (archiveProfile 2 world_of_ann_and_bob))
     = [ann; User.set_profile_is_archived true bob]
  /\ ProfileControllers.archiveProfile (request_of_bob 10 NaN)
       world_of_ann_and_bob
     = (Ok (Response.mk 200 status_text),
        snd (archiveProfile 2 world_of_ann_and_bob)).
Proof.
  split; [reflexivity|]. split; [reflexivity|].
  now destruct (archiveProfile_only_flag world_of_ann_and_bob 2 bob true
                  (request_of_bob 10 NaN) eq_refl eq_refl)
    as (_ & _ & _ & _ & _ & _ & _ & H).
Defined.

(** ** Reading page after page *)

Lemma firstn_plus {A} (n m : nat) (l : list A) :
  firstn (n + m) l = firstn n l ++ firstn m (skipn n l).
Proof.
  revert l. induction n as [|n IH]; intros l; [reflexivity|].
  destruct l as [|x l]; cbn; [now rewrite firstn_nil | now rewrite IH].
Qed.

Lemma pages_upto_firstn {A B} (fetch : Z -> Outcome (list B)) (view : A -> B)
    (matching : list A) (k : nat) :
  (forall p, 1 <= p <= max_exact_page ->
     fetch p = Ok (map view (page_items matching p))) ->
  Z.of_nat k <= max_exact_page ->
  pages_upto fetch k = map view (firstn (5 * k) matching).
Proof.
  intros Hfetch. unfold pages_upto.
  induction k as [|k IH]; intros Hk; [reflexivity|].
  rewrite seq_S, flat_map_app, IH by lia. cbn [flat_map].
  rewrite Hfetch by lia. rewrite app_nil_r, <- map_app. f_equal.
  unfold page_items.
  replace (Z.to_nat (Z.of_nat (1 + k)) - 1)%nat with k by lia.
  replace (5 * S k)%nat with (5 * k + 5)%nat by lia.
  now rewrite firstn_plus.
Qed.

(** X15. Pages follow one another without gap or repetition: for each of the
    four paginated reads, pages 1 to [k] put end to end are the first [5 k]
    matching items in their order, and so all of them once [5 k] reaches
    their number. *)
Theorem pages_end_to_end (w : World) (k : nat) :
  Z.of_nat k <= max_exact_page ->
  (forall postId,
     let matching := filter (of_post_id postId) (comments w) in
     pages_upto (fun p => fst (getCommentsForPost postId p w)) k
     = firstn (5 * k) matching
     /\ ((List.length matching <= 5 * k)%nat ->
         pages_upto (fun p => fst (getCommentsForPost postId p w)) k = matching))
  /\ (forall postId,
        pages_upto (fun p => fst (getPostLikes postId p w)) k
        = firstn (5 * k) (filter (likes_post_id postId) (likes w)))
  /\ (forall user_id,
        pages_upto (fun p => fst (getPostsByUserId user_id p w)) k
        = map PostDoc.of_post
            (firstn (5 * k)
               (filter (fun p => (Post.post_owner_id p =? user_id)%nat)
                  (posts w))))
  /\ pages_upto (fun p => fst (fetchPosts p w)) k
     = map (fun p => populate_post_owner_id (users w) (PostDoc.of_post p))
         (firstn (5 * k) (sort_timestamp_desc (posts w))).
Proof.
  intros Hk.
  assert (Hc : forall postId,
            pages_upto (fun p => fst (getCommentsForPost postId p w)) k
            = firstn (5 * k) (filter (of_post_id postId) (comments w))).
  { intros postId.
    rewrite (pages_upto_firstn _ (fun c => c)
               (filter (of_post_id postId) (comments w))); [apply map_id| |exact Hk].
    intros p [Hp _].
    unfold getCommentsForPost, bind, access, modify, gets, lift. cbn.
    rewrite skip_limit_page by assumption. now rewrite map_id. }
  split; [|split; [|split]].
  - intros postId. cbn zeta. split; [apply Hc|].
    intros Hlen. rewrite Hc. now apply firstn_all2.
  - intros postId.
    rewrite (pages_upto_firstn _ (fun l => l)
               (filter (likes_post_id postId) (likes w))); [apply map_id| |exact Hk].
    intros p [Hp _].
    unfold getPostLikes, bind, access, modify, gets, lift. cbn.
    rewrite skip_limit_page by assumption. now rewrite map_id.
  - intros user_id. apply pages_upto_firstn; [|exact Hk].
    intros p [Hp _].
    unfold getPostsByUserId, bind, access, modify, gets, lift. cbn.
    now rewrite skip_limit_page by assumption.
  - apply pages_upto_firstn; [|exact Hk].
    intros p [Hp _].
    unfold fetchPosts, try_catch, bind, access, modify, gets, lift.
    cbn -[page_items sort_timestamp_desc].
    rewrite skip_limit_page by assumption.
    destruct (page_items (sort_timestamp_desc (posts w)) p); reflexivity.
Qed.

Lemma pages_end_to_end_witness :
  Z.of_nat 3 <= max_exact_page
  /\ pages_upto (fun p => fst (getCommentsForPost 10 p world_of_twelve_comments))
       3
     = twelve_comments.
Proof.
  assert (H : Z.of_nat 3 <= max_exact_page) by (unfold max_exact_page; lia).
  split; [exact H|].
  destruct (pages_end_to_end world_of_twelve_comments 3 H) as (Hc & _).
  destruct (Hc 10%nat) as [_ Hall]. apply Hall. cbn. lia.
Defined.

(** ** When an owner is missing *)

Lemma format_posts_throws (l : list Populated.t) (w : World) :
  (exists post, In post l /\ Populated.post_owner_id post = None) ->
  Controllers.format_posts l w = (Throw TypeError, w).
Proof.
  intros (post & Hin & Hnone).
  induction l as [|x l IH]; [destruct Hin|].
  cbn [Controllers.format_posts].
  unfold Controllers.format_post, bind at 1, bind at 1, of_merged.
  destruct (Populated.post_owner_id x) as [owner|] eqn:Ex.
  - unfold ret at 1, ret at 1, bind.
    destruct Hin as [->|Hin]; [congruence|].
    now rewrite (IH Hin).
  - reflexivity.
Qed.

(** X16. When a post of the page asked for is owned by a user that is not
    stored, [getFeed] answers 500 with the text of a server error, for the
    whole page, and changes nothing stored. *)
Theorem getFeed_missing_owner (w : World) (req : Request.t) (q : Q) (p : Z)
    (post : Post.t) :
  1 <= p <= max_exact_page ->
  Request.params_page req = Finite q ->
  Qeq q (inject_Z p) ->
  In post (page_items (sort_timestamp_desc (posts w)) p) ->
  (forall u, In u (users w) -> User._id u <> Post.post_owner_id post) ->
  fst (Controllers.getFeed req w) = Ok (Response.mk 500 (send "Server Error"))
  /\ same_documents w (snd (Controllers.getFeed req w)).
Proof.
  intros [Hp Hmax] Hpage Hq Hin Hnone.
  destruct (whole_page q p Hp Hq) as [Hcheck HtoZ].
  destruct (fetchPosts_run w p Hp) as (w' & Hfetch & Hsame).
  rewrite getFeed_unfold, Hpage, Hcheck, HtoZ, Hfetch.
  rewrite format_posts_throws; [split; [reflexivity | exact Hsame]|].
  exists (populate_post_owner_id (users w) (PostDoc.of_post post)).
  split.
  { apply (in_map (fun x => populate_post_owner_id (users w) (PostDoc.of_post x))).
    exact Hin. }
  unfold populate_post_owner_id. cbn.
  destruct (find _ (users w)) as [u|] eqn:E; [|reflexivity].
  apply find_some in E as [Hu Hid]. apply Nat.eqb_eq in Hid.
  now destruct (Hnone u Hu).
Qed.

Lemma getFeed_missing_owner_witness :
  (forall u, In u (users (set_users [bob] world_of_seven_posts)) ->
             User._id u <> 1%nat)
  /\ fst (Controllers.getFeed (request_of_bob 10 (Finite 1))
            (set_users [bob] world_of_seven_posts))
     = Ok (Response.mk 500 (send "Server Error")).
Proof.
  assert (H : forall u, In u (users (set_users [bob] world_of_seven_posts)) ->
                        User._id u <> 1%nat).
  { intros u [<-|[]]. discriminate. }
  split; [exact H|].
  apply (getFeed_missing_owner (set_users [bob] world_of_seven_posts)
           (request_of_bob 10 (Finite 1)) 1 1
           (Post.mk 15 1 "f" 5000 false 0 0)).
  - unfold max_exact_page. lia.
  - reflexivity.
  - reflexivity.
  - vm_compute. tauto.
  - exact H.
Defined.

(** ** The comments of a post, with their authors *)

Lemma user_data_run (owners : list ObjectId) (w : World) :
  (forall id, In id owners -> exists u, In u (users w) /\ User._id u = id) ->
  exists data w',
    user_data owners w = (Ok data, w')
    /\ same_documents w w'
    /\ Forall2
         (fun id r => exists u, find (user_has_id id) (users w) = Some u
                                /\ r = Reaction.of_user u)
         owners data.
Proof.
  revert w. induction owners as [|id owners IH]; intros w Hown.
  - exists [], w. repeat split. constructor.
  - destruct (Hown id (or_introl eq_refl)) as (u0 & Hin & Hid).
    destruct (find_In_some (user_has_id id) (users w) u0 Hin) as [u Hfind].
    { now apply Nat.eqb_eq. }
    set (w1 := set_log (log w ++ [(Users, FindById)]) w).
    destruct (IH w1) as (data & w' & Hrun & (Hu & Hp & Hc & Hl) & Hall).
    { intros i Hi. apply Hown. now right. }
    exists (Reaction.of_user u :: data), w'. split; [|split].
    + cbn [user_data].
      unfold UserModel_findById, bind at 1, bind at 1, bind at 1, access, modify,
        gets, ret at 1.
      cbn [fst snd users set_log]. fold (user_has_id id). rewrite Hfind.
      unfold bind. fold w1. now rewrite Hrun.
    + repeat split; assumption.
    + constructor; [exists u; auto | exact Hall].
Qed.

(** X17. For a page [p] from 1 on, and when the author of every comment of
    the post is a stored user, [getCommsForPost] answers 200 with one entry
    for each comment of page [p] of the post, in their order: the entry
    carries the username, names and picture of the author and the content and
    time of the comment.  Nothing stored changes. *)
Theorem getCommsForPost_with_authors (w : World) (req : Request.t) (q : Q)
    (p : Z) :
  1 <= p <= max_exact_page ->
  Request.params_page req = Finite q ->
  Qeq q (inject_Z p) ->
  (forall c, In c (comments w) -> Comment.post_id c = Request.params_id req ->
     exists u, In u (users w) /\ User._id u = Comment.comment_owner_id c) ->
  exists data,
    fst (Controllers.getCommsForPost req w)
    = Ok (Response.mk 200 (json (json_reactions data)))
    /\ Forall2 (carries_author (users w))
         (page_items (filter (of_post_id (Request.params_id req)) (comments w)) p)
         data
    /\ same_documents w (snd (Controllers.getCommsForPost req w)).
Proof.
  intros [Hp Hmax] Hpage Hq Hauthors.
  destruct (whole_page q p Hp Hq) as [Hcheck HtoZ].
  set (found := page_items
                  (filter (of_post_id (Request.params_id req)) (comments w)) p).
  set (w1 := set_log (log w ++ [(Comments, Find)]) w).
  assert (Hget : getCommentsForPost (Request.params_id req) p w = (Ok found, w1)).
  { unfold getCommentsForPost, bind, access, modify, gets, lift. cbn.
    now rewrite skip_limit_page by assumption. }
  destruct (user_data_run (map Comment.comment_owner_id found) w1)
    as (data & w' & Hrun & (Hu & Hps & Hc & Hl) & Hall).
  { intros id Hid. apply in_map_iff in Hid as (c & <- & Hc).
    apply page_items_In in Hc. apply filter_In in Hc as [Hc Hpost].
    apply (Hauthors c Hc). now apply Nat.eqb_eq in Hpost. }
  exists (map (fun cr => Reaction.with_comment (fst cr) (snd cr))
            (combine found data)).
  assert (Hh : Controllers.getCommsForPost req w
    = (Ok (Response.mk 200
             (json (json_reactions
                      (map (fun cr => Reaction.with_comment (fst cr) (snd cr))
                         (combine found data))))), w')).
  { unfold Controllers.getCommsForPost, try_catch. rewrite Hpage, Hcheck, HtoZ.
    unfold bind at 1. rewrite Hget.
    unfold getReactionAndUserData, bind. now rewrite Hrun. }
  rewrite Hh. cbn [fst snd]. split; [reflexivity|]. split.
  - clear - Hall. cbn [users set_log w1] in Hall.
    revert data Hall. induction found as [|c found IH]; intros data Hall;
      inversion Hall as [|id r ids rs (u & Hfind & ->) Hrest]; subst;
      cbn; constructor.
    + exists u. cbn. repeat split. exact Hfind.
    + now apply IH.
  - cbn in Hu, Hps, Hc, Hl. repeat split; assumption.
Qed.

Lemma getCommsForPost_with_authors_witness :
  fst (Controllers.getCommsForPost (request_of_ann 10 (Finite 1))
         world_of_ann_and_bob)
  = Ok (Response.mk 200
          (json (json_reactions
                   [Reaction.mk "bob" (Some ["M"%byte; "a"%byte; "n"%byte])
                      "Bob" "Ray" (Some "nice"%string) (Some 1001)])))
  /\ exists data,
       fst (Controllers.getCommsForPost (request_of_ann 10 (Finite 1))
              world_of_ann_and_bob)
       = Ok (Response.mk 200 (json (json_reactions data)))
       /\ Forall2 (carries_author (users world_of_ann_and_bob))
            [comment_of_bob] data.
Proof.
  split; [reflexivity|].
  destruct (getCommsForPost_with_authors world_of_ann_and_bob
              (request_of_ann 10 (Finite 1)) 1 1)
    as (data & Hr & Hall & _).
  - unfold max_exact_page. lia.
  - reflexivity.
  - reflexivity.
  - intros c [<-|[]] _. exists bob. cbn. auto.
  - exists data. split; [exact Hr | exact Hall].
Defined.

(** ** Who may do what, route by route *)



Lemma route_postExists_found (chain : list (Request.t -> M Step))
    (handler : Request.t -> M Response.t) (req : Request.t) (w : World)
    (id : ObjectId) (p : Post.t) :
  find (has_id id) (posts w) = Some p ->
  route (Middlewares.postExists (valid_id id) :: chain) handler req w
  = route chain handler
      (merge_post_identity (PostDoc.of_post p) (set_params_id id req))
      (set_log (log w ++ [(Posts, FindById)]) w).
Proof.
  intros H. cbn [route]. unfold bind.
  now rewrite (postExists_found id req w p H).
Qed.




Lemma isPostOwner_other (req : Request.t) (post : PostDoc.t) (user : User.t)
    (w : World) :
  Request.post_identity req = Some post ->
  Request.identity req = Some user ->
  PostDoc.post_owner_id post <> User._id user ->
  Middlewares.isPostOwner req w
  = (Ok (respond
           (Response.mk 403 (json (json_error "User does not have access")))),
     w).
Proof.
  intros Hpost Huser Hne.
  unfold Middlewares.isPostOwner, try_catch, bind, of_merged.
  rewrite Hpost, Huser. unfold ret at 1 2.
  apply Nat.eqb_neq in Hne. now rewrite Hne.
Qed.

(** X19. On the routes that archive, unarchive, delete or update a post, a
    user who does not own the post is answered 403 after the lookup of the
    post: the handler does not run and nothing stored changes. *)
Theorem routes_refuse_non_owner (w : World) (req : Request.t) (id : ObjectId)
    (p : Post.t) (user : User.t) :
  find (has_id id) (posts w) = Some p ->
  Request.identity req = Some user ->
  Post.post_owner_id p <> User._id user ->
  Forall
    (fun r => r req w
              = (Ok (Response.mk 403
                       (json (json_error "User does not have access"))),
                 set_log (log w ++ [(Posts, FindById)]) w))
    (routes_of_the_owner (valid_id id)).
Proof.
  intros Hp Huser Hne.
  assert (H : forall handler,
            route [Middlewares.postExists (valid_id id); Middlewares.isPostOwner]
              handler req w
            = (Ok (Response.mk 403
                     (json (json_error "User does not have access"))),
               set_log (log w ++ [(Posts, FindById)]) w)).
  { intros handler. rewrite (route_postExists_found _ _ _ _ _ p Hp).
    cbn [route]. unfold bind.
    now rewrite (isPostOwner_other _ (PostDoc.of_post p) user). }
  repeat constructor; apply H.
Qed.

Lemma routes_refuse_non_owner_witness :
  find (has_id 10) (posts world_of_ann_and_bob) = Some post_of_ann
  /\ Post.post_owner_id post_of_ann <> User._id bob
  /\ Router.delete_post (valid_id 10) (request_of_bob 0 NaN) world_of_ann_and_bob
     = (Ok (Response.mk 403 (json (json_error "User does not have access"))),
        set_log [(Posts, FindById)] world_of_ann_and_bob).
Proof.
  assert (Hne : Post.post_owner_id post_of_ann <> User._id bob) by discriminate.
  split; [reflexivity|]. split; [exact Hne|].
  pose proof (routes_refuse_non_owner world_of_ann_and_bob
                (request_of_bob 0 NaN) 10 post_of_ann bob eq_refl eq_refl Hne)
    as Hroutes.
  apply Forall_forall with (x := Router.delete_post (valid_id 10)) in Hroutes;
    [exact Hroutes|].
  cbn. tauto.
Defined.

Lemma commentExists_none (cid : ObjectId) (req : Request.t) (w : World) :
  find (comment_has_id cid) (comments w) = None ->
  Middlewares.commentExists (valid_id cid) req w
  = (Ok (respond
           (Response.mk 404 (json (json_error "Comment does not exist")))),
     set_log (log w ++ [(Comments, FindById)]) w).
Proof.
  intros H.
  unfold Middlewares.commentExists, getCommentById, try_catch, bind, access,
    modify, gets, ret.
  cbn. now rewrite H.
Qed.

Lemma commentExists_found (cid : ObjectId) (req : Request.t) (w : World)
    (c : Comment.t) :
  find (comment_has_id cid) (comments w) = Some c ->
  Middlewares.commentExists (valid_id cid) req w
  = (Ok (next (merge_comment_identity c req)),
     set_log (log w ++ [(Comments, FindById)]) w).
Proof.
  intros H.
  unfold Middlewares.commentExists, getCommentById, try_catch, bind, access,
    modify, gets, ret.
  cbn. now rewrite H.
Qed.

Lemma isCommentOwner_run (req : Request.t) (c : Comment.t) (user : User.t)
    (w : World) :
  Request.comment_identity req = Some c ->
  Request.identity req = Some user ->
  Middlewares.isCommentOwner req w
  = (Ok (if (Comment.comment_owner_id c =? User._id user)%nat
         then next req
         else respond
                (Response.mk 403
                   (json (json_error "User does not have access")))),
     w).
Proof.
  intros Hc Huser.
  unfold Middlewares.isCommentOwner, try_catch, bind, of_merged.
  rewrite Hc, Huser. unfold ret at 1 2.
  now destruct (Comment.comment_owner_id c =? User._id user)%nat.
Qed.

Lemma deleteComment_run (req : Request.t) (c : Comment.t) (w : World) :
  Request.comment_identity req = Some c ->
  find (comment_has_id (Comment._id c)) (comments w) = Some c ->
  Controllers.deleteComment req w
  = (Ok (Response.mk 200 status_text),
     mkWorld (users w)
       (update_first (has_id (Comment.post_id c))
          (inc_post_comment_count (-1)) (posts w))
       (remove_first (comment_has_id (Comment._id c)) (comments w))
       (likes w) (next_id w) (clock w)
       (log w ++ [(Comments, FindOneAndDelete); (Posts, FindByIdAndUpdate)])).
Proof.
  intros Hc Hfind.
  unfold Controllers.deleteComment, try_catch, bind, of_merged.
  rewrite Hc. unfold ret at 1.
  now rewrite (delComment_found _ _ _ Hfind).
Qed.

(** X20. On the route that deletes a comment, with the post of [:id]
    stored: a comment id that no comment has is answered 404; a user who did
    not write the comment is answered 403, and in both cases nothing stored
    changes; the author is answered 200, the comment is removed and the other
    comments stay in their order. *)
Theorem delete_comment_route (w : World) (req : Request.t) (id cid : ObjectId)
    (p : Post.t) (user : User.t) :
  find (has_id id) (posts w) = Some p ->
  Request.identity req = Some user ->
  let r := Router.delete_comment (valid_id id) (valid_id cid) req w in
  match find (comment_has_id cid) (comments w) with
  | None =>
      fst r = Ok (Response.mk 404 (json (json_error "Comment does not exist")))
      /\ same_documents w (snd r)
  | Some c =>
      if (Comment.comment_owner_id c =? User._id user)%nat
      then fst r = Ok (Response.mk 200 status_text)
           /\ comments (snd r) = remove_first (comment_has_id cid) (comments w)
           /\ likes (snd r) = likes w
           /\ users (snd r) = users w
      else fst r
           = Ok (Response.mk 403 (json (json_error "User does not have access")))
           /\ same_documents w (snd r)
  end.
Proof.
  intros Hp Huser. cbn zeta. unfold Router.delete_comment.
  rewrite (route_postExists_found _ _ _ _ _ p Hp).
  set (w1 := set_log (log w ++ [(Posts, FindById)]) w).
  set (req1 := merge_post_identity (PostDoc.of_post p) (set_params_id id req)).
  destruct (find (comment_has_id cid) (comments w)) as [c|] eqn:Hc.
  2:{ assert (Hrun : route [Middlewares.commentExists (valid_id cid);
                            Middlewares.isCommentOwner]
                       Controllers.deleteComment req1 w1
                     = (Ok (Response.mk 404
                              (json (json_error "Comment does not exist"))),
                        set_log (log w1 ++ [(Comments, FindById)]) w1)).
      { cbn [route]. unfold bind.
        now rewrite (commentExists_none cid req1 w1 Hc). }
      rewrite Hrun. cbn. repeat split. }
  set (w2 := set_log (log w1 ++ [(Comments, FindById)]) w1).
  assert (Hstep : route [Middlewares.commentExists (valid_id cid);
                         Middlewares.isCommentOwner]
                    Controllers.deleteComment req1 w1
                  = if (Comment.comment_owner_id c =? User._id user)%nat
                    then Controllers.deleteComment
                           (merge_comment_identity c req1) w2
                    else (Ok (Response.mk 403
                                (json (json_error "User does not have access"))),
                          w2)).
  { cbn [route]. unfold bind at 1.
    rewrite (commentExists_found cid req1 w1 c Hc). fold w2.
    unfold bind.
    rewrite (isCommentOwner_run (merge_comment_identity c req1) c user w2
               eq_refl Huser).
    now destruct (Comment.comment_owner_id c =? User._id user)%nat. }
  rewrite Hstep.
  destruct (Comment.comment_owner_id c =? User._id user)%nat.
  2:{ cbn. repeat split. }
  apply find_some in Hc as Hc'. destruct Hc' as [_ Hid].
  apply Nat.eqb_eq in Hid.
  assert (Hc2 : find (comment_has_id (Comment._id c)) (comments w2) = Some c).
  { cbn. now rewrite Hid. }
  rewrite (deleteComment_run (merge_comment_identity c req1) c w2 eq_refl Hc2).
  cbn. rewrite Hid.
  repeat split.
Qed.

Lemma delete_comment_route_witness :
  find (has_id 10) (posts world_of_ann_and_bob) = Some post_of_ann
  /\ fst (Router.delete_comment (valid_id 10) (valid_id 100)
            (request_of_ann 0 NaN) world_of_ann_and_bob)
     = Ok (Response.mk 403 (json (json_error "User does not have access")))
  /\ fst (Router.delete_comment (valid_id 10) (valid_id 100)
            (request_of_bob 0 NaN) world_of_ann_and_bob)
     = Ok (Response.mk 200 status_text)
  /\ comments (snd (Router.delete_comment (valid_id 10) (valid_id 100)
                      (request_of_bob 0 NaN) world_of_ann_and_bob))
     = [].
Proof.
  split; [reflexivity|].
  pose proof (delete_comment_route world_of_ann_and_bob (request_of_ann 0 NaN)
                10 100 post_of_ann ann eq_refl eq_refl) as Ha.
  pose proof (delete_comment_route world_of_ann_and_bob (request_of_bob 0 NaN)
                10 100 post_of_ann bob eq_refl eq_refl) as Hb.
  cbn zeta in Ha, Hb.
  change (find (comment_has_id 100) (comments world_of_ann_and_bob))
    with (Some comment_of_bob) in Ha, Hb.
  cbn iota beta in Ha, Hb.
  change (Comment.comment_owner_id comment_of_bob =? User._id ann)%nat
    with false in Ha.
  change (Comment.comment_owner_id comment_of_bob =? User._id bob)%nat
    with true in Hb.
  cbn iota in Ha, Hb.
  destruct Ha as [Ha _]. destruct Hb as (Hb1 & Hb2 & _).
  split; [exact Ha|]. split; [exact Hb1 | exact Hb2].
Defined.


(** ** The likes and the router on the small network *)

Lemma ann_has_not_liked :
  not_liked (LikeValues.mk 10 1) (likes world_of_ann_and_bob).
Proof. intros l [<-|[]]. discriminate. Qed.

Lemma nobody_liked_77 :
  not_liked (LikeValues.mk 77 1) (likes world_of_ann_and_bob).
Proof. intros l [<-|[]]. discriminate. Qed.


Lemma createNewLike_no_post_witness :
  not_liked (LikeValues.mk 77 1) (likes world_of_ann_and_bob)
  /\ (forall p, In p (posts world_of_ann_and_bob) -> Post._id p <> 77%nat)
  /\ fst (createNewLike (LikeValues.mk 77 1) world_of_ann_and_bob)
     = Throw TypeError
  /\ fst (Controllers.createLike (request_of_ann 77 NaN) world_of_ann_and_bob)
     = Ok (Response.mk 400 (json (json_error "Invalid request..."))).
Proof.
  assert (H : forall p, In p (posts world_of_ann_and_bob) -> Post._id p <> 77%nat).
  { intros p [<-|[]]. discriminate. }
  split; [exact nobody_liked_77|]. split; [exact H|].
  destruct (createNewLike_no_post world_of_ann_and_bob (request_of_ann 77 NaN)
              ann eq_refl nobody_liked_77 H)
    as (H1 & _ & H3 & _).
  split; [exact H1 | exact H3].
Defined.

Lemma delLike_not_found_witness :
  not_liked (LikeValues.mk 10 1) (likes world_of_ann_and_bob)
  /\ fst (delLike (LikeValues.mk 10 1) world_of_ann_and_bob) = Ok 404
  /\ same_documents world_of_ann_and_bob
       (snd (delLike (LikeValues.mk 10 1) world_of_ann_and_bob)).
Proof.
  split; [exact ann_has_not_liked|].
  destruct (delLike_not_found world_of_ann_and_bob (request_of_ann 10 NaN)
              ann eq_refl ann_has_not_liked)
    as (H1 & H2 & _).
  split; [exact H1 | exact H2].
Defined.

Lemma like_count_invariant_witness :
  well_formed world_of_ann_and_bob
  /\ forall p,
       In p (posts (serve_likes
                      [create_like 3000 (LikeValues.mk 10 1);
                       create_like 3001 (LikeValues.mk 10 1);
                       delete_like (LikeValues.mk 10 2);
                       delete_like (LikeValues.mk 77 2)]
                      world_of_ann_and_bob)) ->
       Post.post_like_count p
       = likes_on (Post._id p)
           (likes (serve_likes
                     [create_like 3000 (LikeValues.mk 10 1);
                      create_like 3001 (LikeValues.mk 10 1);
                      delete_like (LikeValues.mk 10 2);
                      delete_like (LikeValues.mk 77 2)]
                     world_of_ann_and_bob)).
Proof.
  split; [exact wf_world_of_ann_and_bob|].
  destruct (like_count_invariant world_of_ann_and_bob
              [create_like 3000 (LikeValues.mk 10 1);
               create_like 3001 (LikeValues.mk 10 1);
               delete_like (LikeValues.mk 10 2);
               delete_like (LikeValues.mk 77 2)]
              wf_world_of_ann_and_bob) as (H & _).
  intros p Hp. exact (proj1 (H p Hp)).
Defined.



(** ** What the router never does *)













(** ** Updating and reading the posts of a user *)

Lemma postUpdate_run (id : ObjectId) (post_content : string) (w : World) :
  postUpdate id post_content w
  = (Ok (option_map PostDoc.of_post (find (has_id id) (posts w))),
     mkWorld (users w)
       (update_first (has_id id) (set_post_content post_content) (posts w))
       (comments w) (likes w) (next_id w) (clock w)
       (log w ++ [(Posts, FindByIdAndUpdate)])).
Proof. reflexivity. Qed.

Lemma update_first_none {A} (f : A -> bool) (g : A -> A) (l : list A) :
  find f l = None -> update_first f g l = l.
Proof.
  induction l as [|y l IH]; simpl; [reflexivity|].
  destruct (f y); [discriminate|]. intros H. f_equal. now apply IH.
Qed.

(** X24. [postUpdate] replaces the content of the first post with the id and
    nothing else: the posts are, in their order, what they were with the
    content put aside, the posts with another id and all comments, likes and
    users are as before; it resolves to the document as it was before the
    update, or to no document when no post has the id, and then the posts are
    unchanged. *)
Theorem postUpdate_only_content (w : World) (id : ObjectId)
    (post_content : string) :
  let w' := snd (postUpdate id post_content w) in
  fst (postUpdate id post_content w)
  = Ok (option_map PostDoc.of_post (find (has_id id) (posts w)))
  /\ find (has_id id) (posts w')
     = option_map (set_post_content post_content) (find (has_id id) (posts w))
  /\ map (set_post_content EmptyString) (posts w')
     = map (set_post_content EmptyString) (posts w)
  /\ (forall q, Post._id q <> id -> In q (posts w') <-> In q (posts w))
  /\ comments w' = comments w /\ likes w' = likes w /\ users w' = users w
  /\ match find (has_id id) (posts w) with
     | None => posts w' = posts w
     | Some _ => True
     end.
Proof.
  cbn zeta. rewrite postUpdate_run. cbn [fst snd posts comments likes users].
  split; [reflexivity|]. split.
  { destruct (find (has_id id) (posts w)) as [p|] eqn:Hp; cbn [option_map].
    - apply update_first_find; [exact Hp|].
      apply find_has_id in Hp. unfold has_id. cbn. now apply Nat.eqb_eq.
    - now rewrite update_first_none by exact Hp. }
  split; [now apply update_first_map|].
  split.
  { intros q Hq. apply update_first_In_other.
    - intros y Hy. exact Hy.
    - unfold has_id. now apply Nat.eqb_neq. }
  do 3 (split; [reflexivity|]).
  destruct (find (has_id id) (posts w)) eqn:Hp; [exact I|].
  now apply update_first_none.
Qed.

Lemma userExistsByUsername_run (username : string) (req : Request.t)
    (w : World) :
  Middlewares.userExistsByUsername username req w
  = (Ok (match find (user_has_username username) (users w) with
         | None =>
             respond (Response.mk 404 (json (json_error "User does not exist")))
         | Some u => next (merge_requested_user_identity u req)
         end),
     set_log (log w ++ [(Users, FindOne)]) w).
Proof.
  unfold Middlewares.userExistsByUsername, getUserByUsername, try_catch, bind,
    access, modify, gets, ret.
  cbn. unfold user_has_username.
  now destruct (find _ (users w)).
Qed.

(** X25. The route of the posts of a user answers 404 when no user has the
    username; otherwise, for a page [p] from 1 on, it answers 200 with page
    [p] of the posts owned by the first stored user with the username, in the
    order they were stored, archived or not.  Nothing stored changes. *)
Theorem posts_of_user_route (w : World) (req : Request.t) (username : string)
    (q : Q) (p : Z) :
  1 <= p <= max_exact_page ->
  Request.params_page req = Finite q ->
  Qeq q (inject_Z p) ->
  fst (Router.get_posts_of_user username req w)
  = Ok (match find (user_has_username username) (users w) with
        | None => Response.mk 404 (json (json_error "User does not exist"))
        | Some u =>
            Response.mk 200
              (json (json_posts
                       (map PostDoc.of_post
                          (page_items
                             (filter
                                (fun post =>
                                   (Post.post_owner_id post =? User._id u)%nat)
                                (posts w))
                             p))))
        end)
  /\ same_documents w (snd (Router.get_posts_of_user username req w)).
Proof.
  intros [Hp Hmax] Hpage Hq.
  destruct (whole_page q p Hp Hq) as [Hcheck HtoZ].
  unfold Router.get_posts_of_user. cbn [route]. unfold bind.
  rewrite userExistsByUsername_run.
  destruct (find (user_has_username username) (users w)) as [u|].
  2:{ cbn. repeat split. }
  unfold Controllers.getPostByUsername, try_catch.
  cbn [Request.params_page Request.requested_user_identity
       merge_requested_user_identity].
  rewrite Hpage, Hcheck, HtoZ.
  unfold bind, of_merged, ret.
  unfold getPostsByUserId, bind, access, modify, gets, lift, ret.
  cbn -[page_items].
  rewrite skip_limit_page by assumption. cbn -[page_items]. repeat split.
Qed.

Lemma posts_of_user_route_witness :
  fst (Router.get_posts_of_user "ann" (request_of_bob 0 (Finite 1))
         world_of_ann_and_bob)
  = Ok (Response.mk 200 (json (json_posts [PostDoc.of_post post_of_ann])))
  /\ fst (Router.get_posts_of_user "carol" (request_of_bob 0 (Finite 1))
            world_of_ann_and_bob)
     = Ok (Response.mk 404 (json (json_error "User does not exist"))).
Proof.
  assert (H1 : 1 <= 1 <= max_exact_page) by (unfold max_exact_page; lia).
  assert (Hq : Qeq 1 (inject_Z 1)) by reflexivity.
  split.
  - exact (proj1 (posts_of_user_route world_of_ann_and_bob
                    (request_of_bob 0 (Finite 1)) "ann" 1%Q 1 H1 eq_refl Hq)).
  - exact (proj1 (posts_of_user_route world_of_ann_and_bob
                    (request_of_bob 0 (Finite 1)) "carol" 1%Q 1 H1 eq_refl Hq)).
Defined.
